(** * stdnet.odm.session: the unit of work of the object data mapper

    A shallow embedding of [src/stdnet/odm/session.py]: the per-model
    buckets of a session ([SessionModel], [SessionStructure]), the
    [Session] and [Transaction] objects that own them, and the [Manager]
    used as the key of a session's models.

    Python objects are mutable and shared, so instances live in a heap
    indexed by object identity and the buckets hold identities.  A method
    is a state transformer that returns a value or raises; what it wrote
    before raising stays written. *)

From Stdlib Require Import List ZArith Bool Arith String Ascii Lia.
From Stdlib Require Import Decimal DecimalString.
Import ListNotations.

Set Implicit Arguments.

(** ** Exceptions and the method monad *)

Inductive ExcClass : Type :=
| ValueError
| InvalidTransaction
| AttributeError
| BackendError (tag : nat).

(** [CommitException] carries the keyword attribute [failures]. *)
Inductive Exception : Type :=
| Exc (cls : ExcClass) (msg : string)
| CommitException (msg : string) (failures : nat).

(** [str(e)] *)
Definition exc_str (e : Exception) : string :=
  match e with
  | Exc _ msg => msg
  | CommitException msg _ => msg
  end.

Inductive Outcome (A : Type) : Type :=
| Return (a : A)
| Raise (e : Exception).

Arguments Return {A} a.
Arguments Raise {A} e.

Definition Py (S A : Type) : Type := S -> Outcome A * S.

Definition ret {S A : Type} (a : A) : Py S A := fun s => (Return a, s).

Definition raise {S A : Type} (e : Exception) : Py S A := fun s => (Raise e, s).

Definition bind {S A B : Type} (m : Py S A) (k : A -> Py S B) : Py S B :=
  fun s =>
    match m s with
    | (Return a, s') => k a s'
    | (Raise e, s') => (Raise e, s')
    end.

Definition gets {S A : Type} (f : S -> A) : Py S A := fun s => (Return (f s), s).

Definition modify {S : Type} (f : S -> S) : Py S unit := fun s => (Return tt, f s).

Declare Scope py_scope.
Delimit Scope py_scope with py.

Notation "x <- m ;; k" := (bind m (fun x => k))
  (at level 100, m at next level, right associativity) : py_scope.
Notation "' pat <- m ;; k" := (bind m (fun x => match x with pat => k end))
  (at level 100, pat pattern, m at next level, right associativity) : py_scope.
Notation "m ;;; k" := (bind m (fun _ => k))
  (at level 100, right associativity) : py_scope.

Local Open Scope py_scope.

(** A [for] loop threading one local variable through the iterations. *)
Fixpoint for_each {S A B : Type} (f : B -> A -> Py S B) (xs : list A) (acc : B)
  : Py S B :=
  match xs with
  | [] => ret acc
  | x :: rest => acc' <- f acc x ;; for_each f rest acc'
  end.

(** ** Text formatting *)

Definition nl : string := String (ascii_of_nat 10) EmptyString.
Definition dquote : string := String (ascii_of_nat 34) EmptyString.

(** ['{0}'.format(n)] for a non-negative integer *)
Definition str_nat (n : nat) : string := NilZero.string_of_uint (Nat.to_uint n).

Definition str_Z (z : Z) : string := NilZero.string_of_int (Z.to_int z).

(** [sep.join(parts)] *)
Fixpoint join (sep : string) (parts : list string) : string :=
  match parts with
  | [] => EmptyString
  | [p] => p
  | p :: rest => (p ++ sep ++ join sep rest)%string
  end.

(** ** OrderedDict

    An insertion-ordered dictionary as an association list.  Assigning to
    a key that is present keeps its position; a new key goes last. *)

Module OrderedDict.
Section Keyed.
Context {K V : Type}.
Variable eqb : K -> K -> bool.

Definition t : Type := list (K * V).

Fixpoint get (k : K) (d : t) : option V :=
  match d with
  | [] => None
  | (k', v) :: rest => if eqb k k' then Some v else get k rest
  end.

(** [k in d] *)
Definition contains (k : K) (d : t) : bool :=
  match get k d with Some _ => true | None => false end.

(** the dictionary left by [d.pop(k)] *)
Definition remove (k : K) (d : t) : t :=
  filter (fun kv => negb (eqb k (fst kv))) d.

(** [d[k] = v] *)
Fixpoint set (k : K) (v : V) (d : t) : t :=
  match d with
  | [] => [(k, v)]
  | (k', v') :: rest =>
      if eqb k k' then (k', v) :: rest else (k', v') :: set k v rest
  end.

Definition keys (d : t) : list K := map fst d.
Definition values (d : t) : list V := map snd d.

End Keyed.
End OrderedDict.

(** ** Instances and their state *)

(** Python object identity, [id(obj)] *)
Definition oid : Type := nat.
(** identity of a [Session] object *)
Definition sid : Type := nat.
(** identity of a [Transaction] object *)
Definition tid : Type := nat.

(** The key of an instance in a bucket: its primary key, or the token
    ['new.<id(instance)>'] of an instance that has none. *)
Inductive Iid : Type :=
| IidPk (v : Z)
| IidNew (o : oid).

Definition Iid_eqb (a b : Iid) : bool :=
  match a, b with
  | IidPk x, IidPk y => Z.eqb x y
  | IidNew x, IidNew y => Nat.eqb x y
  | _, _ => false
  end.

Definition str_Iid (k : Iid) : string :=
  match k with
  | IidPk v => str_Z v
  | IidNew o => ("new." ++ str_nat o)%string
  end.

Inductive Action : Type := Update.

(** Modelled from the spec: [ModelState] (stdnet/odm/base.py is not under
    src/).  Section 3 of the specification gives its attributes: [iid],
    [persistent], [deleted], the optional [action] hint and [score]. *)
Record ModelState : Type := {
  st_iid : Iid;
  st_persistent : bool;
  st_deleted : bool;
  st_action : option Action;
  st_score : Z
}.

(** Modelled from the spec: the backend data server, whose class is not
    under src/.  It is an opaque adapter; what the session needs of it
    is which endpoint it is.  A manager may have none ([backend=None]). *)
Definition Backend : Type := nat.

(** Modelled from the spec: [be == rbe], the comparison of the backend
    class (not under src/): the two are the same endpoint. *)
Definition Backend_eqb (a b : option Backend) : bool :=
  match a, b with
  | Some x, Some y => Nat.eqb x y
  | None, None => true
  | _, _ => false
  end.

(** [model._model_type] *)
Inductive ModelType : Type := ObjectModel | StructureModel.

(** Modelled from the spec: model metadata, [model._meta], whose class
    is not under src/: an object with its identity (which is also its
    hash), its [repr], the name of the model class ([__name__], which
    Python writes in the messages about the class), the type tag of its
    model and the primary-key coercion [pk_to_python(raw, backend)]. *)
Record Meta : Type := {
  meta_id : nat;
  meta_repr : string;
  model_name : string;
  _model_type : ModelType;
  pk_to_python : Z -> option Backend -> Z
}.

(** What session.py touches of a model instance: its [_meta], the
    primary-key attribute ([pkvalue()], [setattr(instance, pkname, id)]),
    the stored primary key [_dbdata[pkname]], the cached state
    [_dbdata['state']] and the [session] back-reference. *)
Record Instance : Type := {
  instance_meta : Meta;
  pk : option Z;
  dbdata_pk : option Z;
  state : ModelState;
  session : option sid
}.

(** A store of objects by identity, and the assignment to one of them *)
Definition upd {A : Type} (h : nat -> A) (o : nat) (v : A) : nat -> A :=
  fun o' => if Nat.eqb o' o then v else h o'.

Definition Heap : Type := oid -> Instance.

Definition with_state (i : Instance) (st : ModelState) : Instance :=
  {| instance_meta := instance_meta i; pk := pk i; dbdata_pk := dbdata_pk i;
     state := st; session := session i |}.

Definition with_session (i : Instance) (s : option sid) : Instance :=
  {| instance_meta := instance_meta i; pk := pk i; dbdata_pk := dbdata_pk i;
     state := state i; session := s |}.

Definition with_pk (i : Instance) (v : option Z) : Instance :=
  {| instance_meta := instance_meta i; pk := v; dbdata_pk := dbdata_pk i;
     state := state i; session := session i |}.

Definition with_dbdata_pk (i : Instance) (v : option Z) : Instance :=
  {| instance_meta := instance_meta i; pk := pk i; dbdata_pk := v;
     state := state i; session := session i |}.

Definition with_deleted (st : ModelState) (b : bool) : ModelState :=
  {| st_iid := st_iid st; st_persistent := st_persistent st; st_deleted := b;
     st_action := st_action st; st_score := st_score st |}.

Definition with_score (st : ModelState) (sc : Z) : ModelState :=
  {| st_iid := st_iid st; st_persistent := st_persistent st;
     st_deleted := st_deleted st; st_action := st_action st; st_score := sc |}.

(** Modelled from the spec: the state built by [instance.get_state(iid=...,
    action=...)] (stdnet/odm/base.py is not under src/).  The key is the
    [iid] argument when given, else the primary-key attribute; without
    either the instance is unsaved and gets its local token.  The backend
    is known to hold the row when there is a key and a stored primary key.
    A fresh state is neither deleted nor scored. *)
Definition new_state (o : oid) (i : Instance) (iid : option Iid)
    (action : option Action) : ModelState :=
  let key := match iid with
             | Some k => Some k
             | None => option_map IidPk (pk i)
             end in
  match key with
  | Some k =>
      {| st_iid := k;
         st_persistent := match dbdata_pk i with Some _ => true | None => false end;
         st_deleted := false; st_action := action; st_score := 0%Z |}
  | None =>
      {| st_iid := IidNew o; st_persistent := false; st_deleted := false;
         st_action := None; st_score := 0%Z |}
  end.

(** ** Managers, queries and the buckets of one model *)

(** [Manager(model, backend, read_backend)].  [manager_id] is the identity
    of the manager object; [model] stands for the model class through its
    metadata. *)
Record Manager : Type := {
  manager_id : oid;
  model : Meta;
  _backend : option Backend;
  _read_backend : option Backend
}.

(** [Manager._meta] *)
Definition Manager_meta (m : Manager) : Meta := model m.

(** [Manager.backend] *)
Definition Manager_backend (m : Manager) : option Backend := _backend m.

(** [Manager.read_backend]: [self._read_backend or self._backend] *)
Definition Manager_read_backend (m : Manager) : option Backend :=
  match _read_backend m with
  | Some b => Some b
  | None => _backend m
  end.

(** [Manager.__hash__]: [hash(self.model._meta)] *)
Definition Manager_hash (m : Manager) : nat := meta_id (model m).

(** [m1 is m2] *)
Definition Manager_is (m1 m2 : Manager) : bool :=
  Nat.eqb (manager_id m1) (manager_id m2).

(** [m1 == m2].  The class defines [__hash__] and no [__eq__], so the
    comparison is the one inherited from [object]: identity. *)
Definition Manager_eq (m1 m2 : Manager) : bool := Manager_is m1 m2.

(** When a dictionary takes [k2] for the key [k1] it already holds: the
    hashes agree and the objects are identical or compare equal. *)
Definition dict_key_match {K : Type} (hash : K -> nat)
    (is_ eq : K -> K -> bool) (k1 k2 : K) : bool :=
  Nat.eqb (hash k1) (hash k2) && (is_ k1 k2 || eq k1 k2).

Definition Manager_key (m1 m2 : Manager) : bool :=
  dict_key_match Manager_hash Manager_is Manager_eq m1 m2.

#[local] Set Warnings "-register-all".
(** Modelled from the spec: queries, whose module is not under src/.
    They are opaque to the session, belong to a session and can be
    unioned.  [QInstance] is a deleted structure standing in the list of
    queries, [QUnion q rest] is [q.union( *rest)]. *)
Inductive Query : Type :=
| QUser (tag : nat) (owner : sid)
| QInstance (o : oid)
| QUnion (q : Query) (rest : list Query).
#[local] Set Warnings "register-all".

Definition Bucket : Type := @OrderedDict.t Iid oid.

(** The class of a bucket object: [SessionStructure] overrides [add]. *)
Inductive SessionClass : Type := SessionModelClass | SessionStructureClass.

Record SessionModel : Type := {
  sm_class : SessionClass;
  manager : Manager;
  _new : Bucket;
  _deleted : Bucket;
  _delete_query : list Query;
  _modified : Bucket;
  _queries : list Query
}.

(** [SessionModel(manager)], [SessionStructure(manager)] *)
Definition SessionModel_init (c : SessionClass) (m : Manager) : SessionModel :=
  {| sm_class := c; manager := m; _new := []; _deleted := [];
     _delete_query := []; _modified := []; _queries := [] |}.

Inductive BucketName : Type := BNew | BModified | BDeleted.

Definition bucket (b : BucketName) (sm : SessionModel) : Bucket :=
  match b with
  | BNew => _new sm
  | BModified => _modified sm
  | BDeleted => _deleted sm
  end.

Definition with_bucket (b : BucketName) (d : Bucket) (sm : SessionModel)
  : SessionModel :=
  {| sm_class := sm_class sm; manager := manager sm;
     _new := match b with BNew => d | _ => _new sm end;
     _deleted := match b with BDeleted => d | _ => _deleted sm end;
     _delete_query := _delete_query sm;
     _modified := match b with BModified => d | _ => _modified sm end;
     _queries := _queries sm |}.

Definition with_delete_query (qs : list Query) (sm : SessionModel)
  : SessionModel :=
  {| sm_class := sm_class sm; manager := manager sm; _new := _new sm;
     _deleted := _deleted sm; _delete_query := qs; _modified := _modified sm;
     _queries := _queries sm |}.

(** [SessionModel.__len__] *)
Definition SessionModel_len (sm : SessionModel) : nat :=
  List.length (_new sm) + List.length (_modified sm) + List.length (_deleted sm).

(** [SessionModel.new], [.modified], [.deleted], [.dirty] *)
Definition SessionModel_new (sm : SessionModel) : list oid :=
  OrderedDict.values (_new sm).
Definition SessionModel_modified (sm : SessionModel) : list oid :=
  OrderedDict.values (_modified sm).
Definition SessionModel_deleted (sm : SessionModel) : list oid :=
  OrderedDict.values (_deleted sm).
Definition SessionModel_dirty (sm : SessionModel) : list oid :=
  OrderedDict.values (_new sm) ++ OrderedDict.values (_modified sm).

(** [iid in self._new or iid in self._modified or iid in self._deleted] *)
Definition has_iid (k : Iid) (sm : SessionModel) : bool :=
  OrderedDict.contains Iid_eqb k (_new sm)
  || OrderedDict.contains Iid_eqb k (_modified sm)
  || OrderedDict.contains Iid_eqb k (_deleted sm).

(** [SessionModel.get] *)
Definition SessionModel_get (k : Iid) (sm : SessionModel) : option oid :=
  if OrderedDict.contains Iid_eqb k (_modified sm)
  then OrderedDict.get Iid_eqb k (_modified sm)
  else if OrderedDict.contains Iid_eqb k (_deleted sm)
  then OrderedDict.get Iid_eqb k (_deleted sm)
  else None.

(** The state a method of a [SessionModel] works on: the instance heap
    and the bucket object itself. *)
Record SMState : Type := {
  heap : Heap;
  self : SessionModel
}.

Definition set_self (f : SessionModel -> SessionModel) : Py SMState unit :=
  modify (fun s => {| heap := heap s; self := f (self s) |}).

Definition set_instance (o : oid) (f : Instance -> Instance) : Py SMState unit :=
  modify (fun s => {| heap := upd (heap s) o (f (heap s o)); self := self s |}).

(** [instance.get_state()]: the cached state *)
Definition get_state (o : oid) : Py SMState ModelState :=
  gets (fun s => state (heap s o)).

(** [instance.get_state(iid=..., action=...)]: a new state, cached *)
Definition get_state_with (o : oid) (iid : option Iid) (action : option Action)
  : Py SMState ModelState :=
  i <- gets (fun s => heap s o) ;;
  let st := new_state o i iid action in
  set_instance o (fun i => with_state i st) ;;;
  ret st.

(** [SessionModel.__contains__] *)
Definition SessionModel_contains (o : oid) : Py SMState bool :=
  st <- get_state o ;;
  gets (fun s => has_iid (st_iid st) (self s)).

(** The argument of [pop] and [expunge]: a model instance or an id. *)
Inductive PopArg : Type :=
| ArgInstance (o : oid)
| ArgIid (k : Iid).

Definition duplicated_msg (k : Iid) : string :=
  ("Critical error: " ++ str_Iid k ++ " is duplicated")%string.

(** One iteration of the loop of [pop] over the bucket [d]. *)
Definition pop_from (iid : Iid) (instance : option oid) (b : BucketName)
  : Py SMState (option oid) :=
  d <- gets (fun s => bucket b (self s)) ;;
  match OrderedDict.get Iid_eqb iid d with
  | None => ret instance
  | Some inst =>
      set_self (with_bucket b (OrderedDict.remove Iid_eqb iid d)) ;;;
      match instance with
      | None => ret (Some inst)
      | Some i0 =>
          if Nat.eqb inst i0 then ret instance
          else raise (Exc ValueError (duplicated_msg iid))
      end
  end.

(** [SessionModel.pop] *)
Definition SessionModel_pop (instance : PopArg) : Py SMState (option oid) :=
  iid <- match instance with
         | ArgInstance o => st <- get_state o ;; ret (st_iid st)
         | ArgIid k => ret k
         end ;;
  for_each (pop_from iid) [BNew; BModified; BDeleted] None.

Definition none_session_msg : string :=
  "'NoneType' object has no attribute 'session'".

(** [SessionModel.expunge] *)
Definition SessionModel_expunge (instance : PopArg) : Py SMState oid :=
  instance <- SessionModel_pop instance ;;
  match instance with
  | None => raise (Exc AttributeError none_session_msg)
  | Some o =>
      set_instance o (fun i => with_session i None) ;;;
      ret o
  end.

(** [SessionModel.add] *)
Definition SessionModel_add_base (instance : oid) (modified : bool)
    (persistent : option bool) (force_update : bool) : Py SMState oid :=
  state <- get_state instance ;;
  if st_deleted state
  then raise (Exc ValueError "State is deleted. Cannot add.")
  else
    SessionModel_pop (ArgIid (st_iid state)) ;;;
    let pers := match persistent with
                | Some p => p
                | None => st_persistent state
                end in
    state <- (if negb pers then
                set_instance instance (fun i => with_dbdata_pk i None) ;;;
                get_state_with instance None None
              else if match persistent with Some p => p | None => false end then
                set_instance instance (fun i => with_dbdata_pk i (pk i)) ;;;
                pkvalue <- gets (fun s => pk (heap s instance)) ;;
                get_state_with instance (option_map IidPk pkvalue) None
              else
                let action := if force_update then Some Update else None in
                get_state_with instance (Some (st_iid state)) action) ;;
    let iid := st_iid state in
    (if st_persistent state then
       if modified
       then set_self (fun sm => with_bucket BModified
                         (OrderedDict.set Iid_eqb iid instance (_modified sm)) sm)
       else ret tt
     else set_self (fun sm => with_bucket BNew
                       (OrderedDict.set Iid_eqb iid instance (_new sm)) sm)) ;;;
    ret instance.

(** [SessionStructure.add] *)
Definition SessionStructure_add (instance : oid) (modified : bool)
  : Py SMState oid :=
  state <- get_state instance ;;
  set_instance instance (fun i => with_state i (with_deleted state false)) ;;;
  (if negb modified
   then SessionModel_pop (ArgInstance instance) ;;; ret tt
   else ret tt) ;;;
  set_self (fun sm => with_bucket BModified
               (OrderedDict.set Iid_eqb (st_iid state) instance (_modified sm)) sm) ;;;
  ret instance.

(** [sm.add(...)], dispatched on the class of [sm] *)
Definition SessionModel_add (instance : oid) (modified : bool)
    (persistent : option bool) (force_update : bool) : Py SMState oid :=
  c <- gets (fun s => sm_class (self s)) ;;
  match c with
  | SessionModelClass => SessionModel_add_base instance modified persistent force_update
  | SessionStructureClass => SessionStructure_add instance modified
  end.

(** [SessionModel.delete] *)
Definition SessionModel_delete (instance : oid) (session : sid)
  : Py SMState (option oid) :=
  inst <- SessionModel_pop (ArgInstance instance) ;;
  let instance := match inst with Some i => i | None => instance end in
  state <- get_state instance ;;
  (if st_persistent state then
     set_instance instance (fun i => with_state i (with_deleted state true)) ;;;
     set_self (fun sm => with_bucket BDeleted
                  (OrderedDict.set Iid_eqb (st_iid state) instance (_deleted sm)) sm) ;;;
     set_instance instance (fun i => with_session i (Some session))
   else
     set_instance instance (fun i => with_session i None)) ;;;
  ret (Some instance).

(** ** Results of a commit *)

(** Modelled from the spec: [instance_session_result(iid, id,
    persistent, deleted, score)], declared outside src/; the
    InstanceResult of section 4.7. *)
Record InstanceResult : Type := {
  r_iid : Iid;
  r_id : Z;
  r_persistent : bool;
  r_deleted : bool;
  r_score : Z
}.

(** An item of the results of one model: an exception or a result. *)
Inductive BackendResult : Type :=
| ResultError (e : Exception)
| ResultOk (r : InstanceResult).

(** [type(self).__name__] *)
Definition SessionClass_name (c : SessionClass) : string :=
  match c with
  | SessionModelClass => "SessionModel"
  | SessionStructureClass => "SessionStructure"
  end.

(** The message of the [AttributeError] of [self.meta]: the class has
    [_meta] and no [meta]. *)
Definition no_meta_msg (c : SessionClass) : string :=
  ("'" ++ SessionClass_name c ++ "' object has no attribute 'meta'")%string.

(** [str(self)] is [self._meta.__repr__()]. *)
Definition not_in_session_msg (sm : SessionModel) (k : Iid) : string :=
  (meta_repr (Manager_meta (manager sm)) ++ " session received id " ++ dquote
   ++ str_Iid k ++ dquote ++ " which is not in the session.")%string.

(** The body of the loop of [post_commit].  For an exception the wrapped
    error is built from [self.meta]; the class has the property [_meta]
    and no attribute [meta], so the lookup raises. *)
Definition post_commit_step (acc : list oid * list Z * list Exception)
    (result : BackendResult)
  : Py SMState (list oid * list Z * list Exception) :=
  let '(instances, deleted, errors) := acc in
  match result with
  | ResultError _ =>
      sm <- gets self ;;
      raise (Exc AttributeError (no_meta_msg (sm_class sm)))
  | ResultOk r =>
      instance <- SessionModel_pop (ArgIid (r_iid r)) ;;
      sm <- gets self ;;
      let id := pk_to_python (Manager_meta (manager sm)) (r_id r)
                  (Manager_backend (manager sm)) in
      if r_deleted r then ret (instances, deleted ++ [id], errors)
      else
        match instance with
        | None => raise (Exc InvalidTransaction (not_in_session_msg sm (r_iid r)))
        | Some o =>
            set_instance o (fun i => with_pk i (Some id)) ;;;
            o <- SessionModel_add o false (Some (r_persistent r)) false ;;
            set_instance o (fun i => with_state i (with_score (state i) (r_score r))) ;;;
            st <- get_state o ;;
            if st_persistent st
            then ret (instances ++ [o], deleted, errors)
            else ret (instances, deleted, errors)
        end
  end.

(** [SessionModel.post_commit] *)
Definition SessionModel_post_commit (results : list BackendResult)
  : Py SMState (list oid * list Z * list Exception) :=
  for_each post_commit_step results ([], [], []).

(** The message of the [AttributeError] of [self.query()]:
    [SessionModel.query] hands the model class to [Manager.query] as its
    [session], which then looks [query] up on the class. *)
Definition no_query_msg (m : Meta) : string :=
  ("type object '" ++ model_name m ++ "' has no attribute 'query'")%string.

(** [SessionModel.query]: [self.manager.query(self.model)], that is
    [Manager.query(session=self.model)]: the session given is not [None],
    so it is used, and [session.query] is looked up on the model class.
    Modelled from the spec: the model class (not under src/) is reached
    through its managers ([Router[model]], [I.objects]) and has no
    attribute [query] of its own, so the lookup raises. *)
Definition SessionModel_query {A : Type} : Py SMState A :=
  sm <- gets self ;;
  raise (Exc AttributeError (no_query_msg (model (manager sm)))).

(** [SessionModel.get_delete_query].  [queries] is the list
    [self._delete_query] itself, so [append] and [extend] write to it.
    For an object model with deleted instances, [self.query()] raises
    after [self._deleted.clear()]. *)
Definition SessionModel_get_delete_query : Py SMState (option Query) :=
  sm <- gets self ;;
  let queries := _delete_query sm in
  let deleted := SessionModel_deleted sm in
  queries <- match deleted with
             | [] => ret queries
             | _ :: _ =>
                 set_self (with_bucket BDeleted []) ;;;
                 match _model_type (model (manager sm)) with
                 | ObjectModel => SessionModel_query
                 | StructureModel =>
                     let queries := queries ++ map QInstance deleted in
                     set_self (with_delete_query queries) ;;;
                     ret queries
                 end
             end ;;
  match queries with
  | [] => ret None
  | q :: rest =>
      set_self (with_delete_query []) ;;;
      ret (Some (match rest with [] => q | _ :: _ => QUnion q rest end))
  end.

(** Modelled from the spec: [session_data(meta, dirty, deletes,
    queries)], declared outside src/; the SessionData of section 6.  An
    absent delete query is [None] in the combined and write payloads and
    the empty tuple in the read payload; both are [None] here. *)
Record SessionData : Type := {
  sd_meta : Meta;
  sd_dirty : list oid;
  sd_deletes : option Query;
  sd_queries : list Query
}.

(** Modelled from the spec: the four signals of section 4.6 (the
    signals module is not under src/), as the events sent. *)
Inductive Signal : Type :=
| pre_delete (sender : Meta) (instances : Query)
| pre_commit (sender : Meta) (instances : list oid)
| post_delete (sender : Meta) (ids : list Z)
| post_commit (sender : Meta) (instances : list oid).

Definition ModelDictionary (V : Type) : Type := @OrderedDict.t nat V.

Record Transaction : Type := {
  name : string;
  tx_session : option sid;
  signal_commit : bool;
  signal_delete : bool;
  deleted : ModelDictionary (list Z);
  saved : ModelDictionary (list oid);
  _finished : bool
}.

(** Truth value of a tuple or list *)
Definition nonempty {A : Type} (l : list A) : bool :=
  match l with [] => false | _ :: _ => true end.

Definition is_some {A : Type} (x : option A) : bool :=
  match x with Some _ => true | None => false end.

(** [SessionModel.backends_data]: the signals sent and the pairs yielded,
    in order.  A delete query counts as true when there is one (the
    query class is not under src/; the spec: "deletes exist"). *)
Definition SessionModel_backends_data (transaction : Transaction)
  : Py SMState (list Signal * list (option Backend * SessionData)) :=
  sm <- gets self ;;
  let be := Manager_backend (manager sm) in
  let rbe := Manager_read_backend (manager sm) in
  let meta := Manager_meta (manager sm) in
  let dirty := SessionModel_dirty sm in
  deletes <- SessionModel_get_delete_query ;;
  let queries := _queries sm in
  if nonempty dirty || is_some deletes || nonempty queries then
    let sent_delete :=
      match deletes with
      | Some q => if signal_delete transaction then [pre_delete meta q] else []
      | None => []
      end in
    let sent_commit :=
      if nonempty dirty && signal_commit transaction
      then [pre_commit meta dirty] else [] in
    let yielded :=
      if Backend_eqb be rbe then
        [(be, {| sd_meta := meta; sd_dirty := dirty; sd_deletes := deletes;
                 sd_queries := queries |})]
      else
        (if nonempty dirty || is_some deletes
         then [(be, {| sd_meta := meta; sd_dirty := dirty;
                       sd_deletes := deletes; sd_queries := [] |})]
         else [])
        ++
        (if nonempty queries
         then [(rbe, {| sd_meta := meta; sd_dirty := []; sd_deletes := None;
                        sd_queries := queries |})]
         else []) in
    ret (sent_delete ++ sent_commit, yielded)
  else ret ([], []).

(** ** Sessions and transactions *)

(** Modelled from the spec: a session's router, [router[model]], whose
    class is not under src/: the manager registered for a model, looked
    up by the identity of its metadata. *)
Definition Router : Type := nat -> option Manager.

(** identity of a [SessionModel] object *)
Definition smid : Type := nat.

(** [_models] maps a manager to a bucket object. *)
Record Session : Type := {
  transaction : option tid;
  _models : @OrderedDict.t Manager smid;
  _router : Router
}.

(** The objects a session method can reach, by identity: instances,
    bucket objects, sessions and transactions; [next_id] is the identity
    the next object created gets. *)
Record World : Type := {
  instances : Heap;
  models : smid -> SessionModel;
  sessions : sid -> Session;
  transactions : tid -> Transaction;
  next_id : nat
}.

Definition with_instance (o : oid) (f : Instance -> Instance) : Py World unit :=
  modify (fun w =>
    {| instances := upd (instances w) o (f (instances w o));
       models := models w; sessions := sessions w;
       transactions := transactions w; next_id := next_id w |}).

Definition with_sessions (s : sid) (f : Session -> Session) : Py World unit :=
  modify (fun w =>
    {| instances := instances w; models := models w;
       sessions := upd (sessions w) s (f (sessions w s));
       transactions := transactions w; next_id := next_id w |}).

Definition with_transactions (t : tid) (f : Transaction -> Transaction)
  : Py World unit :=
  modify (fun w =>
    {| instances := instances w; models := models w; sessions := sessions w;
       transactions := upd (transactions w) t (f (transactions w t));
       next_id := next_id w |}).

(** The identity of a new object *)
Definition fresh : Py World nat :=
  fun w =>
    (Return (next_id w),
     {| instances := instances w; models := models w; sessions := sessions w;
        transactions := transactions w; next_id := S (next_id w) |}).

Definition set_transaction (v : option tid) (ss : Session) : Session :=
  {| transaction := v; _models := _models ss; _router := _router ss |}.

Definition set_models (d : @OrderedDict.t Manager smid) (ss : Session)
  : Session :=
  {| transaction := transaction ss; _models := d; _router := _router ss |}.

Definition set_tx_session (v : option sid) (t : Transaction) : Transaction :=
  {| name := name t; tx_session := v; signal_commit := signal_commit t;
     signal_delete := signal_delete t; deleted := deleted t; saved := saved t;
     _finished := _finished t |}.

(** [Session.__len__], which is also the truth value of a session *)
Definition Session_len (ss : Session) : nat := List.length (_models ss).

(** [Session(router)] *)
Definition Session_init (router : Router) : Session :=
  {| transaction := None; _models := []; _router := router |}.

(** [Transaction(session, name, signal_commit, signal_delete)]; the name
    is [name or 'transaction'], so an empty name gives the default too. *)
Definition Transaction_init (session : sid) (nm : option string)
    (sig_commit sig_delete : bool) : Transaction :=
  {| name := match nm with
             | Some (String c n) => String c n
             | _ => "transaction"%string
             end;
     tx_session := Some session; signal_commit := sig_commit;
     signal_delete := sig_delete; deleted := []; saved := [];
     _finished := false |}.

(** [Transaction.executed] *)
Definition Transaction_executed (t : Transaction) : bool :=
  negb (is_some (tx_session t)).

(** [Session.begin] with the default options *)
Definition Session_begin (s : sid) : Py World tid :=
  tx <- gets (fun w => transaction (sessions w s)) ;;
  match tx with
  | Some _ => raise (Exc InvalidTransaction "A transaction is already begun.")
  | None =>
      t <- fresh ;;
      with_transactions t (fun _ => Transaction_init s None true true) ;;;
      with_sessions s (set_transaction (Some t)) ;;;
      ret t
  end.

(** [Session.manager] *)
Definition Session_manager (s : sid) (m : Meta) : Py World Manager :=
  router <- gets (fun w => _router (sessions w s)) ;;
  match router (meta_id m) with
  | Some mg => ret mg
  | None =>
      raise (Exc InvalidTransaction
               (dquote ++ meta_repr m ++ dquote ++ " not session mapper"))
  end.

(** [Session.model]: the bucket object of a model, created on demand. *)
Definition Session_model (s : sid) (m : Meta) (create : bool)
  : Py World (option smid) :=
  mg <- Session_manager s m ;;
  held <- gets (fun w => _models (sessions w s)) ;;
  match OrderedDict.get Manager_key mg held with
  | Some sm => ret (Some sm)
  | None =>
      if create then
        sm <- fresh ;;
        let object := match _model_type (model mg) with
                      | StructureModel => SessionModel_init SessionStructureClass mg
                      | ObjectModel => SessionModel_init SessionModelClass mg
                      end in
        modify (fun w =>
          {| instances := instances w; models := upd (models w) sm object;
             sessions := sessions w; transactions := transactions w;
             next_id := next_id w |}) ;;;
        with_sessions s (fun ss =>
          set_models (OrderedDict.set Manager_key mg sm (_models ss)) ss) ;;;
        ret (Some sm)
      else ret None
  end.

(** A method of the bucket object [sm], run on the world. *)
Definition call_model {A : Type} (sm : smid) (method : Py SMState A)
  : Py World A :=
  fun w =>
    let '(r, st) := method {| heap := instances w; self := models w sm |} in
    (r, {| instances := heap st; models := upd (models w) sm (self st);
           sessions := sessions w; transactions := transactions w;
           next_id := next_id w |}).

(** [Session.__contains__] *)
Definition Session_contains (s : sid) (instance : oid) : Py World bool :=
  meta <- gets (fun w => instance_meta (instances w instance)) ;;
  sm <- Session_model s meta false ;;
  match sm with
  | Some sm => call_model sm (SessionModel_contains instance)
  | None => ret false
  end.

(** [Session.expunge()] without an instance.  With an instance the
    method looks [_models] up by [instance._meta], whose comparison with
    the manager keys belongs to the metaclass, not under src/. *)
Definition Session_expunge_all (s : sid) : Py World unit :=
  with_sessions s (set_models []).

(** [Transaction.rollback] *)
Definition Transaction_rollback (t : tid) : Py World unit :=
  tx <- gets (fun w => transactions w t) ;;
  match tx_session tx with
  | None => ret tt
  | Some s =>
      ss <- gets (fun w => sessions w s) ;;
      if Nat.eqb (Session_len ss) 0 then ret tt
      else
        Session_expunge_all s ;;;
        with_sessions s (set_transaction None) ;;;
        with_transactions t (set_tx_session None)
  end.

(** How [Session.add] returns: the instance itself, or the deferred
    result of [self.commit()] that resolves to it. *)
Inductive Added : Type :=
| Immediate (o : oid)
| AfterCommit (o : oid).

(** An item of a backend response: an exception, the results of one
    model ([session_result(meta, results)]), or anything else. *)
Inductive ResponseItem : Type :=
| ResponseError (e : Exception)
| ResponseModel (meta : Meta) (results : list BackendResult)
| ResponseOther.

(** The message of the [CommitException] raised for the collected
    exceptions. *)
Definition commit_error (exceptions : list Exception) : string :=
  let failures := List.length exceptions in
  if Nat.ltb 1 failures then
    ("There were " ++ str_nat failures ++ " exceptions during commit."
     ++ nl ++ nl ++ join (nl ++ nl) (map exc_str exceptions))%string
  else
    match exceptions with
    | e :: _ => exc_str e
    | [] => EmptyString
    end.

Section Collaborators.

(** [Session.commit()] drives the backends through stdnet.utils.async;
    neither is under src/.  Its effect on the world is a parameter. *)
Variable Session_commit : sid -> Py World unit.

(** What the subscribers of a signal return to [send] and
    [send_robust]: values, or deferreds that failed. *)
Variable send : Signal -> list (Outcome unit).

(** [Session.add] *)
Definition Session_add (s : sid) (instance : oid) (modified : bool)
    (persistent : option bool) (force_update : bool) : Py World Added :=
  meta <- gets (fun w => instance_meta (instances w instance)) ;;
  sm <- Session_model s meta true ;;
  match sm with
  | None => raise (Exc AttributeError "'NoneType' object has no attribute 'add'")
  | Some sm =>
      with_instance instance (fun i => with_session i (Some s)) ;;;
      o <- call_model sm
             (SessionModel_add instance modified persistent force_update) ;;
      tx <- gets (fun w => transaction (sessions w s)) ;;
      if modified && negb (is_some tx)
      then Session_commit s ;;; ret (AfterCommit o)
      else ret (Immediate o)
  end.

(** The body of the first loop of [_post_commit]. *)
Definition post_commit_scan (t : tid) (session : sid)
    (acc : list Signal * list Exception) (result : ResponseItem)
  : Py World (list Signal * list Exception) :=
  let '(signals, exceptions) := acc in
  match result with
  | ResponseError e => ret (signals, exceptions ++ [e])
  | ResponseOther => ret (signals, exceptions)
  | ResponseModel meta [] => ret (signals, exceptions)
  | ResponseModel meta result =>
      sm <- Session_model session meta true ;;
      match sm with
      | None => raise (Exc AttributeError
                         "'NoneType' object has no attribute 'post_commit'")
      | Some sm =>
          '(saved_, deleted_, errors) <-
             call_model sm (SessionModel_post_commit result) ;;
          tx <- gets (fun w => transactions w t) ;;
          sender <- gets (fun w => Manager_meta (manager (models w sm))) ;;
          let signals :=
            if nonempty deleted_ && signal_delete tx
            then signals ++ [post_delete sender deleted_]
            else signals in
          let signals :=
            if nonempty saved_ && signal_commit tx
            then signals ++ [post_commit sender saved_]
            else signals in
          with_transactions t (fun tx =>
            {| name := name tx; tx_session := tx_session tx;
               signal_commit := signal_commit tx;
               signal_delete := signal_delete tx;
               deleted := if nonempty deleted_
                          then OrderedDict.set Nat.eqb (meta_id meta) deleted_ (deleted tx)
                          else deleted tx;
               saved := if nonempty saved_
                        then OrderedDict.set Nat.eqb (meta_id meta) saved_ (saved tx)
                        else saved tx;
               _finished := _finished tx |}) ;;;
          ret (signals, exceptions ++ errors)
      end
  end.

(** [multi_async(results, raise_on_error=True)]: the first failure is
    raised. *)
Fixpoint await_all (results : list (Outcome unit)) : Py World unit :=
  match results with
  | [] => ret tt
  | Return _ :: rest => await_all rest
  | Raise e :: _ => raise e
  end.

(** The end of [_post_commit], after the signals were awaited. *)
Definition post_commit_finish (t : tid) (exceptions : list Exception)
  : Py World unit :=
  with_transactions t (fun tx =>
    {| name := name tx; tx_session := tx_session tx;
       signal_commit := signal_commit tx; signal_delete := signal_delete tx;
       deleted := deleted tx; saved := saved tx; _finished := true |}) ;;;
  match exceptions with
  | [] => ret tt
  | _ :: _ =>
      raise (CommitException (commit_error exceptions) (List.length exceptions))
  end.

(** [Transaction._post_commit] *)
Definition Transaction_post_commit (t : tid) (session : sid)
    (response : list ResponseItem) : Py World unit :=
  '(signals, exceptions) <- for_each (post_commit_scan t session) response ([], []) ;;
  await_all (flat_map send signals) ;;;
  post_commit_finish t exceptions.

End Collaborators.

(** ** Predicates of the statements *)

(** [get_delete_query] does not need [self.query()]: no instance is
    waiting in [_deleted], or the model is a structure. *)
Definition no_object_deletes (sm : SessionModel) : bool :=
  match _deleted sm with
  | [] => true
  | _ :: _ =>
      match _model_type (model (manager sm)) with
      | StructureModel => true
      | ObjectModel => false
      end
  end.

(** The key [pop] works with: the iid of the instance, or the id given. *)
Definition pop_iid (arg : PopArg) (s : SMState) : Iid :=
  match arg with
  | ArgInstance o => st_iid (state (heap s o))
  | ArgIid k => k
  end.

(** The objects the buckets hold under [k], in the order [pop] visits
    them: [_new], [_modified], [_deleted]. *)
Definition stored (k : Iid) (sm : SessionModel) : list oid :=
  flat_map (fun b => match OrderedDict.get Iid_eqb k (bucket b sm) with
                     | Some o => [o]
                     | None => []
                     end) [BNew; BModified; BDeleted].

(** [k] maps to two distinct objects in two buckets. *)
Definition duplicated (k : Iid) (sm : SessionModel) : bool :=
  match stored k sm with
  | [] => false
  | o :: rest => negb (forallb (Nat.eqb o) rest)
  end.

(** [sm] with the key [k] taken out of every bucket. *)
Definition without_iid (k : Iid) (sm : SessionModel) : SessionModel :=
  {| sm_class := sm_class sm; manager := manager sm;
     _new := OrderedDict.remove Iid_eqb k (_new sm);
     _deleted := OrderedDict.remove Iid_eqb k (_deleted sm);
     _delete_query := _delete_query sm;
     _modified := OrderedDict.remove Iid_eqb k (_modified sm);
     _queries := _queries sm |}.

(** No key of [a] is a key of [b]. *)
Definition disjoint_keys (a b : Bucket) : bool :=
  forallb (fun k => negb (OrderedDict.contains Iid_eqb k b)) (OrderedDict.keys a).

(** No iid is a key of more than one of [_new], [_modified], [_deleted]. *)
Definition buckets_disjoint (sm : SessionModel) : bool :=
  disjoint_keys (_new sm) (_modified sm)
  && disjoint_keys (_new sm) (_deleted sm)
  && disjoint_keys (_modified sm) (_deleted sm).

(** The bucket object [Session.model] hands out for the manager [mg]:
    the one the session holds, or a new one of the class of the model. *)
Definition Session_bucket (w : World) (s : sid) (mg : Manager) : SessionModel :=
  match OrderedDict.get Manager_key mg (_models (sessions w s)) with
  | Some sm => models w sm
  | None =>
      match _model_type (model mg) with
      | StructureModel => SessionModel_init SessionStructureClass mg
      | ObjectModel => SessionModel_init SessionModelClass mg
      end
  end.

(** Two heaps agree on the [session] link and the metadata of every
    instance, which [pop] and [add] never assign. *)
Definition same_links (h h' : Heap) : Prop :=
  forall o, session (h' o) = session (h o) /\
            instance_meta (h' o) = instance_meta (h o).

Definition heap_links (s s' : SMState) : Prop := same_links (heap s) (heap s').

(** Every run of [m] relates the state before to the state after. *)
Definition keeps {S A : Type} (R : S -> S -> Prop) (m : Py S A) : Prop :=
  forall s r s', m s = (r, s') -> R s s'.

(** ** Example objects *)

Module Examples.

Definition Instrument : Meta :=
  {| meta_id := 1; meta_repr := "examples.instrument";
     model_name := "Instrument"; _model_type := ObjectModel;
     pk_to_python := fun raw _ => raw |}.

Definition Folder : Meta :=
  {| meta_id := 2; meta_repr := "examples.folder";
     model_name := "Folder"; _model_type := StructureModel;
     pk_to_python := fun raw _ => raw |}.

(** One backend for reads and writes. *)
Definition instruments : Manager :=
  {| manager_id := 100; model := Instrument; _backend := Some 1;
     _read_backend := None |}.

(** A second manager object over the same model, with a read backend
    of its own. *)
Definition instruments_split : Manager :=
  {| manager_id := 101; model := Instrument; _backend := Some 1;
     _read_backend := Some 2 |}.

Definition folders : Manager :=
  {| manager_id := 102; model := Folder; _backend := Some 1;
     _read_backend := None |}.

(** An instance loaded from the backend with primary key [v]. *)
Definition loaded (m : Meta) (v : Z) (ses : option sid) : Instance :=
  {| instance_meta := m; pk := Some v; dbdata_pk := Some v;
     state := {| st_iid := IidPk v; st_persistent := true;
                 st_deleted := false; st_action := None; st_score := 0%Z |};
     session := ses |}.

(** An instance built by user code and never saved. *)
Definition unsaved (m : Meta) (o : oid) : Instance :=
  {| instance_meta := m; pk := None; dbdata_pk := None;
     state := {| st_iid := IidNew o; st_persistent := false;
                 st_deleted := false; st_action := None; st_score := 0%Z |};
     session := None |}.

(** An instance built by user code whose primary-key attribute was
    assigned after its state was cached. *)
Definition renamed (m : Meta) (o : oid) (v : Z) : Instance :=
  {| instance_meta := m; pk := Some v; dbdata_pk := None;
     state := {| st_iid := IidNew o; st_persistent := false;
                 st_deleted := false; st_action := None; st_score := 0%Z |};
     session := None |}.

(** Objects 1 and 2 are two loads of instrument 5, object 3 is
    instrument 6, object 4 is a new instrument given the primary key 5
    by hand, objects 7 and 9 are two loads of folder 9; every other
    object is an unsaved instrument. *)
Definition objects : Heap :=
  fun o =>
    match o with
    | 1 => loaded Instrument 5 None
    | 2 => loaded Instrument 5 None
    | 3 => loaded Instrument 6 None
    | 4 => renamed Instrument 4 5
    | 7 => loaded Folder 9 None
    | 9 => loaded Folder 9 None
    | _ => unsaved Instrument o
    end.

Definition empty_buckets : SessionModel :=
  SessionModel_init SessionModelClass instruments.

(** Instrument 5 staged for an update. *)
Definition staged : SessionModel :=
  {| sm_class := SessionModelClass; manager := instruments; _new := [];
     _deleted := []; _delete_query := []; _modified := [(IidPk 5%Z, 1)];
     _queries := [] |}.

(** The key 5 under two distinct objects: instrument 5 was deleted
    through object 2, then object 4 was added as persistent. *)
Definition clash : SMState :=
  snd ((SessionModel_delete 2 0 ;;;
        SessionModel_add 4 true (Some true) false)
         {| heap := objects; self := empty_buckets |}).

Definition router : Router :=
  fun m => match m with
           | 1 => Some instruments
           | 2 => Some folders
           | _ => None
           end.

(** Session 0 in the transaction 0, with the clash of instrument 5
    in its bucket object for instruments. *)
Definition clash_world : World :=
  {| instances := heap clash; models := fun _ => self clash;
     sessions := fun _ =>
       {| transaction := Some 0; _models := [(instruments, 500)];
          _router := router |};
     transactions := fun _ => Transaction_init 0 None true true;
     next_id := 1000 |}.

(** A new instrument waiting in [_new], for a manager whose read
    backend differs from its write backend; no query is pending. *)
Definition split_dirty : SessionModel :=
  {| sm_class := SessionModelClass; manager := instruments_split;
     _new := [(IidNew 8, 8)]; _deleted := []; _delete_query := [];
     _modified := []; _queries := [] |}.

(** The same with one pending query. *)
Definition split_both : SessionModel :=
  {| sm_class := SessionModelClass; manager := instruments_split;
     _new := [(IidNew 8, 8)]; _deleted := []; _delete_query := [];
     _modified := []; _queries := [QUser 0 0] |}.

Definition no_transaction : Transaction :=
  {| name := "transaction"; tx_session := None; signal_commit := true;
     signal_delete := true; deleted := []; saved := []; _finished := false |}.

(** Folder 9 under two distinct objects in a [SessionStructure]: it
    was deleted through object 7, then added through object 9. *)
Definition folder_clash : SMState :=
  snd ((SessionModel_delete 7 0 ;;;
        SessionModel_add 9 true None false)
         {| heap := objects;
            self := SessionModel_init SessionStructureClass folders |}).

(** One session, number 0, with nothing staged and no transaction. *)
Definition world : World :=
  {| instances := objects; models := fun _ => empty_buckets;
     sessions := fun _ => Session_init router;
     transactions := fun _ => no_transaction; next_id := 1000 |}.

(** The same after [session.begin()]: the transaction is object 1000. *)
Definition open_world : World := snd (Session_begin 0 world).

End Examples.

(** ** The rest of the session: dictionaries by model, grouping by
    backend, commit and delete *)

(** What a [ModelDictionary] takes for a key: the metadata itself, or
    anything with a [_meta] attribute, such as a manager or an instance. *)
Inductive ModelKey : Type :=
| KeyMeta (m : Meta)
| KeyManager (mg : Manager)
| KeyInstance (i : Instance).

(** [ModelDictionary.meta]: [getattr(model, '_meta', model)] *)
Definition ModelDictionary_meta (k : ModelKey) : Meta :=
  match k with
  | KeyMeta m => m
  | KeyManager mg => Manager_meta mg
  | KeyInstance i => instance_meta i
  end.

(** The key of the underlying dictionary: the metadata object, by its
    identity. *)
Definition ModelDictionary_key (k : ModelKey) : nat :=
  meta_id (ModelDictionary_meta k).

(** [ModelDictionary.__contains__] *)
Definition ModelDictionary_contains {V : Type} (k : ModelKey)
    (d : ModelDictionary V) : bool :=
  OrderedDict.contains Nat.eqb (ModelDictionary_key k) d.

(** [ModelDictionary.__getitem__]; [None] stands for the [KeyError]. *)
Definition ModelDictionary_getitem {V : Type} (k : ModelKey)
    (d : ModelDictionary V) : option V :=
  OrderedDict.get Nat.eqb (ModelDictionary_key k) d.

(** [ModelDictionary.__setitem__] *)
Definition ModelDictionary_setitem {V : Type} (k : ModelKey) (v : V)
    (d : ModelDictionary V) : ModelDictionary V :=
  OrderedDict.set Nat.eqb (ModelDictionary_key k) v d.

(** [ModelDictionary.get(model, default)] *)
Definition ModelDictionary_get {V : Type} (k : ModelKey) (default : V)
    (d : ModelDictionary V) : V :=
  match OrderedDict.get Nat.eqb (ModelDictionary_key k) d with
  | Some v => v
  | None => default
  end.

(** [ModelDictionary.pop(model, *args)]: the value and the dictionary
    left; without a default a missing key is a [KeyError], [None] here. *)
Definition ModelDictionary_pop {V : Type} (k : ModelKey) (default : option V)
    (d : ModelDictionary V) : option (V * ModelDictionary V) :=
  match OrderedDict.get Nat.eqb (ModelDictionary_key k) d with
  | Some v => Some (v, OrderedDict.remove Nat.eqb (ModelDictionary_key k) d)
  | None =>
      match default with
      | Some v => Some (v, d)
      | None => None
      end
  end.

(** The dictionary of [Session.backends_data]: a backend to the list of
    the payloads for it.  Entries are kept in the order the backends were
    first met; the order of [items()] of the source dictionary is not
    fixed. *)
Definition Groups : Type := @OrderedDict.t (option Backend) (list SessionData).

(** The body of the inner loop of [Session.backends_data]. *)
Definition group_payload (backends : Groups) (p : option Backend * SessionData)
  : Groups :=
  let '(backend, data) := p in
  match OrderedDict.get Backend_eqb backend backends with
  | None => OrderedDict.set Backend_eqb backend [data] backends
  | Some be => OrderedDict.set Backend_eqb backend (be ++ [data]) backends
  end.

(** The body of the outer loop of [Session.backends_data], over the
    bucket object [sm]. *)
Definition backends_data_step (transaction : Transaction)
    (acc : list Signal * Groups) (sm : smid) : Py World (list Signal * Groups) :=
  '(sent, yielded) <- call_model sm (SessionModel_backends_data transaction) ;;
  ret (fst acc ++ sent, fold_left group_payload yielded (snd acc)).

(** [Session.backends_data]: the signals sent and the groups. *)
Definition Session_backends_data (s : sid) (t : tid)
  : Py World (list Signal * Groups) :=
  transaction <- gets (fun w => transactions w t) ;;
  held <- gets (fun w => _models (sessions w s)) ;;
  for_each (backends_data_step transaction) (OrderedDict.values held) ([], []).

(** The argument of [Session.delete]: an instance, or a query built by
    user code with its metadata and the session it belongs to. *)
Inductive DeleteArg : Type :=
| DeleteInstance (o : oid)
| DeleteQuery (m : Meta) (tag : nat) (owner : sid).

(** How [Session.delete] returns: what [SessionModel.delete] returned,
    the query itself, or the deferred result of [self.commit()]. *)
Inductive Deleted : Type :=
| DeletedInstance (o : option oid)
| DeletedQuery (q : Query)
| DeletedAfterCommit.

(** [try: m  except: handler] *)
Definition try_except {S A : Type} (m : Py S A) (handler : Exception -> Py S A)
  : Py S A :=
  fun s =>
    match m s with
    | (Raise e, s') => handler e s'
    | r => r
    end.

Section Pipeline.

(** [Transaction._commit] hands the payloads to the backends and awaits
    them through stdnet.utils.async; neither is under src/.  Its effect
    on the world is a parameter. *)
Variable _commit : tid -> Py World unit.

(** [Transaction.commit] *)
Definition Transaction_commit (t : tid) : Py World unit :=
  tx <- gets (fun w => transactions w t) ;;
  if Transaction_executed tx
  then raise (Exc InvalidTransaction
                "Invalid operation. Transaction already executed.")
  else _commit t.

(** [Session.commit] *)
Definition Session_commit (s : sid) : Py World unit :=
  tx <- gets (fun w => transaction (sessions w s)) ;;
  t <- match tx with
       | None => Session_begin s
       | Some t => ret t
       end ;;
  Transaction_commit t.

(** [Session.delete] *)
Definition Session_delete (s : sid) (instance_or_query : DeleteArg)
  : Py World Deleted :=
  meta <- match instance_or_query with
          | DeleteInstance o => gets (fun w => instance_meta (instances w o))
          | DeleteQuery m _ _ => ret m
          end ;;
  sm <- Session_model s meta true ;;
  match sm with
  | None => raise (Exc AttributeError
                     "'NoneType' object has no attribute 'delete'")
  | Some sm =>
      r <- match instance_or_query with
           | DeleteQuery _ tag owner =>
               if Nat.eqb owner s then
                 call_model sm
                   (set_self (fun b =>
                      with_delete_query (_delete_query b ++ [QUser tag owner]) b)) ;;;
                 ret (DeletedQuery (QUser tag owner))
               else
                 raise (Exc ValueError
                          "Adding a query generated by another session")
           | DeleteInstance o =>
               r <- call_model sm (SessionModel_delete o s) ;;
               ret (DeletedInstance r)
           end ;;
      tx <- gets (fun w => transaction (sessions w s)) ;;
      if negb (is_some tx)
      then Session_commit s ;;; ret DeletedAfterCommit
      else ret r
  end.

(** [Transaction.add], the proxy of [Session.add] *)
Definition Transaction_add (t : tid) (instance : oid) (modified : bool)
    (persistent : option bool) (force_update : bool) : Py World Added :=
  tx <- gets (fun w => transactions w t) ;;
  match tx_session tx with
  | None => raise (Exc AttributeError "'NoneType' object has no attribute 'add'")
  | Some s => Session_add Session_commit s instance modified persistent force_update
  end.

(** [Transaction.delete], the proxy of [Session.delete] *)
Definition Transaction_delete (t : tid) (instance : DeleteArg)
  : Py World Deleted :=
  tx <- gets (fun w => transactions w t) ;;
  match tx_session tx with
  | None => raise (Exc AttributeError
                     "'NoneType' object has no attribute 'delete'")
  | Some s => Session_delete s instance
  end.

(** [Transaction.__exit__]; [failed] tells whether the block raised
    ([type is not None]).  It never returns a true value, so an exception
    of the block is not suppressed. *)
Definition Transaction_exit (t : tid) (failed : bool) : Py World unit :=
  if failed then Transaction_rollback t
  else try_except (Transaction_commit t)
         (fun e => Transaction_rollback t ;;; raise e).

End Pipeline.

(** ** Predicates of the further statements *)

(** The payloads among [yielded] that go to the backend [b], in order. *)
Definition payloads_for (b : option Backend)
    (yielded : list (option Backend * SessionData)) : list SessionData :=
  map snd (filter (fun p => Backend_eqb (fst p) b) yielded).

(** The entry of a backend after the payloads [l] have been appended to
    the entry [old]. *)
Definition extend_group (old : option (list SessionData))
    (l : list SessionData) : option (list SessionData) :=
  match l with
  | [] => old
  | _ :: _ => Some (match old with Some l0 => l0 | None => [] end ++ l)
  end.

(** Everything the bucket objects of a session yield, one after the
    other, before any grouping. *)
Definition yields_step (transaction : Transaction)
    (acc : list Signal * list (option Backend * SessionData)) (sm : smid)
  : Py World (list Signal * list (option Backend * SessionData)) :=
  '(sent, yielded) <- call_model sm (SessionModel_backends_data transaction) ;;
  ret (fst acc ++ sent, snd acc ++ yielded).

Definition Session_yields (s : sid) (t : tid)
  : Py World (list Signal * list (option Backend * SessionData)) :=
  transaction <- gets (fun w => transactions w t) ;;
  held <- gets (fun w => _models (sessions w s)) ;;
  for_each (yields_step transaction) (OrderedDict.values held) ([], []).

(** A response item that reaches no bucket: an exception, something
    that is not a [session_result], or a [session_result] without
    results. *)
Definition inert (r : ResponseItem) : bool :=
  match r with
  | ResponseModel _ (_ :: _) => false
  | _ => true
  end.

(** The exceptions among the items of a response, in order. *)
Definition response_errors (response : list ResponseItem) : list Exception :=
  flat_map (fun r => match r with ResponseError e => [e] | _ => [] end) response.

(** A method leaves the bucket object its class. *)
Definition same_class (s s' : SMState) : Prop :=
  sm_class (self s) = sm_class (self s').

(** The object a bucket holds under [k], if any, has [k] for its iid. *)
Definition stored_by_iid (k : Iid) (s : SMState) : Prop :=
  forall o, In o (stored k (self s)) -> st_iid (state (heap s o)) = k.

Module MoreExamples.

(** Instrument 5 waiting in [_deleted] and one query waiting to delete
    more. *)
Definition pending_deletes : SessionModel :=
  {| sm_class := SessionModelClass; manager := Examples.instruments;
     _new := [(IidNew 8, 8)]; _deleted := [(IidPk 5%Z, 1)];
     _delete_query := [QUser 3 0]; _modified := []; _queries := [QUser 4 0] |}.

(** Folder 9 waiting in [_deleted] of a structure bucket, with one
    query waiting to delete more and one query to read. *)
Definition folder_deletes : SessionModel :=
  {| sm_class := SessionStructureClass; manager := Examples.folders;
     _new := []; _deleted := [(IidPk 9%Z, 7)]; _delete_query := [QUser 3 0];
     _modified := []; _queries := [QUser 4 0] |}.

(** Session 0 in the transaction 1000 with two bucket objects:
    600 for instruments (split backends, one new instance, one query)
    and 601 for folders (one modified folder). *)
Definition two_models : World :=
  {| instances := Examples.objects;
     models := fun id =>
       match id with
       | 600 => Examples.split_both
       | _ => {| sm_class := SessionStructureClass; manager := Examples.folders;
                 _new := []; _deleted := []; _delete_query := [];
                 _modified := [(IidPk 9%Z, 7)]; _queries := [] |}
       end;
     sessions := fun _ =>
       {| transaction := Some 1000;
          _models := [(Examples.instruments_split, 600); (Examples.folders, 601)];
          _router := Examples.router |};
     transactions := fun _ => Transaction_init 0 None true true;
     next_id := 1001 |}.

End MoreExamples.

(** * Facts *)

Module OrderedDictFacts.
Section Keyed.
Context {K V : Type}.
Variable eqb : K -> K -> bool.
Import OrderedDict.

Lemma get_remove_same (k : K) (d : @t K V) : get eqb k (remove eqb k d) = None.
Proof.
  induction d as [|[k' v] rest IH]; simpl; [reflexivity|].
  destruct (eqb k k') eqn:E; simpl; [exact IH|].
  rewrite E. exact IH.
Qed.

Lemma contains_remove_same (k : K) (d : @t K V) :
  contains eqb k (remove eqb k d) = false.
Proof. unfold contains. now rewrite get_remove_same. Qed.

Lemma remove_absent (k : K) (d : @t K V) :
  get eqb k d = None -> remove eqb k d = d.
Proof.
  induction d as [|[k' v] rest IH]; simpl; [reflexivity|].
  destruct (eqb k k') eqn:E; [discriminate|].
  intros H. simpl. now rewrite IH.
Qed.

Lemma remove_remove (k : K) (d : @t K V) :
  remove eqb k (remove eqb k d) = remove eqb k d.
Proof. apply remove_absent, get_remove_same. Qed.

Lemma get_set_same (k : K) (v : V) (d : @t K V) :
  eqb k k = true -> get eqb k (set eqb k v d) = Some v.
Proof.
  intros R. induction d as [|[k' v'] rest IH]; simpl.
  - now rewrite R.
  - destruct (eqb k k') eqn:E; simpl; rewrite E; [reflexivity | exact IH].
Qed.

Lemma contains_false_get (k : K) (d : @t K V) :
  contains eqb k d = false -> get eqb k d = None.
Proof. unfold contains. destruct (get eqb k d); [discriminate | reflexivity]. Qed.
End Keyed.
End OrderedDictFacts.

Lemma Iid_eqb_eq (a b : Iid) : Iid_eqb a b = true <-> a = b.
Proof.
  destruct a, b; simpl; split; intros H; try discriminate.
  - apply Z.eqb_eq in H. now subst.
  - inversion H. apply Z.eqb_refl.
  - apply Nat.eqb_eq in H. now subst.
  - inversion H. apply Nat.eqb_refl.
Qed.

Lemma Iid_eqb_refl (a : Iid) : Iid_eqb a a = true.
Proof. now apply Iid_eqb_eq. Qed.

Lemma upd_same (A : Type) (h : nat -> A) (o : nat) (v : A) : upd h o v o = v.
Proof. unfold upd. now rewrite Nat.eqb_refl. Qed.

Lemma upd_other (A : Type) (h : nat -> A) (o o' : nat) (v : A) :
  o' <> o -> upd h o v o' = h o'.
Proof. unfold upd. intros H. apply Nat.eqb_neq in H. now rewrite H. Qed.

(** ** Running a method step by step *)

Lemma bind_return (S A B : Type) (m : Py S A) (k : A -> Py S B) (s s' : S)
    (a : A) :
  m s = (Return a, s') -> bind m k s = k a s'.
Proof. intros E. unfold bind. now rewrite E. Qed.

Lemma bind_raise (S A B : Type) (m : Py S A) (k : A -> Py S B) (s s' : S)
    (e : Exception) :
  m s = (Raise e, s') -> bind m k s = (Raise e, s').
Proof. intros E. unfold bind. now rewrite E. Qed.

Lemma bind_congr (S A B : Type) (m : Py S A) (k k' : A -> Py S B) (s : S) :
  (forall a s', m s = (Return a, s') -> k a s' = k' a s') ->
  bind m k s = bind m k' s.
Proof.
  intros H. unfold bind. destruct (m s) as [[a|e] s'] eqn:E; [|reflexivity].
  now apply H.
Qed.

Lemma bind_return_inv (S A B : Type) (m : Py S A) (k : A -> Py S B) (s s' : S)
    (b : B) :
  bind m k s = (Return b, s') ->
  exists a s1, m s = (Return a, s1) /\ k a s1 = (Return b, s').
Proof.
  unfold bind. destruct (m s) as [[a|e] s1]; [|discriminate].
  intros H. now exists a, s1.
Qed.

(** ** What [pop] does *)

Lemma pop_key_bind (A : Type) (arg : PopArg) (k : Iid -> Py SMState A)
    (s : SMState) :
  bind (match arg with
        | ArgInstance o => st <- get_state o ;; ret (st_iid st)
        | ArgIid k => ret k
        end) k s = k (pop_iid arg s) s.
Proof. destruct arg; reflexivity. Qed.

Ltac run_pop En Em Ed :=
  unfold pop_from, bind, gets, set_self, modify, ret, raise;
  repeat (cbn -[OrderedDict.get OrderedDict.remove Nat.eqb duplicated_msg];
          rewrite ?En, ?Em, ?Ed).

Lemma pop_ok (s : SMState) (arg : PopArg) :
  duplicated (pop_iid arg s) (self s) = false ->
  SessionModel_pop arg s =
    (Return (hd_error (stored (pop_iid arg s) (self s))),
     {| heap := heap s; self := without_iid (pop_iid arg s) (self s) |}).
Proof.
  unfold SessionModel_pop. rewrite pop_key_bind.
  generalize (pop_iid arg s) as k. intros k.
  destruct s as [h [c m n d dq md q]].
  unfold duplicated, stored, without_iid. cbn [for_each].
  destruct (OrderedDict.get Iid_eqb k n) as [o1|] eqn:En;
  destruct (OrderedDict.get Iid_eqb k md) as [o2|] eqn:Em;
  destruct (OrderedDict.get Iid_eqb k d) as [o3|] eqn:Ed;
  run_pop En Em Ed;
  rewrite ?(OrderedDictFacts.remove_absent Iid_eqb _ _ En),
          ?(OrderedDictFacts.remove_absent Iid_eqb _ _ Em),
          ?(OrderedDictFacts.remove_absent Iid_eqb _ _ Ed);
  try (intros _; reflexivity).
  all: intros H; apply negb_false_iff in H; rewrite ?andb_true_r in H;
    repeat match goal with
           | H : (_ && _)%bool = true |- _ => apply andb_true_iff in H; destruct H
           | H : (_ =? _) = true |- _ => apply Nat.eqb_eq in H; subst
           end;
    rewrite ?Nat.eqb_refl; run_pop En Em Ed; rewrite ?Nat.eqb_refl; reflexivity.
Qed.

(** When [pop] raises, the heap is as before and the first bucket that
    held the key has lost it. *)
Lemma pop_duplicated_removes (s : SMState) (arg : PopArg) :
  duplicated (pop_iid arg s) (self s) = true ->
  exists sm' b,
    SessionModel_pop arg s =
      (Raise (Exc ValueError (duplicated_msg (pop_iid arg s))),
       {| heap := heap s; self := sm' |}) /\
    OrderedDict.contains Iid_eqb (pop_iid arg s) (bucket b (self s)) = true /\
    OrderedDict.contains Iid_eqb (pop_iid arg s) (bucket b sm') = false.
Proof.
  unfold SessionModel_pop. rewrite pop_key_bind.
  generalize (pop_iid arg s) as k. intros k.
  destruct s as [h [c m n d dq md q]].
  unfold duplicated, stored. cbn [for_each].
  destruct (OrderedDict.get Iid_eqb k n) as [o1|] eqn:En;
  destruct (OrderedDict.get Iid_eqb k md) as [o2|] eqn:Em;
  destruct (OrderedDict.get Iid_eqb k d) as [o3|] eqn:Ed;
  run_pop En Em Ed; try discriminate.
  all: rewrite ?andb_true_r, negb_true_iff.
  all: rewrite 1?(Nat.eqb_sym o2 o1), 1?(Nat.eqb_sym o3 o1), 1?(Nat.eqb_sym o3 o2).
  all: intros H.
  all: repeat
    (match goal with
     | |- context [if ?a =? ?b then _ else _] =>
         let E := fresh "E" in
         destruct (a =? b) eqn:E; cbn [andb] in H; try discriminate
     end; run_pop En Em Ed).
  all: try (exfalso;
            repeat match goal with
                   | Hx : (_ =? _) = true |- _ => apply Nat.eqb_eq in Hx; subst
                   end;
            rewrite ?Nat.eqb_refl in *; discriminate).
  all: eexists;
    first [ exists BNew; split; [reflexivity|];
            unfold OrderedDict.contains; cbn [bucket self _new with_bucket];
            rewrite En, OrderedDictFacts.get_remove_same; split; reflexivity
          | exists BModified; split; [reflexivity|];
            unfold OrderedDict.contains; cbn [bucket self _modified with_bucket];
            rewrite Em, OrderedDictFacts.get_remove_same; split; reflexivity ].
Qed.

Lemma pop_duplicated (s : SMState) (arg : PopArg) :
  duplicated (pop_iid arg s) (self s) = true ->
  exists sm',
    SessionModel_pop arg s =
      (Raise (Exc ValueError (duplicated_msg (pop_iid arg s))),
       {| heap := heap s; self := sm' |}).
Proof.
  intros D. destruct (pop_duplicated_removes s arg D) as (sm' & _ & E & _).
  now exists sm'.
Qed.

Lemma bucket_without_iid (k : Iid) (sm : SessionModel) (b : BucketName) :
  bucket b (without_iid k sm) = OrderedDict.remove Iid_eqb k (bucket b sm).
Proof. destruct b; reflexivity. Qed.

Lemma has_iid_without_iid (k : Iid) (sm : SessionModel) :
  has_iid k (without_iid k sm) = false.
Proof.
  unfold has_iid, without_iid; simpl.
  now rewrite !OrderedDictFacts.contains_remove_same.
Qed.

Lemma has_iid_stored (k : Iid) (sm : SessionModel) :
  has_iid k sm = false <-> stored k sm = [].
Proof.
  unfold has_iid, stored, OrderedDict.contains; simpl.
  destruct (OrderedDict.get Iid_eqb k (_new sm));
  destruct (OrderedDict.get Iid_eqb k (_modified sm));
  destruct (OrderedDict.get Iid_eqb k (_deleted sm)); simpl;
  split; intros H; try reflexivity; discriminate.
Qed.

Lemma without_iid_absent (k : Iid) (sm : SessionModel) :
  has_iid k sm = false -> without_iid k sm = sm.
Proof.
  unfold has_iid, without_iid. intros H.
  apply orb_false_iff in H. destruct H as [H Hd].
  apply orb_false_iff in H. destruct H as [Hn Hm].
  rewrite !OrderedDictFacts.remove_absent
    by now apply OrderedDictFacts.contains_false_get.
  now destruct sm.
Qed.

Lemma not_duplicated_absent (k : Iid) (sm : SessionModel) :
  has_iid k sm = false -> duplicated k sm = false.
Proof. intros H. apply has_iid_stored in H. unfold duplicated. now rewrite H. Qed.

Lemma stored_in_bucket (k : Iid) (sm : SessionModel) (o : oid) :
  In o (stored k sm) <->
  exists b, OrderedDict.get Iid_eqb k (bucket b sm) = Some o.
Proof.
  unfold stored. rewrite in_flat_map. split.
  - intros [b [_ H]]. exists b.
    destruct (OrderedDict.get Iid_eqb k (bucket b sm)); simpl in H; [|easy].
    destruct H as [->|[]]. reflexivity.
  - intros [b H]. exists b. split; [destruct b; simpl; auto|].
    rewrite H. now left.
Qed.

(** [duplicated] says what its name says: two buckets hold distinct
    objects under the key. *)
Lemma duplicated_iff (k : Iid) (sm : SessionModel) :
  duplicated k sm = true <->
  exists b1 b2 o1 o2,
    OrderedDict.get Iid_eqb k (bucket b1 sm) = Some o1 /\
    OrderedDict.get Iid_eqb k (bucket b2 sm) = Some o2 /\ o1 <> o2.
Proof.
  split.
  - unfold duplicated. destruct (stored k sm) as [|o rest] eqn:E; [discriminate|].
    intros H. apply negb_true_iff in H.
    assert (Hx : exists x, In x rest /\ (o =? x) = false).
    { clear E. induction rest as [|x r IH]; simpl in H; [discriminate|].
      destruct (o =? x) eqn:Eo.
      - destruct (IH H) as [y [Hy Hn]]. exists y. split; [now right | exact Hn].
      - exists x. split; [now left | exact Eo]. }
    destruct Hx as [x [Hin Hne]].
    assert (Ho : In o (stored k sm)) by (rewrite E; now left).
    assert (Hx : In x (stored k sm)) by (rewrite E; now right).
    apply stored_in_bucket in Ho, Hx.
    destruct Ho as [b1 H1], Hx as [b2 H2].
    exists b1, b2, o, x. repeat split; auto. now apply Nat.eqb_neq.
  - intros (b1 & b2 & o1 & o2 & H1 & H2 & Hne).
    destruct (duplicated k sm) eqn:D; [reflexivity|exfalso].
    unfold duplicated in D.
    assert (I1 : In o1 (stored k sm)) by (apply stored_in_bucket; eauto).
    assert (I2 : In o2 (stored k sm)) by (apply stored_in_bucket; eauto).
    destruct (stored k sm) as [|o rest]; [easy|].
    apply negb_false_iff in D. rewrite forallb_forall in D.
    assert (A : forall x, In x (o :: rest) -> x = o).
    { intros x [->|Hx]; [reflexivity|]. symmetry. now apply Nat.eqb_eq, D. }
    apply Hne. now rewrite (A o1 I1), (A o2 I2).
Qed.

(** ** C6: [SessionModel.pop] *)

(** C6.  [pop] takes the iid (of the instance, or the one given) out of
    every bucket and returns the object that was stored under it, [None]
    when no bucket had it; when two buckets hold distinct objects under
    the iid, [pop] raises the [ValueError] "Critical error: ... is
    duplicated" (the specification's DuplicateIdentity). *)
Theorem SessionModel_pop_spec (s : SMState) (arg : PopArg) :
  let k := pop_iid arg s in
  (duplicated k (self s) = false ->
   exists r sm',
     SessionModel_pop arg s = (Return r, {| heap := heap s; self := sm' |}) /\
     (forall b, bucket b sm' = OrderedDict.remove Iid_eqb k (bucket b (self s))) /\
     has_iid k sm' = false /\
     (forall o, r = Some o ->
        exists b, OrderedDict.get Iid_eqb k (bucket b (self s)) = Some o) /\
     (r = None <-> has_iid k (self s) = false)) /\
  (forall b1 b2 o1 o2,
     OrderedDict.get Iid_eqb k (bucket b1 (self s)) = Some o1 ->
     OrderedDict.get Iid_eqb k (bucket b2 (self s)) = Some o2 ->
     o1 <> o2 ->
     exists sm',
       SessionModel_pop arg s =
         (Raise (Exc ValueError (duplicated_msg k)),
          {| heap := heap s; self := sm' |})).
Proof.
  intros k. split.
  - intros D. exists (hd_error (stored k (self s))), (without_iid k (self s)).
    split; [now apply pop_ok|].
    split; [intros b; apply bucket_without_iid|].
    split; [apply has_iid_without_iid|].
    split.
    + intros o Ho. apply stored_in_bucket.
      destruct (stored k (self s)); simpl in Ho; inversion Ho. now left.
    + rewrite has_iid_stored. destruct (stored k (self s)); simpl; split;
        intros H; try reflexivity; discriminate.
  - intros b1 b2 o1 o2 H1 H2 Hne. apply pop_duplicated.
    apply duplicated_iff. now exists b1, b2, o1, o2.
Qed.

Lemma SessionModel_pop_spec_witness :
  duplicated (IidPk 5) Examples.staged = false /\
  (exists r sm',
     SessionModel_pop (ArgInstance 1)
       {| heap := Examples.objects; self := Examples.staged |} =
       (Return r, {| heap := Examples.objects; self := sm' |}) /\
     r = Some 1 /\ has_iid (IidPk 5) sm' = false) /\
  (exists sm',
     SessionModel_pop (ArgIid (IidPk 5)) Examples.clash =
       (Raise (Exc ValueError (duplicated_msg (IidPk 5))),
        {| heap := heap Examples.clash; self := sm' |})).
Proof.
  split; [reflexivity|]. split.
  - destruct (SessionModel_pop_spec
                {| heap := Examples.objects; self := Examples.staged |}
                (ArgInstance 1)) as [Hok _].
    destruct (Hok eq_refl) as (r & sm' & E & _ & Hno & _ & _).
    exists r, sm'. split; [exact E|]. split; [|exact Hno].
    vm_compute in E. now inversion E.
  - destruct (SessionModel_pop_spec Examples.clash (ArgIid (IidPk 5)))
      as [_ Hdup].
    apply (Hdup BModified BDeleted 4 2); [reflexivity | reflexivity | discriminate].
Defined.

(** The clash of the examples, spelled out. *)
Lemma clash_buckets :
  _new (self Examples.clash) = [] /\
  _modified (self Examples.clash) = [(IidPk 5, 4)] /\
  _deleted (self Examples.clash) = [(IidPk 5, 2)].
Proof. repeat split; reflexivity. Qed.

(** ** C10: [SessionModel.expunge] *)

Lemma expunge_ok (s : SMState) (arg : PopArg) (o : oid) :
  duplicated (pop_iid arg s) (self s) = false ->
  hd_error (stored (pop_iid arg s) (self s)) = Some o ->
  SessionModel_expunge arg s =
    (Return o,
     {| heap := upd (heap s) o (with_session (heap s o) None);
        self := without_iid (pop_iid arg s) (self s) |}).
Proof.
  intros D H. unfold SessionModel_expunge, bind.
  rewrite (pop_ok _ _ D), H. reflexivity.
Qed.

Lemma expunge_absent (s : SMState) (arg : PopArg) :
  has_iid (pop_iid arg s) (self s) = false ->
  SessionModel_expunge arg s = (Raise (Exc AttributeError none_session_msg), s).
Proof.
  intros H. unfold SessionModel_expunge, bind.
  rewrite (pop_ok _ _ (not_duplicated_absent _ _ H)).
  rewrite (without_iid_absent _ _ H).
  apply has_iid_stored in H. rewrite H. now destruct s.
Qed.

(** C10, as the code has it.  When some bucket has the iid and no two
    buckets hold distinct objects under it, [expunge] takes it out of
    every bucket, sets the session link of the object that was stored to
    [None] and returns that object.  When no bucket has it, [pop] returns
    [None] and the assignment [instance.session = None] raises
    [AttributeError]: [expunge] never returns [None].  When two buckets
    hold distinct objects under it, the [ValueError] of [pop] comes out. *)
Theorem SessionModel_expunge_spec (s : SMState) (arg : PopArg) :
  let k := pop_iid arg s in
  (has_iid k (self s) = true -> duplicated k (self s) = false ->
   exists o s',
     SessionModel_expunge arg s = (Return o, s') /\
     (exists b, OrderedDict.get Iid_eqb k (bucket b (self s)) = Some o) /\
     (forall b, bucket b (self s') = OrderedDict.remove Iid_eqb k (bucket b (self s))) /\
     has_iid k (self s') = false /\
     session (heap s' o) = None /\
     (forall o', o' <> o -> heap s' o' = heap s o')) /\
  (has_iid k (self s) = false ->
   SessionModel_expunge arg s = (Raise (Exc AttributeError none_session_msg), s)) /\
  (duplicated k (self s) = true ->
   exists s',
     SessionModel_expunge arg s = (Raise (Exc ValueError (duplicated_msg k)), s')).
Proof.
  intros k. repeat split.
  - intros Hin D.
    destruct (hd_error (stored k (self s))) as [o|] eqn:Eo.
    + exists o. eexists. split; [now apply expunge_ok|]. simpl.
      split; [|split; [|split; [|split]]].
      * apply stored_in_bucket. destruct (stored k (self s)); inversion Eo. now left.
      * intros b. apply bucket_without_iid.
      * apply has_iid_without_iid.
      * now rewrite upd_same.
      * intros o' Ho. now apply upd_other.
    + assert (E : stored k (self s) = []) by (destruct (stored k (self s)); [easy | discriminate]).
      apply has_iid_stored in E. congruence.
  - apply expunge_absent.
  - intros D. destruct (pop_duplicated s arg D) as [sm' E].
    eexists. unfold SessionModel_expunge, bind. rewrite E. reflexivity.
Qed.

Lemma SessionModel_expunge_spec_witness :
  (has_iid (IidPk 5) Examples.staged = true /\
   duplicated (IidPk 5) Examples.staged = false /\
   exists s',
     SessionModel_expunge (ArgInstance 1)
       {| heap := Examples.objects; self := Examples.staged |} = (Return 1, s') /\
     has_iid (IidPk 5) (self s') = false /\ session (heap s' 1) = None) /\
  (has_iid (IidPk 6) Examples.staged = false /\
   SessionModel_expunge (ArgInstance 3)
     {| heap := Examples.objects; self := Examples.staged |} =
     (Raise (Exc AttributeError none_session_msg),
      {| heap := Examples.objects; self := Examples.staged |})).
Proof.
  split.
  - split; [reflexivity|]. split; [reflexivity|].
    destruct (SessionModel_expunge_spec
                {| heap := Examples.objects; self := Examples.staged |}
                (ArgInstance 1)) as [Hok _].
    destruct (Hok eq_refl eq_refl) as (o & s' & E & _ & _ & Hno & Hs & _).
    assert (Eo : o = 1) by (vm_compute in E; now inversion E).
    subst o. exists s'. repeat split; assumption.
  - split; [reflexivity|].
    destruct (SessionModel_expunge_spec
                {| heap := Examples.objects; self := Examples.staged |}
                (ArgInstance 3)) as [_ [Habs _]].
    exact (Habs eq_refl).
Defined.

(** The second clash of the examples, reached by [delete] and the
    default [add] of a [SessionStructure]. *)
Lemma folder_clash_buckets :
  sm_class (self Examples.folder_clash) = SessionStructureClass /\
  _new (self Examples.folder_clash) = [] /\
  _modified (self Examples.folder_clash) = [(IidPk 9, 9)] /\
  _deleted (self Examples.folder_clash) = [(IidPk 9, 7)].
Proof. repeat split; reflexivity. Qed.

(** C10 as stated fails where two buckets hold distinct objects under
    the iid: object 9 is in [_modified], and [expunge] neither returns it
    nor unlinks it. *)
Lemma expunge_present_raises :
  has_iid (pop_iid (ArgInstance 9) Examples.folder_clash)
    (self Examples.folder_clash) = true /\
  OrderedDict.get Iid_eqb (IidPk 9) (_modified (self Examples.folder_clash))
    = Some 9 /\
  fst (SessionModel_expunge (ArgInstance 9) Examples.folder_clash) =
    Raise (Exc ValueError (duplicated_msg (IidPk 9))) /\
  ~ (exists o s',
       SessionModel_expunge (ArgInstance 9) Examples.folder_clash = (Return o, s')).
Proof.
  repeat split; try reflexivity.
  intros (o & s' & E). vm_compute in E. discriminate.
Qed.

(** ** C7: adding a persistent instance as unmodified *)

Lemma add_unmodified_run (s : SMState) (o : oid) (force_update : bool) :
  sm_class (self s) = SessionModelClass ->
  st_persistent (state (heap s o)) = true ->
  st_deleted (state (heap s o)) = false ->
  is_some (dbdata_pk (heap s o)) = true ->
  duplicated (st_iid (state (heap s o))) (self s) = false ->
  SessionModel_add o false None force_update s =
    (Return o,
     {| heap := upd (heap s) o
                  (with_state (heap s o)
                     (new_state o (heap s o) (Some (st_iid (state (heap s o))))
                        (if force_update then Some Update else None)));
        self := without_iid (st_iid (state (heap s o))) (self s) |}).
Proof.
  intros C P D K Dup.
  unfold SessionModel_add, bind at 1, gets. rewrite C.
  unfold SessionModel_add_base, bind at 1, get_state, gets. rewrite D.
  unfold bind at 1.
  rewrite (pop_ok s (ArgIid (st_iid (state (heap s o))))) by exact Dup.
  rewrite P.
  cbn -[new_state without_iid upd].
  unfold bind, get_state_with, gets, set_instance, set_self, modify, ret.
  cbn -[new_state without_iid upd].
  destruct (dbdata_pk (heap s o)) eqn:E; [|discriminate].
  unfold new_state. rewrite E. cbn -[without_iid upd]. reflexivity.
Qed.

(** C7, as the code has it.  Adding a persistent instance with
    [modified=False] takes its iid out of every bucket and puts it in
    none; a second call changes nothing more.  The buckets are as before
    the first call exactly when none of them had the iid. *)
Theorem add_unmodified_idempotent (s : SMState) (o : oid) :
  let k := st_iid (state (heap s o)) in
  sm_class (self s) = SessionModelClass ->
  st_persistent (state (heap s o)) = true ->
  st_deleted (state (heap s o)) = false ->
  is_some (dbdata_pk (heap s o)) = true ->
  duplicated k (self s) = false ->
  exists s1 s2,
    SessionModel_add o false None false s = (Return o, s1) /\
    self s1 = without_iid k (self s) /\
    SessionModel_add o false None false s1 = (Return o, s2) /\
    self s2 = self s1 /\
    (forall o', heap s2 o' = heap s1 o') /\
    (self s1 = self s <-> has_iid k (self s) = false).
Proof.
  intros k C P D K Dup.
  pose proof (add_unmodified_run s o false C P D K Dup) as E1.
  cbv zeta in E1. fold k in E1.
  set (st1 := new_state o (heap s o) (Some k) None) in *.
  set (s1 := {| heap := upd (heap s) o (with_state (heap s o) st1);
                self := without_iid k (self s) |}) in *.
  assert (Hst : state (heap s1 o) = st1) by (simpl; now rewrite upd_same).
  assert (Hk : st_iid st1 = k).
  { unfold st1, new_state. simpl. reflexivity. }
  assert (Hp : st_persistent st1 = true).
  { unfold st1, new_state. simpl. destruct (dbdata_pk (heap s o)); [reflexivity|discriminate]. }
  assert (E2 := add_unmodified_run s1 o false).
  rewrite Hst, Hk in E2. simpl self in E2.
  specialize (E2 C Hp eq_refl).
  assert (K1 : is_some (dbdata_pk (heap s1 o)) = true) by (simpl; now rewrite upd_same).
  specialize (E2 K1 (not_duplicated_absent _ _ (has_iid_without_iid k (self s)))).
  exists s1. eexists. split; [exact E1|]. split; [reflexivity|].
  split; [exact E2|]. simpl. split.
  - unfold without_iid; simpl. now rewrite !OrderedDictFacts.remove_remove.
  - split.
    + intros o'. unfold upd. destruct (o' =? o) eqn:Eo; [|reflexivity].
      rewrite Nat.eqb_refl. unfold with_state, new_state, st1, new_state; simpl.
      reflexivity.
    + split.
      * intros H. rewrite <- H. apply has_iid_without_iid.
      * apply without_iid_absent.
Qed.

Lemma add_unmodified_idempotent_witness :
  exists s1 s2,
    SessionModel_add 1 false None false
      {| heap := Examples.objects; self := Examples.staged |} = (Return 1, s1) /\
    self s1 = without_iid (IidPk 5) Examples.staged /\
    SessionModel_add 1 false None false s1 = (Return 1, s2) /\
    self s2 = self s1.
Proof.
  destruct (add_unmodified_idempotent
              {| heap := Examples.objects; self := Examples.staged |} 1
              eq_refl eq_refl eq_refl eq_refl eq_refl)
    as (s1 & s2 & E1 & H1 & E2 & H2 & _).
  exists s1, s2. repeat split; assumption.
Defined.

(** C7 as stated fails for an instance that is staged: instrument 5
    waits in [_modified], and adding it twice with [modified=False]
    leaves [_modified] empty. *)
Lemma add_unmodified_unstages :
  st_persistent (state (Examples.objects 1)) = true /\
  _modified Examples.staged = [(IidPk 5, 1)] /\
  (let s0 := {| heap := Examples.objects; self := Examples.staged |} in
   let s1 := snd (SessionModel_add 1 false None false s0) in
   let s2 := snd (SessionModel_add 1 false None false s1) in
   fst (SessionModel_add 1 false None false s0) = Return 1 /\
   fst (SessionModel_add 1 false None false s1) = Return 1 /\
   _modified (self s2) = [] /\
   _new (self s2) = [] /\ _deleted (self s2) = []).
Proof. repeat split; reflexivity. Qed.

(** ** C2: the buckets of a [SessionStructure] after delete and add *)

Lemma disjoint_keys_common (k : Iid) (a b : Bucket) (v w : oid) :
  OrderedDict.get Iid_eqb k a = Some v ->
  OrderedDict.get Iid_eqb k b = Some w ->
  disjoint_keys a b = false.
Proof.
  intros Ha Hb. unfold disjoint_keys, OrderedDict.keys.
  induction a as [|[k' v'] rest IH]; simpl in *; [discriminate|].
  destruct (Iid_eqb k k') eqn:E.
  - apply Iid_eqb_eq in E. subst k'.
    unfold OrderedDict.contains. now rewrite Hb.
  - rewrite (IH Ha). apply andb_false_r.
Qed.

Lemma delete_absent_run (s : SMState) (o : oid) (ses : sid) :
  st_persistent (state (heap s o)) = true ->
  has_iid (st_iid (state (heap s o))) (self s) = false ->
  exists h1,
    SessionModel_delete o ses s =
      (Return (Some o),
       {| heap := h1;
          self := with_bucket BDeleted
                    (OrderedDict.set Iid_eqb (st_iid (state (heap s o))) o
                       (_deleted (self s))) (self s) |}) /\
    h1 o = with_session
             (with_state (heap s o) (with_deleted (state (heap s o)) true))
             (Some ses) /\
    (forall o', o' <> o -> h1 o' = heap s o').
Proof.
  intros P A. unfold SessionModel_delete, bind at 1.
  rewrite (pop_ok s (ArgInstance o)) by now apply not_duplicated_absent.
  simpl pop_iid. rewrite (without_iid_absent _ _ A).
  apply has_iid_stored in A. rewrite A. simpl hd_error.
  unfold bind, get_state, gets, set_instance, set_self, modify, ret.
  cbn -[upd OrderedDict.set]. rewrite P.
  cbn -[upd OrderedDict.set]. eexists. split; [reflexivity|]. split.
  - now rewrite !upd_same.
  - intros o' Ho. now rewrite !upd_other.
Qed.

(** C2 at its failing input.  In a [SessionStructure], deleting a
    persistent instance that no bucket has and adding it again (with the
    default [modified=True]) leaves it in [_modified] and in [_deleted]
    at once: [add] pops only when [modified] is false. *)
Theorem SessionStructure_add_after_delete (s : SMState) (o : oid) (ses : sid) :
  let k := st_iid (state (heap s o)) in
  sm_class (self s) = SessionStructureClass ->
  st_persistent (state (heap s o)) = true ->
  has_iid k (self s) = false ->
  exists s1 s2,
    SessionModel_delete o ses s = (Return (Some o), s1) /\
    SessionModel_add o true None false s1 = (Return o, s2) /\
    OrderedDict.get Iid_eqb k (_modified (self s2)) = Some o /\
    OrderedDict.get Iid_eqb k (_deleted (self s2)) = Some o /\
    buckets_disjoint (self s2) = false.
Proof.
  intros k C P A.
  destruct (delete_absent_run s o ses P A) as (h1 & E1 & Ho & _).
  fold k in E1.
  eexists. eexists. split; [exact E1|].
  unfold SessionModel_add, bind at 1, gets. cbn [self sm_class with_bucket]. rewrite C.
  unfold SessionStructure_add, bind, get_state, gets, set_instance, set_self, modify, ret.
  cbn -[upd OrderedDict.set OrderedDict.get buckets_disjoint]. rewrite Ho.
  cbn -[upd OrderedDict.set OrderedDict.get buckets_disjoint]. fold k.
  split; [reflexivity|].
  assert (Hm : OrderedDict.get Iid_eqb k
                 (OrderedDict.set Iid_eqb k o (_modified (self s))) = Some o)
    by apply OrderedDictFacts.get_set_same, Iid_eqb_refl.
  assert (Hd : OrderedDict.get Iid_eqb k
                 (OrderedDict.set Iid_eqb k o (_deleted (self s))) = Some o)
    by apply OrderedDictFacts.get_set_same, Iid_eqb_refl.
  split; [exact Hm|]. split; [exact Hd|].
  unfold buckets_disjoint. cbn [self _new _modified _deleted with_bucket].
  rewrite (disjoint_keys_common _ _ _ Hm Hd). apply andb_false_r.
Qed.

Lemma SessionStructure_add_after_delete_witness :
  let s0 := {| heap := Examples.objects;
               self := SessionModel_init SessionStructureClass Examples.folders |} in
  buckets_disjoint (self s0) = true /\
  exists s1 s2,
    SessionModel_delete 7 0 s0 = (Return (Some 7), s1) /\
    SessionModel_add 7 true None false s1 = (Return 7, s2) /\
    _modified (self s2) = [(IidPk 9, 7)] /\
    _deleted (self s2) = [(IidPk 9, 7)] /\
    buckets_disjoint (self s2) = false.
Proof.
  intros s0. split; [reflexivity|].
  destruct (SessionStructure_add_after_delete s0 7 0 eq_refl eq_refl eq_refl)
    as (s1 & s2 & E1 & E2 & _ & _ & Hd).
  exists s1, s2. split; [exact E1|]. split; [exact E2|].
  assert (S1 : s1 = snd (SessionModel_delete 7 0 s0)) by now rewrite E1.
  assert (S2 : s2 = snd (SessionModel_add 7 true None false s1)) by now rewrite E2.
  subst s1. subst s2. repeat split; reflexivity.
Defined.

(** Taking a key out of every bucket keeps the buckets disjoint: what
    [pop] leaves is disjoint when what it found was. *)
Lemma get_remove_none (k k' : Iid) (d : Bucket) :
  OrderedDict.get Iid_eqb k' d = None ->
  OrderedDict.get Iid_eqb k' (OrderedDict.remove Iid_eqb k d) = None.
Proof.
  induction d as [|[k0 v] rest IH]; simpl; [reflexivity|].
  destruct (Iid_eqb k' k0) eqn:E; [discriminate|]. intros H.
  destruct (Iid_eqb k k0); simpl; [now apply IH|].
  rewrite E. now apply IH.
Qed.

Lemma disjoint_keys_remove (k : Iid) (a b : Bucket) :
  disjoint_keys a b = true ->
  disjoint_keys (OrderedDict.remove Iid_eqb k a) (OrderedDict.remove Iid_eqb k b)
    = true.
Proof.
  unfold disjoint_keys, OrderedDict.keys, OrderedDict.contains.
  induction a as [|[k0 v] rest IH]; simpl; [reflexivity|].
  intros H. apply andb_true_iff in H. destruct H as [H0 H].
  destruct (Iid_eqb k k0); simpl; [now apply IH|].
  rewrite (IH H), andb_true_r.
  destruct (OrderedDict.get Iid_eqb k0 b) eqn:G; [discriminate|].
  now rewrite (@get_remove_none k _ _ G).
Qed.

Lemma pop_keeps_buckets_disjoint (k : Iid) (sm : SessionModel) :
  buckets_disjoint sm = true -> buckets_disjoint (without_iid k sm) = true.
Proof.
  unfold buckets_disjoint, without_iid; simpl. intros H.
  apply andb_true_iff in H. destruct H as [H H3].
  apply andb_true_iff in H. destruct H as [H1 H2].
  now rewrite !disjoint_keys_remove.
Qed.

(** In a plain [SessionModel] the buckets stop being disjoint when [add]
    stores an instance under a key other than the one it popped: the
    clash of the examples. *)
Lemma clash_not_disjoint :
  buckets_disjoint Examples.empty_buckets = true /\
  buckets_disjoint (self Examples.clash) = false.
Proof. split; reflexivity. Qed.

(** ** C5: results for an iid that no bucket has *)

Lemma for_each_app (S A B : Type) (f : B -> A -> Py S B) (xs ys : list A)
    (acc : B) (s : S) :
  for_each f (xs ++ ys) acc s =
    match for_each f xs acc s with
    | (Return a, s') => for_each f ys a s'
    | (Raise e, s') => (Raise e, s')
    end.
Proof.
  revert acc s. induction xs as [|x xs IH]; intros acc s; simpl.
  - reflexivity.
  - unfold bind. destruct (f acc x s) as [[a|e] s']; [apply IH | reflexivity].
Qed.

Lemma post_commit_step_absent (s : SMState) (r : InstanceResult)
    (acc : list oid * list Z * list Exception) :
  has_iid (r_iid r) (self s) = false ->
  post_commit_step acc (ResultOk r) s =
    if r_deleted r then
      (Return (fst (fst acc),
               snd (fst acc)
               ++ [pk_to_python (Manager_meta (manager (self s))) (r_id r)
                     (Manager_backend (manager (self s)))],
               snd acc), s)
    else (Raise (Exc InvalidTransaction (not_in_session_msg (self s) (r_iid r))), s).
Proof.
  intros A. destruct acc as [[instances deleted_] errors].
  unfold post_commit_step, bind at 1.
  rewrite (pop_ok s (ArgIid (r_iid r))) by now apply not_duplicated_absent.
  simpl pop_iid. rewrite (without_iid_absent _ _ A).
  apply has_iid_stored in A. rewrite A. simpl hd_error.
  unfold bind, gets, ret, raise. simpl.
  destruct s as [h sm]. simpl. destruct (r_deleted r); reflexivity.
Qed.

(** C5, as the code has it.  When [post_commit] reaches a result that is
    not an error and whose iid no bucket has, it raises
    [InvalidTransaction] if the result is not a deletion; for a deletion
    it appends the coerced id to the deleted ids and goes on. *)
Theorem post_commit_unknown_iid (s0 s : SMState) (pre post : list BackendResult)
    (r : InstanceResult) (acc : list oid * list Z * list Exception) :
  for_each post_commit_step pre ([], [], []) s0 = (Return acc, s) ->
  has_iid (r_iid r) (self s) = false ->
  (r_deleted r = false ->
   SessionModel_post_commit (pre ++ ResultOk r :: post) s0 =
     (Raise (Exc InvalidTransaction (not_in_session_msg (self s) (r_iid r))), s)) /\
  (r_deleted r = true ->
   SessionModel_post_commit (pre ++ ResultOk r :: post) s0 =
     for_each post_commit_step post
       (fst (fst acc),
        snd (fst acc)
        ++ [pk_to_python (Manager_meta (manager (self s))) (r_id r)
              (Manager_backend (manager (self s)))],
        snd acc) s).
Proof.
  intros Hpre A. unfold SessionModel_post_commit.
  rewrite for_each_app, Hpre. cbn [for_each]. unfold bind.
  rewrite post_commit_step_absent by exact A.
  split; intros ->; reflexivity.
Qed.

Lemma post_commit_unknown_iid_witness :
  let s0 := {| heap := Examples.objects; self := Examples.staged |} in
  let saved_ := {| r_iid := IidPk 6; r_id := 6; r_persistent := true;
                   r_deleted := false; r_score := 0 |} in
  has_iid (IidPk 6) Examples.staged = false /\
  SessionModel_post_commit [ResultOk saved_] s0 =
    (Raise (Exc InvalidTransaction
              (not_in_session_msg Examples.staged (IidPk 6))), s0).
Proof.
  intros s0 saved_. split; [reflexivity|].
  destruct (@post_commit_unknown_iid s0 s0 [] [] saved_ ([], [], [])
              eq_refl eq_refl) as [H _].
  exact (H eq_refl).
Defined.

(** C5 as stated fails for a deletion: the backend reports instrument 6
    deleted, no bucket has it, and [post_commit] returns its id among the
    deleted ones. *)
Lemma post_commit_unknown_deleted_iid :
  let s0 := {| heap := Examples.objects; self := Examples.staged |} in
  let gone := {| r_iid := IidPk 6; r_id := 6; r_persistent := false;
                 r_deleted := true; r_score := 0 |} in
  has_iid (r_iid gone) (self s0) = false /\
  SessionModel_post_commit [ResultOk gone] s0 = (Return ([], [6%Z], []), s0).
Proof. split; reflexivity. Qed.

(** ** C3: the payloads of [backends_data] *)


(** For an object model with instances waiting in [_deleted],
    [get_delete_query] raises at [self.query()], after [_deleted] was
    cleared and before [_delete_query] was touched, and [backends_data]
    raises with it, before any signal and any payload. *)
Lemma get_delete_query_raises (s : SMState) :
  no_object_deletes (self s) = false ->
  let e := Exc AttributeError (no_query_msg (model (manager (self s)))) in
  let s' := {| heap := heap s; self := with_bucket BDeleted [] (self s) |} in
  SessionModel_get_delete_query s = (Raise e, s') /\
  forall tx, SessionModel_backends_data tx s = (Raise e, s').
Proof.
  intros H e s'.
  assert (E : SessionModel_get_delete_query s = (Raise e, s')).
  { subst e s'. revert H.
    unfold no_object_deletes, SessionModel_get_delete_query, SessionModel_query,
      bind, gets, set_self, modify, ret, raise, SessionModel_deleted.
    destruct s as [h sm]. cbn [self heap].
    destruct (_deleted sm) as [|[k d] ds]; [discriminate|].
    cbn [OrderedDict.values map].
    destruct (_model_type (model (manager sm))); [|discriminate].
    intros _. reflexivity. }
  split; [exact E|]. intros tx.
  unfold SessionModel_backends_data, bind at 1, gets.
  unfold bind at 1. now rewrite E.
Qed.



(** The split of scenario 5: one dirty instance, one pending query, two
    backends. *)
Lemma backends_data_split_both :
  fst (SessionModel_backends_data Examples.no_transaction
         {| heap := Examples.objects; self := Examples.split_both |}) =
    Return
      ([pre_commit Examples.Instrument [8]],
       [(Some 1, {| sd_meta := Examples.Instrument; sd_dirty := [8];
                    sd_deletes := None; sd_queries := [] |});
        (Some 2, {| sd_meta := Examples.Instrument; sd_dirty := [];
                    sd_deletes := None; sd_queries := [QUser 0 0] |})]).
Proof. reflexivity. Qed.


(** ** What a method leaves alone *)

Section Keeps.
Context {S : Type}.
Variable R : S -> S -> Prop.
Hypothesis R_refl : forall s, R s s.
Hypothesis R_trans : forall a b c, R a b -> R b c -> R a c.

Lemma keeps_ret (A : Type) (a : A) : keeps R (ret a).
Proof. intros s r s' E. inversion E. apply R_refl. Qed.

Lemma keeps_raise (A : Type) (e : Exception) : keeps R (@raise S A e).
Proof. intros s r s' E. inversion E. apply R_refl. Qed.

Lemma keeps_gets (A : Type) (f : S -> A) : keeps R (gets f).
Proof. intros s r s' E. inversion E. apply R_refl. Qed.

Lemma keeps_bind (A B : Type) (m : Py S A) (k : A -> Py S B) :
  keeps R m -> (forall a, keeps R (k a)) -> keeps R (bind m k).
Proof.
  intros Hm Hk s r s' E. unfold bind in E.
  destruct (m s) as [[a|e] s1] eqn:Em.
  - eapply R_trans; [eapply Hm; exact Em | eapply Hk; exact E].
  - inversion E; subst. eapply Hm; exact Em.
Qed.

Lemma keeps_for_each (A B : Type) (f : B -> A -> Py S B) (xs : list A) :
  (forall b a, keeps R (f b a)) -> forall acc, keeps R (for_each f xs acc).
Proof.
  intros Hf. induction xs as [|x xs IH]; intros acc; simpl.
  - apply keeps_ret.
  - apply keeps_bind; [apply Hf | intros a; apply IH].
Qed.
End Keeps.

Lemma heap_links_refl (s : SMState) : heap_links s s.
Proof. intros o. split; reflexivity. Qed.

Lemma heap_links_trans (a b c : SMState) :
  heap_links a b -> heap_links b c -> heap_links a c.
Proof.
  intros H1 H2 o. destruct (H1 o) as [A1 A2], (H2 o) as [B1 B2].
  split; congruence.
Qed.

Lemma keeps_set_self (f : SessionModel -> SessionModel) :
  keeps heap_links (set_self f).
Proof. intros s r s' E. inversion E. intros o. split; reflexivity. Qed.

Lemma keeps_set_instance (o : oid) (f : Instance -> Instance) :
  (forall i, session (f i) = session i /\ instance_meta (f i) = instance_meta i) ->
  keeps heap_links (set_instance o f).
Proof.
  intros Hf s r s' E. inversion E. intros o'. simpl. unfold upd.
  destruct (o' =? o) eqn:Eo; [|split; reflexivity].
  apply Nat.eqb_eq in Eo. subst o'. apply Hf.
Qed.

Ltac keeps_step :=
  first
    [ apply (@keeps_ret _ _ heap_links_refl)
    | apply (@keeps_raise _ _ heap_links_refl)
    | apply (@keeps_gets _ _ heap_links_refl)
    | apply keeps_set_self
    | apply keeps_set_instance; intros; split; reflexivity
    | apply (@keeps_bind _ _ heap_links_trans); [ | intros ?]
    | apply (@keeps_for_each _ _ heap_links_refl heap_links_trans); intros ? ?
    | match goal with
      | |- keeps _ (match ?x with _ => _ end) => destruct x
      | |- keeps _ (if ?x then _ else _) => destruct x
      end ].

Lemma keeps_pop (arg : PopArg) : keeps heap_links (SessionModel_pop arg).
Proof.
  unfold SessionModel_pop, pop_from, get_state. repeat keeps_step.
Qed.

Lemma keeps_add (o : oid) (modified : bool) (persistent : option bool)
    (force_update : bool) :
  keeps heap_links (SessionModel_add o modified persistent force_update).
Proof.
  unfold SessionModel_add. apply (@keeps_bind _ _ heap_links_trans).
  - apply (@keeps_gets _ _ heap_links_refl).
  - intros c. destruct c.
    + unfold SessionModel_add_base, get_state_with, get_state.
      repeat first [apply keeps_pop | keeps_step].
    + unfold SessionStructure_add, get_state.
      repeat first [apply keeps_pop | keeps_step].
Qed.

(** ** [Session.add], step by step *)

Lemma Manager_key_refl (mg : Manager) : Manager_key mg mg = true.
Proof.
  unfold Manager_key, dict_key_match, Manager_is. now rewrite !Nat.eqb_refl.
Qed.

Lemma Session_manager_run (w : World) (s : sid) (m : Meta) (mg : Manager) :
  _router (sessions w s) (meta_id m) = Some mg ->
  Session_manager s m w = (Return mg, w).
Proof. intros H. unfold Session_manager, bind, gets. now rewrite H. Qed.

(** What [Session.model(instance)] does to the world. *)
Lemma Session_model_create (w : World) (s : sid) (m : Meta) (mg : Manager) :
  _router (sessions w s) (meta_id m) = Some mg ->
  exists id wm,
    Session_model s m true w = (Return (Some id), wm) /\
    instances wm = instances w /\
    transactions wm = transactions w /\
    transaction (sessions wm s) = transaction (sessions w s) /\
    _router (sessions wm s) = _router (sessions w s) /\
    OrderedDict.get Manager_key mg (_models (sessions wm s)) = Some id /\
    models wm id = Session_bucket w s mg /\
    (forall j, j <> id -> models wm j = models w j).
Proof.
  intros H. unfold Session_model, bind at 1. rewrite (Session_manager_run _ _ _ H).
  unfold bind at 1, gets. unfold Session_bucket.
  destruct (OrderedDict.get Manager_key mg (_models (sessions w s))) as [id|] eqn:G.
  - exists id, w. repeat split; auto.
  - unfold bind, fresh, modify, with_sessions, modify, ret. cbn.
    eexists. eexists. split; [reflexivity|]. cbn.
    rewrite !upd_same. cbn.
    repeat split; auto.
    + apply OrderedDictFacts.get_set_same, Manager_key_refl.
    + intros j Hj. now apply upd_other.
Qed.

Lemma Session_add_cases (commit : sid -> Py World unit) (w : World) (s : sid)
    (x : oid) (modified : bool) (persistent : option bool) (force_update : bool)
    (mg : Manager) :
  _router (sessions w s) (meta_id (instance_meta (instances w x))) = Some mg ->
  exists id wm,
    Session_model s (instance_meta (instances w x)) true w = (Return (Some id), wm) /\
    transaction (sessions wm s) = transaction (sessions w s) /\
    _router (sessions wm s) = _router (sessions w s) /\
    OrderedDict.get Manager_key mg (_models (sessions wm s)) = Some id /\
    (forall j, j <> id -> models wm j = models w j) /\
    forall r st,
      SessionModel_add x modified persistent force_update
        {| heap := upd (instances w) x (with_session (instances w x) (Some s));
           self := Session_bucket w s mg |} = (r, st) ->
      let w2 := {| instances := heap st; models := upd (models wm) id (self st);
                   sessions := sessions wm; transactions := transactions w;
                   next_id := next_id wm |} in
      Session_add commit s x modified persistent force_update w =
        match r with
        | Raise e => (Raise e, w2)
        | Return o =>
            if modified && negb (is_some (transaction (sessions w s)))
            then (commit s ;;; ret (AfterCommit o)) w2
            else (Return (Immediate o), w2)
        end.
Proof.
  intros H.
  destruct (Session_model_create w s _ H)
    as (id & wm & E & Hi & Ht & Htx & Hr & Hg & Hm & Ho).
  exists id, wm. split; [exact E|]. repeat (split; [assumption|]).
  intros r st Ea w2. unfold Session_add, bind at 1, gets.
  unfold bind at 1. rewrite E.
  unfold bind at 1, with_instance, modify.
  unfold bind at 1, call_model. cbn [instances models].
  rewrite Hi, Hm, Ea.
  destruct r as [o|e]; [|subst w2; now rewrite Ht].
  unfold bind at 1, gets. cbn [sessions]. rewrite Htx.
  subst w2. rewrite Ht.
  destruct (modified && negb (is_some (transaction (sessions w s)))); reflexivity.
Qed.

(** ** C1: rollback after add *)

Lemma Session_contains_empty (w : World) (s : sid) (x : oid) (mg : Manager) :
  _router (sessions w s) (meta_id (instance_meta (instances w x))) = Some mg ->
  _models (sessions w s) = [] ->
  Session_contains s x w = (Return false, w).
Proof.
  intros Hr Hm. unfold Session_contains, bind at 1, gets.
  unfold bind at 1, Session_model, bind at 1.
  rewrite (Session_manager_run _ _ _ Hr).
  unfold bind at 1, gets. rewrite Hm. reflexivity.
Qed.

(** C1, as the code has it.  In a session with an open transaction,
    after [session.add(x)] has returned and the transaction was rolled
    back, the session holds no bucket, [x] is not in the session, the
    session has no transaction and the transaction no session; the
    [session] link of [x] still points to the session: [expunge()]
    clears [_models] and touches no instance. *)
Theorem rollback_after_add (commit : sid -> Py World unit) (w w1 : World)
    (s : sid) (t : tid) (x : oid) (modified : bool) (persistent : option bool)
    (force_update : bool) (o : Added) :
  transaction (sessions w s) = Some t ->
  tx_session (transactions w t) = Some s ->
  Session_add commit s x modified persistent force_update w = (Return o, w1) ->
  exists w2,
    Transaction_rollback t w1 = (Return tt, w2) /\
    _models (sessions w2 s) = [] /\
    Session_contains s x w2 = (Return false, w2) /\
    transaction (sessions w2 s) = None /\
    tx_session (transactions w2 t) = None /\
    session (instances w2 x) = Some s.
Proof.
  intros Htx Hts Hadd.
  destruct (_router (sessions w s) (meta_id (instance_meta (instances w x))))
    as [mg|] eqn:Hr.
  2:{ unfold Session_add, bind at 1, gets in Hadd. unfold bind at 1 in Hadd.
      unfold Session_model, bind at 1, Session_manager, bind at 1, gets in Hadd.
      rewrite Hr in Hadd. discriminate. }
  destruct (Session_add_cases commit w s x modified persistent force_update Hr)
    as (id & wm & _ & Htm & Hrm & Hg & _ & Hrun).
  destruct (SessionModel_add x modified persistent force_update
              {| heap := upd (instances w) x (with_session (instances w x) (Some s));
                 self := Session_bucket w s mg |}) as [r st] eqn:Ea.
  specialize (Hrun r st eq_refl). cbv zeta in Hrun. rewrite Hrun in Hadd.
  destruct r as [o'|e]; [|discriminate].
  rewrite Htx in Hadd. cbn [is_some negb] in Hadd. rewrite andb_false_r in Hadd.
  inversion Hadd; subst o w1; clear Hadd Hrun.
  destruct (@keeps_add x modified persistent force_update _ _ _ Ea x)
    as [Hs Hmeta].
  cbn [heap] in Hs, Hmeta.
  rewrite upd_same in Hs, Hmeta. cbn in Hs, Hmeta.
  assert (Hlen : (Session_len (sessions wm s) =? 0) = false).
  { unfold Session_len. destruct (_models (sessions wm s)); [discriminate|reflexivity]. }
  unfold Transaction_rollback, bind at 1, gets. cbn [transactions].
  rewrite Hts. unfold bind at 1, gets. cbn [sessions]. rewrite Hlen.
  unfold bind, Session_expunge_all, with_sessions, with_transactions, modify.
  cbn -[upd Session_contains]. eexists. split; [reflexivity|].
  cbn -[upd Session_contains]. rewrite !upd_same. cbn -[upd Session_contains].
  repeat split; auto.
  apply (@Session_contains_empty _ _ _ mg); cbn -[upd]; rewrite ?upd_same;
    cbn -[upd]; [congruence | reflexivity].
Qed.

Lemma rollback_after_add_witness :
  exists w1 w2,
    Session_add (fun _ => ret tt) 0 8 true None false Examples.open_world
      = (Return (Immediate 8), w1) /\
    Transaction_rollback 1000 w1 = (Return tt, w2) /\
    _models (sessions w2 0) = [] /\
    transaction (sessions w2 0) = None /\
    session (instances w2 8) = Some 0.
Proof.
  eexists.
  destruct (@rollback_after_add (fun _ => ret tt) Examples.open_world _ 0 1000 8
              true None false (Immediate 8) eq_refl eq_refl eq_refl)
    as (w2 & E & Hm & _ & Ht & _ & Hs).
  exists w2. repeat split; assumption.
Defined.

(** C1 at its failing input, evaluated: session 0 begins a
    transaction, the new instrument 8 is added and the transaction is
    rolled back; the link of the instance is [Some 0], not [None]. *)
Lemma rollback_keeps_session_link :
  let w0 := snd (Session_begin 0 Examples.world) in
  let w1 := snd (Session_add (fun _ => ret tt) 0 8 true None false w0) in
  let w2 := snd (Transaction_rollback 1000 w1) in
  fst (Session_begin 0 Examples.world) = Return 1000 /\
  session (instances w0 8) = None /\
  fst (Session_add (fun _ => ret tt) 0 8 true None false w0)
    = Return (Immediate 8) /\
  fst (Transaction_rollback 1000 w1) = Return tt /\
  _models (sessions w2 0) = [] /\
  transaction (sessions w2 0) = None /\
  tx_session (transactions w2 1000) = None /\
  session (instances w2 8) = Some 0.
Proof. repeat split; reflexivity. Qed.

(** ** C9: [Session.add] when the bucket raises *)

Lemma add_deleted_raises (s : SMState) (o : oid) (modified : bool)
    (persistent : option bool) (force_update : bool) :
  sm_class (self s) = SessionModelClass ->
  st_deleted (state (heap s o)) = true ->
  SessionModel_add o modified persistent force_update s =
    (Raise (Exc ValueError "State is deleted. Cannot add."), s).
Proof.
  intros C D. unfold SessionModel_add, bind at 1, gets. rewrite C.
  unfold SessionModel_add_base, bind at 1, get_state, gets. now rewrite D.
Qed.

Lemma add_duplicated_raises (s : SMState) (o : oid) (modified : bool)
    (persistent : option bool) (force_update : bool) :
  sm_class (self s) = SessionModelClass ->
  st_deleted (state (heap s o)) = false ->
  duplicated (st_iid (state (heap s o))) (self s) = true ->
  exists sm' b,
    SessionModel_add o modified persistent force_update s =
      (Raise (Exc ValueError (duplicated_msg (st_iid (state (heap s o))))),
       {| heap := heap s; self := sm' |}) /\
    OrderedDict.contains Iid_eqb (st_iid (state (heap s o))) (bucket b (self s))
      = true /\
    OrderedDict.contains Iid_eqb (st_iid (state (heap s o))) (bucket b sm')
      = false.
Proof.
  intros C D Dup.
  destruct (pop_duplicated_removes s (ArgIid (st_iid (state (heap s o)))) Dup)
    as (sm' & b & E & H1 & H2).
  exists sm', b. split; [|split; assumption].
  unfold SessionModel_add, bind at 1, gets. rewrite C.
  unfold SessionModel_add_base, bind at 1, get_state, gets. rewrite D.
  unfold bind at 1. now rewrite E.
Qed.

(** C9, as the code has it.  [Session.add] binds [instance.session] to
    the session before it calls [add] on the bucket object, so whenever
    that call raises, the exception comes out of [Session.add] with the
    link already rebound.  When it raises because the state is deleted,
    the bucket object is as [Session.model] handed it out and every other
    bucket object is as before.  When it raises because the iid is held
    under two distinct objects, a bucket that held the iid has lost it. *)
Theorem Session_add_not_atomic (commit : sid -> Py World unit) (w : World)
    (s : sid) (x : oid) (modified : bool) (persistent : option bool)
    (force_update : bool) (mg : Manager) :
  _router (sessions w s) (meta_id (instance_meta (instances w x))) = Some mg ->
  let before :=
    {| heap := upd (instances w) x (with_session (instances w x) (Some s));
       self := Session_bucket w s mg |} in
  (forall e st,
     SessionModel_add x modified persistent force_update before = (Raise e, st) ->
     exists w1,
       Session_add commit s x modified persistent force_update w = (Raise e, w1) /\
       session (instances w1 x) = Some s) /\
  (sm_class (Session_bucket w s mg) = SessionModelClass ->
   st_deleted (state (instances w x)) = true ->
   exists id w1,
     Session_add commit s x modified persistent force_update w =
       (Raise (Exc ValueError "State is deleted. Cannot add."), w1) /\
     session (instances w1 x) = Some s /\
     OrderedDict.get Manager_key mg (_models (sessions w1 s)) = Some id /\
     models w1 id = Session_bucket w s mg /\
     (forall j, j <> id -> models w1 j = models w j)) /\
  (let k := st_iid (state (instances w x)) in
   sm_class (Session_bucket w s mg) = SessionModelClass ->
   st_deleted (state (instances w x)) = false ->
   duplicated k (Session_bucket w s mg) = true ->
   exists id w1 b,
     Session_add commit s x modified persistent force_update w =
       (Raise (Exc ValueError (duplicated_msg k)), w1) /\
     session (instances w1 x) = Some s /\
     OrderedDict.get Manager_key mg (_models (sessions w1 s)) = Some id /\
     OrderedDict.contains Iid_eqb k (bucket b (Session_bucket w s mg)) = true /\
     OrderedDict.contains Iid_eqb k (bucket b (models w1 id)) = false).
Proof.
  intros Hr before.
  destruct (Session_add_cases commit w s x modified persistent force_update Hr)
    as (id & wm & _ & _ & _ & Hg & Ho & Hrun).
  fold before in Hrun. split; [|split].
  - intros e st Ea. specialize (Hrun _ _ Ea). cbv zeta in Hrun.
    eexists. split; [exact Hrun|]. cbn [instances].
    destruct (@keeps_add x modified persistent force_update _ _ _ Ea x) as [Hs _].
    rewrite Hs. unfold before. cbn [heap]. now rewrite upd_same.
  - intros C D.
    assert (Ea : SessionModel_add x modified persistent force_update before =
                 (Raise (Exc ValueError "State is deleted. Cannot add."), before)).
    { apply add_deleted_raises; [exact C|].
      unfold before. cbn [heap]. now rewrite upd_same. }
    specialize (Hrun _ _ Ea). cbv zeta in Hrun.
    exists id. eexists. split; [exact Hrun|]. cbn [instances models sessions].
    unfold before. cbn [heap self]. rewrite !upd_same.
    repeat split; auto.
    intros j Hj. rewrite upd_other by exact Hj. now apply Ho.
  - intros k C D Dup.
    assert (Hst : state (heap before x) = state (instances w x))
      by (unfold before; cbn [heap]; now rewrite upd_same).
    destruct (@add_duplicated_raises before x modified persistent force_update)
      as (sm' & b & Ea & H1 & H2); rewrite ?Hst; auto.
    rewrite Hst in Ea, H1, H2. fold k in Ea, H1, H2.
    specialize (Hrun _ _ Ea). cbv zeta in Hrun.
    exists id. eexists. exists b. split; [exact Hrun|].
    cbn [instances models sessions heap self]. rewrite upd_same.
    unfold before. cbn [heap]. rewrite upd_same.
    repeat split; auto.
Qed.

Lemma Session_add_not_atomic_witness :
  let w := Examples.open_world in
  let gone :=
    {| instances := upd (instances w) 1
                      (with_state (instances w 1)
                         (with_deleted (state (instances w 1)) true));
       models := models w; sessions := sessions w;
       transactions := transactions w; next_id := next_id w |} in
  st_deleted (state (instances gone 1)) = true /\
  session (instances gone 1) = None /\
  exists id w1,
    Session_add (fun _ => ret tt) 0 1 true None false gone =
      (Raise (Exc ValueError "State is deleted. Cannot add."), w1) /\
    session (instances w1 1) = Some 0 /\
    OrderedDict.get Manager_key Examples.instruments (_models (sessions w1 0))
      = Some id /\
    models w1 id = Examples.empty_buckets.
Proof.
  intros w gone. split; [reflexivity|]. split; [reflexivity|].
  destruct (@Session_add_not_atomic (fun _ => ret tt) gone 0 1 true None false
              Examples.instruments eq_refl) as [_ [H _]].
  destruct (H eq_refl eq_refl) as (id & w1 & E & Hs & Hg & Hm & _).
  exists id, w1. repeat split; assumption.
Defined.

(** C9 as stated fails for the other way [add] raises: the key 5 is
    held under two distinct objects, [pop] has taken object 4 out of
    [_modified] when it meets object 2 in [_deleted] and raises; the
    link is rebound and a bucket has changed. *)
Lemma Session_add_raise_changes_bucket :
  let w := Examples.clash_world in
  let r := Session_add (fun _ => ret tt) 0 4 true None false w in
  session (instances w 4) = None /\
  _modified (models w 500) = [(IidPk 5, 4)] /\
  fst (SessionModel_add 4 true None false
         {| heap := upd (instances w) 4 (with_session (instances w 4) (Some 0));
            self := models w 500 |}) =
    Raise (Exc ValueError (duplicated_msg (IidPk 5))) /\
  fst r = Raise (Exc ValueError (duplicated_msg (IidPk 5))) /\
  session (instances (snd r) 4) = Some 0 /\
  _modified (models (snd r) 500) = [].
Proof. repeat split; reflexivity. Qed.

(** ** C4: the [CommitException] of [_post_commit] *)

Lemma await_all_ok (results : list (Outcome unit)) (w : World) :
  (forall r, In r results -> exists u, r = Return u) ->
  await_all results w = (Return tt, w).
Proof.
  induction results as [|r rest IH]; intros H; simpl; [reflexivity|].
  destruct (H r (or_introl eq_refl)) as [u ->].
  apply IH. intros r' Hr'. apply H. now right.
Qed.

(** Whatever [post_commit] returns, its list of errors is the one it
    started with: the one branch that appends to it raises first. *)
Lemma post_commit_step_errors (acc acc' : list oid * list Z * list Exception)
    (result : BackendResult) (s s' : SMState) :
  post_commit_step acc result s = (Return acc', s') ->
  snd acc' = snd acc /\ exists r, result = ResultOk r.
Proof.
  destruct acc as [[i d] er]. destruct result as [e|r]; intros E.
  - unfold post_commit_step, bind, gets, raise in E. discriminate.
  - split; [|now exists r]. unfold post_commit_step in E.
    apply bind_return_inv in E. destruct E as (inst & s1 & _ & E).
    apply bind_return_inv in E. destruct E as (sm & s2 & _ & E).
    destruct (r_deleted r); [now inversion E|].
    destruct inst as [o|]; [|discriminate].
    apply bind_return_inv in E. destruct E as (u & s3 & _ & E).
    apply bind_return_inv in E. destruct E as (o' & s4 & _ & E).
    apply bind_return_inv in E. destruct E as (u' & s5 & _ & E).
    apply bind_return_inv in E. destruct E as (st & s6 & _ & E).
    destruct (st_persistent st); now inversion E.
Qed.

Lemma post_commit_errors (results : list BackendResult) :
  forall (acc acc' : list oid * list Z * list Exception) (s s' : SMState),
    for_each post_commit_step results acc s = (Return acc', s') ->
    snd acc' = snd acc /\ forall e, ~ In (ResultError e) results.
Proof.
  induction results as [|x rest IH]; intros acc acc' s s' E.
  - inversion E. split; [reflexivity | intros e []].
  - cbn [for_each] in E.
    apply bind_return_inv in E. destruct E as (a & s1 & Ex & E).
    destruct (@post_commit_step_errors _ _ _ _ _ Ex) as (H1 & r & ->).
    destruct (IH _ _ _ _ E) as (H2 & H3).
    split; [congruence|]. intros e [H|H]; [discriminate | exact (H3 e H)].
Qed.

(** The exceptions the first loop of [_post_commit] collects. *)
Lemma scan_collects (t : tid) (ses : sid) (response : list ResponseItem) :
  forall (signals0 signals : list Signal) (exceptions0 exceptions : list Exception)
         (w w1 : World),
    for_each (post_commit_scan t ses) response (signals0, exceptions0) w
      = (Return (signals, exceptions), w1) ->
    exceptions = exceptions0 ++ response_errors response /\
    forall meta results e,
      In (ResponseModel meta results) response -> ~ In (ResultError e) results.
Proof.
  induction response as [|x rest IH];
    intros signals0 signals exceptions0 exceptions w w1 E.
  - inversion E. split; [now rewrite app_nil_r | intros meta results e []].
  - cbn [for_each] in E.
    apply bind_return_inv in E. destruct E as ([sg ex] & w2 & Ex & E).
    destruct (IH _ _ _ _ _ _ E) as (H1 & H2).
    assert (Hx : ex = exceptions0
                        ++ match x with ResponseError e => [e] | _ => [] end /\
                 forall meta results e,
                   x = ResponseModel meta results -> ~ In (ResultError e) results).
    { destruct x as [e|meta [|y results]|]; cbn [post_commit_scan] in Ex.
      - inversion Ex. split; [reflexivity | discriminate].
      - inversion Ex. split; [now rewrite app_nil_r|].
        intros meta' results e [= _ <-] [].
      - apply bind_return_inv in Ex. destruct Ex as ([sm|] & w3 & _ & Ex);
          [|discriminate].
        apply bind_return_inv in Ex.
        destruct Ex as ([[saved_ deleted_] errors] & w4 & Ec & Ex).
        unfold call_model in Ec.
        destruct (SessionModel_post_commit (y :: results)
                    {| heap := instances w3; self := models w3 sm |})
          as [[acc|e] st] eqn:Ep; [|discriminate].
        destruct (@post_commit_errors _ _ _ _ _ Ep) as (He & Hn).
        inversion Ec; subst acc. cbn [snd] in He. subst errors.
        apply bind_return_inv in Ex. destruct Ex as (tx & w5 & _ & Ex).
        apply bind_return_inv in Ex. destruct Ex as (sender & w6 & _ & Ex).
        apply bind_return_inv in Ex. destruct Ex as (u & w7 & _ & Ex).
        inversion Ex. split; [now rewrite app_nil_r|].
        intros meta' results' e [= _ <-]. apply Hn.
      - inversion Ex. split; [now rewrite app_nil_r | discriminate]. }
    destruct Hx as (Hx1 & Hx2).
    split.
    + rewrite H1, Hx1, <- app_assoc. reflexivity.
    + intros meta results e [->|H]; [now apply (Hx2 meta) | exact (H2 _ _ e H)].
Qed.

(** C4, as the code has it.  The exceptions that [_post_commit] has
    collected when its first loop is over are the exceptions that are
    items of the response, in order, and nothing else: no result of a
    model is an exception then, because [SessionModel.post_commit] raises
    [AttributeError] on [self.meta] instead of handing such an error
    over.  For a non-empty collected list, when no subscriber of a signal
    failed, the method marks the transaction finished and raises
    [CommitException] with [failures] the number of exceptions; the
    message is the exception's own for a single one, and for N > 1 it is
    "There were N exceptions during commit." followed by the messages. *)
Theorem post_commit_collects_response_errors
    (send : Signal -> list (Outcome unit))
    (t : tid) (ses : sid) (response : list ResponseItem) (w w1 : World)
    (signals : list Signal) (exceptions : list Exception) :
  for_each (post_commit_scan t ses) response ([], []) w
    = (Return (signals, exceptions), w1) ->
  exceptions = response_errors response /\
  (forall meta results e,
     In (ResponseModel meta results) response -> ~ In (ResultError e) results) /\
  ((forall r, In r (flat_map send signals) -> exists u, r = Return u) ->
   exceptions <> [] ->
   exists msg w2,
     Transaction_post_commit send t ses response w =
       (Raise (CommitException msg (List.length exceptions)), w2) /\
     _finished (transactions w2 t) = true /\
     (forall e, exceptions = [e] -> msg = exc_str e) /\
     (1 < List.length exceptions ->
      msg = ("There were " ++ str_nat (List.length exceptions)
             ++ " exceptions during commit." ++ nl ++ nl
             ++ join (nl ++ nl) (map exc_str exceptions))%string)).
Proof.
  intros Hscan.
  destruct (@scan_collects _ _ _ _ _ _ _ _ _ Hscan) as (H1 & H2).
  split; [exact H1|]. split; [exact H2|].
  intros Hsend Hne.
  exists (commit_error exceptions). eexists.
  split; [|split; [|split]].
  - unfold Transaction_post_commit, bind at 1. rewrite Hscan.
    unfold bind at 1. rewrite (await_all_ok _ _ Hsend).
    unfold post_commit_finish, bind, with_transactions, modify.
    destruct exceptions as [|e rest]; [contradiction|]. reflexivity.
  - cbn [transactions]. now rewrite upd_same.
  - intros e ->. reflexivity.
  - intros H. unfold commit_error.
    destruct (Nat.ltb_spec 1 (List.length exceptions)); [reflexivity | lia].
Qed.

Lemma post_commit_collects_response_errors_witness :
  let e1 := Exc (BackendError 1) "connection lost" in
  let e2 := Exc (BackendError 2) "script failed" in
  exists w2,
    Transaction_post_commit (fun _ => []) 1000 0
      [ResponseError e1; ResponseError e2] Examples.open_world =
      (Raise (CommitException
                ("There were 2 exceptions during commit." ++ nl ++ nl
                 ++ "connection lost" ++ nl ++ nl ++ "script failed") 2), w2) /\
    _finished (transactions w2 1000) = true.
Proof.
  intros e1 e2.
  destruct (@post_commit_collects_response_errors (fun _ => []) 1000 0
              [ResponseError e1; ResponseError e2] Examples.open_world
              Examples.open_world [] [e1; e2] eq_refl)
    as (_ & _ & H).
  destruct H as (msg & w2 & E & Hf & _ & Hmsg).
  - intros r [].
  - discriminate.
  - exists w2. split; [|exact Hf].
    rewrite E. rewrite (Hmsg (le_n 2)). reflexivity.
Defined.

(** Scenario 6 of the specification: the backend returns two error
    results for one model.  The commit does not end in a
    [CommitException] with [failures=2]: wrapping the first error,
    [SessionModel.post_commit] raises [AttributeError], and the
    transaction is not marked finished. *)
Lemma post_commit_two_model_errors :
  let e1 := Exc (BackendError 1) "connection lost" in
  let e2 := Exc (BackendError 2) "script failed" in
  let r := Transaction_post_commit (fun _ => []) 1000 0
             [ResponseModel Examples.Instrument [ResultError e1; ResultError e2]]
             Examples.open_world in
  fst r = Raise (Exc AttributeError
                   "'SessionModel' object has no attribute 'meta'") /\
  _finished (transactions (snd r) 1000) = false.
Proof. split; reflexivity. Qed.

(** A single collected exception keeps its own message. *)
Lemma post_commit_single_error :
  fst (Transaction_post_commit (fun _ => []) 1000 0
         [ResponseError (Exc (BackendError 1) "connection lost")]
         Examples.open_world) =
    Raise (CommitException "connection lost" 1).
Proof. reflexivity. Qed.

(** An exception among the results of one model does not reach the
    list: [post_commit] raises on [self.meta] while wrapping it. *)
Lemma post_commit_error_result :
  fst (SessionModel_post_commit
         [ResultError (Exc (BackendError 1) "connection lost")]
         {| heap := Examples.objects; self := Examples.staged |}) =
    Raise (Exc AttributeError
             "'SessionModel' object has no attribute 'meta'").
Proof. reflexivity. Qed.

(** ** C8: managers as dictionary keys *)

(** C8, as the code has it.  [Manager] defines [__hash__] and no
    [__eq__]: two managers compare equal exactly when they are the same
    object; managers over the same metadata have the same hash; two
    distinct manager objects are two keys of a dictionary, also over the
    same metadata. *)
Theorem Manager_equality (m1 m2 : Manager) :
  (Manager_eq m1 m2 = true <-> manager_id m1 = manager_id m2) /\
  (meta_id (model m1) = meta_id (model m2) -> Manager_hash m1 = Manager_hash m2) /\
  (manager_id m1 <> manager_id m2 ->
   forall (V : Type) (v1 v2 : V),
     OrderedDict.set Manager_key m2 v2 (OrderedDict.set Manager_key m1 v1 [])
       = [(m1, v1); (m2, v2)]).
Proof.
  split; [|split].
  - unfold Manager_eq, Manager_is. apply Nat.eqb_eq.
  - unfold Manager_hash. auto.
  - intros H V v1 v2. simpl.
    unfold Manager_key, dict_key_match, Manager_eq, Manager_is.
    assert (E : (manager_id m2 =? manager_id m1) = false)
      by (apply Nat.eqb_neq; congruence).
    rewrite E. cbn [orb]. now rewrite andb_false_r.
Qed.

Lemma Manager_equality_witness :
  Manager_hash Examples.instruments = Manager_hash Examples.instruments_split /\
  OrderedDict.set Manager_key Examples.instruments_split 2
    (OrderedDict.set Manager_key Examples.instruments 1 [])
    = [(Examples.instruments, 1); (Examples.instruments_split, 2)].
Proof.
  destruct (Manager_equality Examples.instruments Examples.instruments_split)
    as (_ & Hh & Hd).
  split; [apply Hh; reflexivity | apply Hd; discriminate].
Defined.

(** C8 as stated fails for two manager objects over one model: their
    metadata are identical and they do not compare equal. *)
Lemma Manager_same_meta_not_equal :
  model Examples.instruments = model Examples.instruments_split /\
  Manager_eq Examples.instruments Examples.instruments_split = false /\
  ~ (Manager_eq Examples.instruments Examples.instruments_split = true <->
     model Examples.instruments = model Examples.instruments_split).
Proof.
  split; [reflexivity|]. split; [reflexivity|].
  intros [_ H]. specialize (H eq_refl). discriminate.
Qed.

(** * Further facts *)

(** ** [pop], whenever it returns *)

Lemma pop_returns (s s' : SMState) (arg : PopArg) (r : option oid) :
  SessionModel_pop arg s = (Return r, s') ->
  duplicated (pop_iid arg s) (self s) = false /\
  r = hd_error (stored (pop_iid arg s) (self s)) /\
  s' = {| heap := heap s; self := without_iid (pop_iid arg s) (self s) |}.
Proof.
  intros E. destruct (duplicated (pop_iid arg s) (self s)) eqn:D.
  - destruct (pop_duplicated s arg D) as [sm' E']. congruence.
  - rewrite (pop_ok s arg D) in E. inversion E. auto.
Qed.

(** ** The shape of the buckets after [SessionModel.add] *)

(** Where [add] puts the instance, given the state it ends with. *)
Lemma add_base_shape (s s' : SMState) (o r : oid) (modified : bool)
    (persistent : option bool) (force_update : bool) :
  sm_class (self s) = SessionModelClass ->
  SessionModel_add o modified persistent force_update s = (Return r, s') ->
  let k0 := st_iid (state (heap s o)) in
  let st' := state (heap s' o) in
  let sm1 := without_iid k0 (self s) in
  r = o /\
  st_deleted (state (heap s o)) = false /\
  duplicated k0 (self s) = false /\
  st_deleted st' = false /\
  (forall x, x <> o -> heap s' x = heap s x) /\
  self s' =
    (if st_persistent st' then
       if modified
       then with_bucket BModified (OrderedDict.set Iid_eqb (st_iid st') o (_modified sm1)) sm1
       else sm1
     else with_bucket BNew (OrderedDict.set Iid_eqb (st_iid st') o (_new sm1)) sm1).
Proof.
  intros C E k0 st' sm1.
  unfold SessionModel_add, bind at 1, gets in E. rewrite C in E.
  unfold SessionModel_add_base, bind at 1, get_state, gets in E.
  destruct (st_deleted (state (heap s o))) eqn:D; [discriminate|].
  unfold bind at 1 in E.
  destruct (SessionModel_pop (ArgIid (st_iid (state (heap s o)))) s)
    as [[p|e] s1] eqn:Ep; [|discriminate].
  destruct (pop_returns _ _ Ep) as (Dup & _ & ->). simpl pop_iid in *.
  fold k0 in E, Dup. fold sm1 in E.
  assert (G : forall (c : Py SMState ModelState) (h1 : Heap) (st1 : ModelState),
             c {| heap := heap s; self := sm1 |}
               = (Return st1, {| heap := h1; self := sm1 |}) ->
             h1 o = with_state (h1 o) st1 -> st_deleted st1 = false ->
             (forall x, x <> o -> h1 x = heap s x) ->
             (st1 <- c ;;
              (if st_persistent st1 then
                 if modified
                 then set_self (fun sm => with_bucket BModified
                        (OrderedDict.set Iid_eqb (st_iid st1) o (_modified sm)) sm)
                 else ret tt
               else set_self (fun sm => with_bucket BNew
                        (OrderedDict.set Iid_eqb (st_iid st1) o (_new sm)) sm)) ;;;
              ret o) {| heap := heap s; self := sm1 |} = (Return r, s') ->
             r = o /\ st_deleted st' = false /\
             (forall x, x <> o -> heap s' x = heap s x) /\
             self s' =
               (if st_persistent st' then
                  if modified
                  then with_bucket BModified
                         (OrderedDict.set Iid_eqb (st_iid st') o (_modified sm1)) sm1
                  else sm1
                else with_bucket BNew
                       (OrderedDict.set Iid_eqb (st_iid st') o (_new sm1)) sm1)).
  { intros c h1 st1 Ec Hh Hd Hx E1. unfold bind at 1 in E1. rewrite Ec in E1.
    unfold st'. 
    destruct (st_persistent st1) eqn:P; [destruct modified|];
      unfold bind, set_self, modify, ret in E1; cbn in E1; inversion E1; subst;
      cbn [heap self]; rewrite Hh; cbn [state with_state]; rewrite ?P; auto. }
  destruct persistent as [[|]|]; [| |destruct (st_persistent (state (heap s o))) eqn:P0];
    cbn [negb] in E.
  - (* persistent=True *)
    eapply G in E; [tauto | | | |];
      [ unfold bind, set_instance, get_state_with, gets, modify, ret; cbn; reflexivity
      | cbn; now rewrite !upd_same
      | unfold new_state; cbn; rewrite !upd_same; cbn;
        destruct (pk (heap s o)); reflexivity
      | intros x Hx; now rewrite !upd_other ].
  - (* persistent=False *)
    eapply G in E; [tauto | | | |];
      [ unfold bind, set_instance, get_state_with, gets, modify, ret; cbn; reflexivity
      | cbn; now rewrite !upd_same
      | unfold new_state; cbn; rewrite !upd_same; cbn;
        destruct (pk (heap s o)); reflexivity
      | intros x Hx; now rewrite !upd_other ].
  - (* omitted, persistent state *)
    eapply G in E; [tauto | | | |];
      [ unfold bind, set_instance, get_state_with, gets, modify, ret; cbn; reflexivity
      | cbn; now rewrite !upd_same
      | unfold new_state; cbn; reflexivity
      | intros x Hx; now rewrite !upd_other ].
  - (* omitted, unsaved state *)
    eapply G in E; [tauto | | | |];
      [ unfold bind, set_instance, get_state_with, gets, modify, ret; cbn; reflexivity
      | cbn; now rewrite !upd_same
      | unfold new_state; cbn; rewrite !upd_same; cbn;
        destruct (pk (heap s o)); reflexivity
      | intros x Hx; now rewrite !upd_other ].
Qed.

Lemma add_structure_run (s : SMState) (o : oid) (persistent : option bool)
    (force_update : bool) :
  sm_class (self s) = SessionStructureClass ->
  SessionModel_add o true persistent force_update s =
    (Return o,
     {| heap := upd (heap s) o
                  (with_state (heap s o) (with_deleted (state (heap s o)) false));
        self := with_bucket BModified
                  (OrderedDict.set Iid_eqb (st_iid (state (heap s o))) o
                     (_modified (self s))) (self s) |}).
Proof.
  intros C. unfold SessionModel_add, bind at 1, gets. rewrite C.
  reflexivity.
Qed.

Lemma add_structure_unmodified_run (s : SMState) (o : oid)
    (persistent : option bool) (force_update : bool) :
  sm_class (self s) = SessionStructureClass ->
  duplicated (st_iid (state (heap s o))) (self s) = false ->
  SessionModel_add o false persistent force_update s =
    (Return o,
     {| heap := upd (heap s) o
                  (with_state (heap s o) (with_deleted (state (heap s o)) false));
        self := with_bucket BModified
                  (OrderedDict.set Iid_eqb (st_iid (state (heap s o))) o
                     (OrderedDict.remove Iid_eqb (st_iid (state (heap s o)))
                        (_modified (self s))))
                  (without_iid (st_iid (state (heap s o))) (self s)) |}).
Proof.
  intros C D. unfold SessionModel_add, bind at 1, gets. rewrite C.
  unfold SessionStructure_add, bind at 1, get_state, gets.
  unfold bind at 1, set_instance, modify.
  unfold bind at 1. cbn [negb]. unfold bind at 1.
  set (s1 := {| heap := upd (heap s) o
                          (with_state (heap s o)
                             (with_deleted (state (heap s o)) false));
                self := self s |}).
  assert (K : pop_iid (ArgInstance o) s1 = st_iid (state (heap s o)))
    by (cbn; now rewrite upd_same).
  rewrite (pop_ok s1 (ArgInstance o)) by (rewrite K; exact D).
  rewrite K. reflexivity.
Qed.

(** ** After [add], the instance is in the session *)

(** X1.  Whenever [add] with [modified=True] returns, on a
    [SessionModel] or a [SessionStructure], it returns the instance, the
    state of the instance is not deleted, a bucket holds the instance
    under the iid of its state, and [instance in sm] is true. *)
Theorem add_then_contains (s s' : SMState) (o r : oid)
    (persistent : option bool) (force_update : bool) :
  SessionModel_add o true persistent force_update s = (Return r, s') ->
  r = o /\
  st_deleted (state (heap s' o)) = false /\
  (exists b,
     OrderedDict.get Iid_eqb (st_iid (state (heap s' o))) (bucket b (self s'))
       = Some o) /\
  SessionModel_contains o s' = (Return true, s').
Proof.
  intros E.
  assert (H : r = o /\ st_deleted (state (heap s' o)) = false /\
              exists b,
                OrderedDict.get Iid_eqb (st_iid (state (heap s' o)))
                  (bucket b (self s')) = Some o).
  { destruct (sm_class (self s)) eqn:C.
    - destruct (@add_base_shape _ _ _ _ _ _ _ C E) as (-> & _ & _ & Hd & _ & Hs).
      split; [reflexivity|]. split; [exact Hd|]. rewrite Hs.
      destruct (st_persistent (state (heap s' o))).
      + exists BModified. apply OrderedDictFacts.get_set_same, Iid_eqb_refl.
      + exists BNew. apply OrderedDictFacts.get_set_same, Iid_eqb_refl.
    - rewrite (@add_structure_run s o persistent force_update C) in E.
      inversion E; subst. cbn [heap self]. rewrite upd_same.
      split; [reflexivity|]. split; [reflexivity|].
      exists BModified. apply OrderedDictFacts.get_set_same, Iid_eqb_refl. }
  destruct H as (-> & Hd & b & Hb). repeat split; auto; [now exists b|].
  unfold SessionModel_contains, bind, get_state, gets. f_equal. f_equal.
  unfold has_iid, OrderedDict.contains.
  destruct b; cbn [bucket] in Hb; rewrite Hb; cbn; rewrite ?orb_true_r; reflexivity.
Qed.

Lemma add_then_contains_witness :
  exists s',
    SessionModel_add 8 true None false
      {| heap := Examples.objects; self := Examples.staged |} = (Return 8, s') /\
    OrderedDict.get Iid_eqb (IidNew 8) (_new (self s')) = Some 8 /\
    SessionModel_contains 8 s' = (Return true, s').
Proof.
  exists (snd (SessionModel_add 8 true None false
                 {| heap := Examples.objects; self := Examples.staged |})).
  split; [reflexivity|]. split; [reflexivity|].
  exact (proj2 (proj2 (proj2
    (@add_then_contains {| heap := Examples.objects; self := Examples.staged |}
       _ 8 8 None false eq_refl)))).
Defined.

(** ** [SessionStructure.add] *)

(** X2.  [SessionStructure.add] with [modified=False] pops the instance
    first: when no two buckets hold distinct objects under its iid, the
    instance ends in [_modified] and in no other bucket, so an instance
    that was in [_deleted] is moved, not duplicated. *)
Theorem SessionStructure_add_unmodified (s : SMState) (o : oid)
    (persistent : option bool) (force_update : bool) :
  let k := st_iid (state (heap s o)) in
  sm_class (self s) = SessionStructureClass ->
  duplicated k (self s) = false ->
  exists s',
    SessionModel_add o false persistent force_update s = (Return o, s') /\
    OrderedDict.get Iid_eqb k (_modified (self s')) = Some o /\
    OrderedDict.contains Iid_eqb k (_new (self s')) = false /\
    OrderedDict.contains Iid_eqb k (_deleted (self s')) = false /\
    st_deleted (state (heap s' o)) = false.
Proof.
  intros k C D. eexists. split; [now apply add_structure_unmodified_run|].
  cbn [heap self with_bucket without_iid _new _modified _deleted].
  rewrite upd_same. repeat split.
  - apply OrderedDictFacts.get_set_same, Iid_eqb_refl.
  - apply OrderedDictFacts.contains_remove_same.
  - apply OrderedDictFacts.contains_remove_same.
Qed.

Lemma SessionStructure_add_unmodified_witness :
  let s0 := snd (SessionModel_delete 7 0
                   {| heap := Examples.objects;
                      self := SessionModel_init SessionStructureClass
                                Examples.folders |}) in
  _deleted (self s0) = [(IidPk 9, 7)] /\
  exists s',
    SessionModel_add 7 false None false s0 = (Return 7, s') /\
    _modified (self s') = [(IidPk 9, 7)] /\ _deleted (self s') = [].
Proof.
  intros s0. split; [reflexivity|].
  destruct (@SessionStructure_add_unmodified s0 7 None false eq_refl eq_refl)
    as (s' & E & _).
  exists s'. split; [exact E|].
  assert (S : s' = snd (SessionModel_add 7 false None false s0)) by now rewrite E.
  subst s'. split; reflexivity.
Defined.

(** ** Keys of the buckets *)

Lemma Iid_eqb_sym (a b : Iid) : Iid_eqb a b = Iid_eqb b a.
Proof.
  destruct (Iid_eqb a b) eqn:E, (Iid_eqb b a) eqn:F; try reflexivity.
  - apply Iid_eqb_eq in E. subst. now rewrite Iid_eqb_refl in F.
  - apply Iid_eqb_eq in F. subst. now rewrite Iid_eqb_refl in E.
Qed.

Lemma contains_set (k' k : Iid) (v : oid) (d : Bucket) :
  OrderedDict.contains Iid_eqb k' (OrderedDict.set Iid_eqb k v d)
    = Iid_eqb k' k || OrderedDict.contains Iid_eqb k' d.
Proof.
  unfold OrderedDict.contains.
  induction d as [|[k0 v0] rest IH]; simpl.
  - destruct (Iid_eqb k' k); reflexivity.
  - destruct (Iid_eqb k k0) eqn:E; simpl.
    + apply Iid_eqb_eq in E. subst k0.
      destruct (Iid_eqb k' k); reflexivity.
    + destruct (Iid_eqb k' k0) eqn:F; [now rewrite orb_true_r | exact IH].
Qed.

Lemma contains_remove (k' k : Iid) (d : Bucket) :
  OrderedDict.contains Iid_eqb k' (OrderedDict.remove Iid_eqb k d)
    = negb (Iid_eqb k' k) && OrderedDict.contains Iid_eqb k' d.
Proof.
  unfold OrderedDict.contains.
  induction d as [|[k0 v0] rest IH]; simpl.
  - now rewrite andb_false_r.
  - destruct (Iid_eqb k k0) eqn:E; simpl.
    + apply Iid_eqb_eq in E. subst k0. rewrite IH.
      destruct (Iid_eqb k' k); reflexivity.
    + destruct (Iid_eqb k' k0) eqn:F; [|exact IH].
      apply Iid_eqb_eq in F. subst k0.
      rewrite (Iid_eqb_sym k' k), E. reflexivity.
Qed.

Lemma contains_key (k : Iid) (d : Bucket) :
  OrderedDict.contains Iid_eqb k d = true <-> In k (OrderedDict.keys d).
Proof.
  unfold OrderedDict.contains, OrderedDict.keys.
  induction d as [|[k0 v0] rest IH]; simpl.
  - split; [discriminate | tauto].
  - destruct (Iid_eqb k k0) eqn:E.
    + apply Iid_eqb_eq in E. subst. split; auto.
    + rewrite IH. split; [tauto|]. intros [H|H]; [|exact H].
      subst. now rewrite Iid_eqb_refl in E.
Qed.

Lemma disjoint_keys_iff (a b : Bucket) :
  disjoint_keys a b = true <->
  (forall k, OrderedDict.contains Iid_eqb k a = true ->
             OrderedDict.contains Iid_eqb k b = false).
Proof.
  unfold disjoint_keys. rewrite forallb_forall. split.
  - intros H k Hk. apply contains_key in Hk. apply H in Hk.
    now apply negb_true_iff in Hk.
  - intros H k Hk. apply contains_key in Hk. apply negb_true_iff. now apply H.
Qed.

Lemma set_absent (k : Iid) (v : oid) (d : Bucket) :
  OrderedDict.get Iid_eqb k d = None ->
  OrderedDict.set Iid_eqb k v d = d ++ [(k, v)].
Proof.
  induction d as [|[k0 v0] rest IH]; simpl; [reflexivity|].
  destruct (Iid_eqb k k0); [discriminate|]. intros H. now rewrite IH.
Qed.

Lemma remove_last (k : Iid) (v : oid) (d : Bucket) :
  OrderedDict.get Iid_eqb k d = None ->
  OrderedDict.remove Iid_eqb k (d ++ [(k, v)]) = d.
Proof.
  intros H. unfold OrderedDict.remove. rewrite filter_app. simpl.
  rewrite Iid_eqb_refl. simpl. rewrite app_nil_r.
  now apply OrderedDictFacts.remove_absent.
Qed.

Lemma has_iid_false (k : Iid) (sm : SessionModel) :
  has_iid k sm = false ->
  OrderedDict.get Iid_eqb k (_new sm) = None /\
  OrderedDict.get Iid_eqb k (_modified sm) = None /\
  OrderedDict.get Iid_eqb k (_deleted sm) = None.
Proof.
  unfold has_iid. intros H.
  apply orb_false_iff in H. destruct H as [H Hd].
  apply orb_false_iff in H. destruct H as [Hn Hm].
  repeat split; now apply OrderedDictFacts.contains_false_get.
Qed.

(** Disjoint buckets hold a key at most once. *)
Lemma disjoint_not_duplicated (k : Iid) (sm : SessionModel) :
  buckets_disjoint sm = true -> duplicated k sm = false.
Proof.
  unfold buckets_disjoint. intros H.
  apply andb_true_iff in H. destruct H as [H H3].
  apply andb_true_iff in H. destruct H as [H1 H2].
  destruct (duplicated k sm) eqn:D; [exfalso | reflexivity].
  apply duplicated_iff in D. destruct D as (b1 & b2 & o1 & o2 & G1 & G2 & Hne).
  destruct b1, b2; cbn [bucket] in G1, G2;
    try (rewrite G1 in G2; inversion G2; contradiction);
    first [ rewrite (disjoint_keys_common _ _ _ G1 G2) in *
          | rewrite (disjoint_keys_common _ _ _ G2 G1) in * ]; discriminate.
Qed.

(** ** A new instance goes last in [_new] *)

Lemma add_new_run (s : SMState) (o : oid) (modified force_update : bool) :
  let k0 := st_iid (state (heap s o)) in
  let k1 := match pk (heap s o) with Some v => IidPk v | None => IidNew o end in
  sm_class (self s) = SessionModelClass ->
  st_persistent (state (heap s o)) = false ->
  st_deleted (state (heap s o)) = false ->
  has_iid k0 (self s) = false ->
  exists h1,
    SessionModel_add o modified None force_update s =
      (Return o,
       {| heap := h1;
          self := with_bucket BNew (OrderedDict.set Iid_eqb k1 o (_new (self s)))
                    (self s) |}) /\
    state (h1 o) = {| st_iid := k1; st_persistent := false; st_deleted := false;
                      st_action := None; st_score := 0 |} /\
    dbdata_pk (h1 o) = None /\
    pk (h1 o) = pk (heap s o) /\
    session (h1 o) = session (heap s o) /\
    (forall x, x <> o -> h1 x = heap s x).
Proof.
  intros k0 k1 C P D A. subst k0.
  unfold SessionModel_add, bind at 1, gets. rewrite C.
  unfold SessionModel_add_base, bind at 1, get_state, gets. rewrite D.
  unfold bind at 1.
  rewrite (pop_ok s (ArgIid (st_iid (state (heap s o)))))
    by now apply not_duplicated_absent.
  simpl pop_iid. rewrite (without_iid_absent _ _ A). rewrite P.
  cbn -[upd OrderedDict.set new_state].
  unfold bind, get_state_with, gets, set_instance, set_self, modify, ret.
  cbn -[upd OrderedDict.set new_state]. rewrite !upd_same.
  unfold new_state, k1. cbn -[upd OrderedDict.set].
  destruct (pk (heap s o)) as [v|] eqn:Epk; cbn -[upd OrderedDict.set];
    (eexists; split; [reflexivity|]; rewrite !upd_same; cbn;
     repeat split; auto; intros x Hx; now rewrite !upd_other).
Qed.

(** X3.  Adding to a [SessionModel] an instance that is not persistent,
    not deleted and not yet in a bucket puts it last in [_new], under its
    primary key if it has one and under its token ['new.<id>'] otherwise,
    when that key is free in [_new]; [_modified] and [_deleted] are
    untouched, the stored primary key is cleared, and [get(iid)] does not
    see the instance although [instance in sm] is true. *)
Theorem add_new_appends (s : SMState) (o : oid) (modified force_update : bool) :
  let k0 := st_iid (state (heap s o)) in
  let k1 := match pk (heap s o) with Some v => IidPk v | None => IidNew o end in
  sm_class (self s) = SessionModelClass ->
  st_persistent (state (heap s o)) = false ->
  st_deleted (state (heap s o)) = false ->
  has_iid k0 (self s) = false ->
  has_iid k1 (self s) = false ->
  exists s',
    SessionModel_add o modified None force_update s = (Return o, s') /\
    SessionModel_new (self s') = SessionModel_new (self s) ++ [o] /\
    SessionModel_dirty (self s') =
      SessionModel_new (self s) ++ [o] ++ SessionModel_modified (self s) /\
    _modified (self s') = _modified (self s) /\
    _deleted (self s') = _deleted (self s) /\
    st_iid (state (heap s' o)) = k1 /\
    dbdata_pk (heap s' o) = None /\
    SessionModel_get k1 (self s') = None /\
    SessionModel_contains o s' = (Return true, s').
Proof.
  intros k0 k1 C P D A0 A1.
  destruct (add_new_run s o modified force_update C P D A0)
    as (h1 & E & Hst & Hdb & _ & _ & _).
  fold k1 in E, Hst.
  destruct (has_iid_false _ _ A1) as (Gn & Gm & Gd).
  eexists. split; [exact E|].
  cbn [self heap with_bucket _new _modified _deleted].
  rewrite (set_absent _ _ _ Gn). rewrite Hst. cbn [st_iid].
  unfold SessionModel_new, SessionModel_dirty, SessionModel_modified,
    OrderedDict.values.
  cbn [_new _modified _deleted with_bucket].
  rewrite map_app. cbn [map snd].
  repeat split; auto.
  - now rewrite <- app_assoc.
  - unfold SessionModel_get, OrderedDict.contains.
    cbn [_modified _deleted with_bucket].
    now rewrite Gm, Gd.
  - unfold SessionModel_contains, bind, get_state, gets. cbn [heap self].
    rewrite Hst. cbn [st_iid]. f_equal. f_equal.
    unfold has_iid, OrderedDict.contains. cbn [_new with_bucket].
    replace (OrderedDict.get Iid_eqb k1 (_new (self s) ++ [(k1, o)])) with (Some o).
    + reflexivity.
    + rewrite <- (set_absent _ o _ Gn). symmetry.
      apply OrderedDictFacts.get_set_same, Iid_eqb_refl.
Qed.

Lemma add_new_appends_witness :
  exists s',
    SessionModel_add 10 true None false
      {| heap := Examples.objects; self := Examples.split_dirty |}
      = (Return 10, s') /\
    SessionModel_new (self s') = [8; 10] /\
    SessionModel_get (IidNew 10) (self s') = None.
Proof.
  destruct (@add_new_appends
              {| heap := Examples.objects; self := Examples.split_dirty |}
              10 true false eq_refl eq_refl eq_refl eq_refl eq_refl)
    as (s' & E & Hn & _ & _ & _ & _ & _ & Hg & _).
  exists s'. repeat split; assumption.
Defined.

(** ** [SessionModel.delete] *)

Lemma delete_run (s : SMState) (o : oid) (ses : sid) :
  let k := st_iid (state (heap s o)) in
  let o' := match hd_error (stored k (self s)) with Some i => i | None => o end in
  let st := state (heap s o') in
  let sm1 := without_iid k (self s) in
  duplicated k (self s) = false ->
  exists h1,
    SessionModel_delete o ses s =
      (Return (Some o'),
       {| heap := h1;
          self := if st_persistent st
                  then with_bucket BDeleted
                         (OrderedDict.set Iid_eqb (st_iid st) o' (_deleted sm1)) sm1
                  else sm1 |}) /\
    h1 o' = (if st_persistent st
             then with_session
                    (with_state (heap s o') (with_deleted st true)) (Some ses)
             else with_session (heap s o') None) /\
    (forall x, x <> o' -> h1 x = heap s x).
Proof.
  intros k o' st sm1 D. unfold SessionModel_delete, bind at 1.
  rewrite (pop_ok s (ArgInstance o)) by exact D.
  simpl pop_iid. fold k. fold sm1.
  replace (match hd_error (stored k (self s)) with
           | Some i => i
           | None => o
           end) with o' by reflexivity.
  unfold bind, get_state, gets, set_instance, set_self, modify, ret.
  cbn -[upd OrderedDict.set]. fold st.
  destruct (st_persistent st) eqn:P; cbn -[upd OrderedDict.set];
    (eexists; split; [reflexivity|]; split;
     [ now rewrite !upd_same | intros x Hx; now rewrite !upd_other ]).
Qed.

(** ** Adding a new instance and deleting it *)

(** X4.  In a [SessionModel], adding an instance that is not persistent
    and not yet staged, then deleting it, leaves every bucket as it was
    before the add; [delete] returns the instance and sets its [session]
    link to [None]. *)
Theorem add_new_then_delete (s : SMState) (o : oid) (ses : sid)
    (modified force_update : bool) :
  let k0 := st_iid (state (heap s o)) in
  let k1 := match pk (heap s o) with Some v => IidPk v | None => IidNew o end in
  sm_class (self s) = SessionModelClass ->
  st_persistent (state (heap s o)) = false ->
  st_deleted (state (heap s o)) = false ->
  has_iid k0 (self s) = false ->
  has_iid k1 (self s) = false ->
  exists s1 s2,
    SessionModel_add o modified None force_update s = (Return o, s1) /\
    SessionModel_delete o ses s1 = (Return (Some o), s2) /\
    self s2 = self s /\
    session (heap s2 o) = None /\
    st_deleted (state (heap s2 o)) = false.
Proof.
  intros k0 k1 C P D A0 A1.
  destruct (@add_new_run s o modified force_update C P D A0)
    as (h1 & E & Hst & _ & _ & _ & _).
  fold k1 in E, Hst.
  destruct (@has_iid_false _ _ A1) as (Gn & Gm & Gd).
  rewrite (@set_absent _ o _ Gn) in E.
  set (s1 := {| heap := h1;
                self := with_bucket BNew (_new (self s) ++ [(k1, o)]) (self s) |})
    in *.
  assert (K : st_iid (state (heap s1 o)) = k1) by (cbn; now rewrite Hst).
  assert (Gl : OrderedDict.get Iid_eqb k1 (_new (self s) ++ [(k1, o)]) = Some o).
  { rewrite <- (@set_absent _ o _ Gn).
    apply OrderedDictFacts.get_set_same, Iid_eqb_refl. }
  assert (St : stored k1 (self s1) = [o]).
  { unfold stored. cbn [flat_map bucket self s1 with_bucket _new _modified _deleted].
    now rewrite Gl, Gm, Gd. }
  assert (Dup : duplicated (st_iid (state (heap s1 o))) (self s1) = false)
    by (rewrite K; unfold duplicated; now rewrite St).
  destruct (@delete_run s1 o ses Dup) as (h2 & E2 & Ho & _).
  rewrite K, St in E2, Ho. cbn [hd_error] in E2, Ho.
  assert (P1 : st_persistent (state (heap s1 o)) = false) by (cbn; now rewrite Hst).
  rewrite P1 in E2, Ho.
  exists s1. eexists. split; [exact E|]. split; [exact E2|].
  cbn [self heap]. rewrite Ho. cbn. rewrite Hst. cbn.
  repeat split.
  unfold without_iid. cbn [s1 self with_bucket _new _modified _deleted
                            sm_class manager _delete_query _queries].
  rewrite (@remove_last _ o _ Gn).
  rewrite !OrderedDictFacts.remove_absent by assumption.
  now destruct (self s).
Qed.

Lemma add_new_then_delete_witness :
  exists s1 s2,
    SessionModel_add 10 true None false
      {| heap := Examples.objects; self := Examples.staged |} = (Return 10, s1) /\
    SessionModel_delete 10 0 s1 = (Return (Some 10), s2) /\
    self s2 = Examples.staged /\ session (heap s2 10) = None.
Proof.
  destruct (@add_new_then_delete
              {| heap := Examples.objects; self := Examples.staged |}
              10 0 true false eq_refl eq_refl eq_refl eq_refl eq_refl)
    as (s1 & s2 & E1 & E2 & H1 & H2 & _).
  exists s1, s2. repeat split; assumption.
Defined.

(** ** Deleting a persistent instance *)

Lemma only_stored_not_duplicated (k : Iid) (sm : SessionModel) (o : oid) :
  (forall x, In x (stored k sm) -> x = o) -> duplicated k sm = false.
Proof.
  intros H. unfold duplicated. destruct (stored k sm) as [|x rest]; [reflexivity|].
  apply negb_false_iff, forallb_forall. intros y Hy. apply Nat.eqb_eq.
  rewrite (H x (or_introl eq_refl)), (H y (or_intror Hy)). reflexivity.
Qed.

(** X5.  Deleting a persistent instance, when no other object is held
    under its iid, leaves it in [_deleted] and in no other bucket, marks
    its state deleted and binds its [session] link to the session given.
    From then on [SessionModel.add] of that instance raises [ValueError]
    ("State is deleted. Cannot add.") and changes nothing. *)
Theorem delete_persistent_then_add (s : SMState) (o : oid) (ses : sid) :
  let k := st_iid (state (heap s o)) in
  st_persistent (state (heap s o)) = true ->
  (forall x, In x (stored k (self s)) -> x = o) ->
  exists s1,
    SessionModel_delete o ses s = (Return (Some o), s1) /\
    OrderedDict.get Iid_eqb k (_deleted (self s1)) = Some o /\
    OrderedDict.contains Iid_eqb k (_new (self s1)) = false /\
    OrderedDict.contains Iid_eqb k (_modified (self s1)) = false /\
    st_deleted (state (heap s1 o)) = true /\
    session (heap s1 o) = Some ses /\
    (sm_class (self s) = SessionModelClass ->
     forall modified persistent force_update,
       SessionModel_add o modified persistent force_update s1 =
         (Raise (Exc ValueError "State is deleted. Cannot add."), s1)).
Proof.
  intros k P Only.
  assert (D : duplicated k (self s) = false)
    by (eapply only_stored_not_duplicated; exact Only).
  destruct (@delete_run s o ses D) as (h1 & E & Ho & _). fold k in E, Ho.
  assert (O' : match hd_error (stored k (self s)) with
               | Some i => i
               | None => o
               end = o).
  { destruct (stored k (self s)) as [|x rest] eqn:St; [reflexivity|].
    cbn. apply Only. now left. }
  rewrite O' in E, Ho. rewrite P in E, Ho. fold k in E.
  match type of E with _ = (_, ?x) => set (s1 := x) in * end.
  exists s1. split; [exact E|].
  assert (Hd : st_deleted (state (heap s1 o)) = true)
    by (cbn [s1 heap]; rewrite Ho; reflexivity).
  split; [apply OrderedDictFacts.get_set_same, Iid_eqb_refl|].
  split; [apply OrderedDictFacts.contains_remove_same|].
  split; [apply OrderedDictFacts.contains_remove_same|].
  split; [exact Hd|].
  split; [cbn [s1 heap]; rewrite Ho; reflexivity|].
  intros C modified persistent force_update.
  apply (@add_deleted_raises s1 o modified persistent force_update);
    [exact C | exact Hd].
Qed.

Lemma delete_persistent_then_add_witness :
  exists s1,
    SessionModel_delete 1 0
      {| heap := Examples.objects; self := Examples.staged |}
      = (Return (Some 1), s1) /\
    _deleted (self s1) = [(IidPk 5, 1)] /\
    _modified (self s1) = [] /\
    SessionModel_add 1 true None false s1 =
      (Raise (Exc ValueError "State is deleted. Cannot add."), s1).
Proof.
  assert (Only : forall x, In x (stored (IidPk 5) Examples.staged) -> x = 1).
  { intros x [H|[]]. now symmetry. }
  destruct (@delete_persistent_then_add
              {| heap := Examples.objects; self := Examples.staged |} 1 0
              eq_refl Only)
    as (s1 & E & _ & _ & _ & _ & _ & Hadd).
  exists s1. split; [exact E|].
  assert (S : s1 = snd (SessionModel_delete 1 0
                          {| heap := Examples.objects; self := Examples.staged |}))
    by now rewrite E.
  split; [subst s1; reflexivity|]. split; [subst s1; reflexivity|].
  exact (Hadd eq_refl true None false).
Defined.

(** ** Operations that keep the buckets disjoint *)

Lemma buckets_disjoint_iff (sm : SessionModel) :
  buckets_disjoint sm = true <->
  disjoint_keys (_new sm) (_modified sm) = true /\
  disjoint_keys (_new sm) (_deleted sm) = true /\
  disjoint_keys (_modified sm) (_deleted sm) = true.
Proof. unfold buckets_disjoint. rewrite !andb_true_iff. tauto. Qed.

(** Storing [k] in one bucket after taking it out of all three. *)
Lemma restage_keeps_disjoint (k : Iid) (o : oid) (b : BucketName)
    (sm : SessionModel) :
  buckets_disjoint sm = true ->
  buckets_disjoint
    (with_bucket b (OrderedDict.set Iid_eqb k o (bucket b (without_iid k sm)))
       (without_iid k sm)) = true.
Proof.
  intros H. apply buckets_disjoint_iff in H. destruct H as (H1 & H2 & H3).
  rewrite disjoint_keys_iff in H1, H2, H3.
  apply buckets_disjoint_iff.
  destruct b; cbn [with_bucket without_iid bucket _new _modified _deleted];
    repeat split; apply disjoint_keys_iff; intros x;
    rewrite ?contains_set, ?contains_remove;
    destruct (Iid_eqb x k) eqn:Ex; cbn [negb andb orb]; try reflexivity;
    try discriminate; auto.
Qed.

(** X6.  [SessionModel.delete] keeps the three buckets disjoint, when
    the object held under the iid of the instance (if any) has that iid
    for the iid of its own state. *)
Theorem delete_keeps_buckets_disjoint (s : SMState) (o : oid) (ses : sid) :
  buckets_disjoint (self s) = true ->
  stored_by_iid (st_iid (state (heap s o))) s ->
  exists r s',
    SessionModel_delete o ses s = (Return r, s') /\
    buckets_disjoint (self s') = true.
Proof.
  intros Dj Own.
  set (k := st_iid (state (heap s o))) in *.
  destruct (@delete_run s o ses (@disjoint_not_duplicated k _ Dj))
    as (h1 & E & _ & _). fold k in E.
  eexists. eexists. split; [exact E|]. cbn [self].
  set (o' := match hd_error (stored k (self s)) with Some i => i | None => o end).
  assert (K : st_iid (state (heap s o')) = k).
  { unfold o'. destruct (stored k (self s)) as [|x rest] eqn:St; [reflexivity|].
    cbn. apply Own. rewrite St. now left. }
  destruct (st_persistent (state (heap s o'))).
  - rewrite K. apply (restage_keeps_disjoint k o' BDeleted), Dj.
  - apply pop_keeps_buckets_disjoint, Dj.
Qed.

Lemma delete_keeps_buckets_disjoint_witness :
  buckets_disjoint Examples.staged = true /\
  exists r s',
    SessionModel_delete 1 0
      {| heap := Examples.objects; self := Examples.staged |} = (Return r, s') /\
    buckets_disjoint (self s') = true.
Proof.
  split; [reflexivity|].
  apply (@delete_keeps_buckets_disjoint
           {| heap := Examples.objects; self := Examples.staged |} 1 0 eq_refl).
  intros x [H|[]]. now subst.
Defined.

(** X7.  [SessionModel.add] keeps the three buckets disjoint whenever it
    returns with the instance under the same iid as before the call. *)
Theorem add_keeps_buckets_disjoint (s s' : SMState) (o r : oid)
    (modified : bool) (persistent : option bool) (force_update : bool) :
  sm_class (self s) = SessionModelClass ->
  buckets_disjoint (self s) = true ->
  SessionModel_add o modified persistent force_update s = (Return r, s') ->
  st_iid (state (heap s' o)) = st_iid (state (heap s o)) ->
  buckets_disjoint (self s') = true.
Proof.
  intros C Dj E K.
  destruct (@add_base_shape _ _ _ _ _ _ _ C E) as (_ & _ & _ & _ & _ & Hs).
  rewrite Hs, K.
  destruct (st_persistent (state (heap s' o))); [destruct modified|].
  - apply (restage_keeps_disjoint _ o BModified), Dj.
  - apply pop_keeps_buckets_disjoint, Dj.
  - apply (restage_keeps_disjoint _ o BNew), Dj.
Qed.

Lemma add_keeps_buckets_disjoint_witness :
  let s0 := {| heap := Examples.objects; self := Examples.staged |} in
  buckets_disjoint (self s0) = true /\
  buckets_disjoint (self (snd (SessionModel_add 1 true None true s0))) = true.
Proof.
  intros s0. split; [reflexivity|].
  apply (@add_keeps_buckets_disjoint s0 _ 1 1 true None true
           eq_refl eq_refl); reflexivity.
Defined.

(** ** [SessionModel.get_delete_query] and [SessionModel.backends_data] *)

(** The bucket object once its deletes have been collected. *)
Lemma get_delete_query_run (s : SMState) :
  no_object_deletes (self s) = true ->
  exists r,
    SessionModel_get_delete_query s =
      (Return r,
       {| heap := heap s;
          self := with_delete_query [] (with_bucket BDeleted [] (self s)) |}) /\
    (r = None <-> _deleted (self s) = [] /\ _delete_query (self s) = []).
Proof.
  destruct s as [h [c m n d dq md q]].
  unfold no_object_deletes, SessionModel_get_delete_query, bind, gets,
    set_self, modify, ret, SessionModel_deleted.
  cbn [self heap _deleted _delete_query manager OrderedDict.values].
  destruct d as [|[k o] d]; cbn [map].
  - intros _. destruct dq as [|q0 dq]; cbn; eexists; (split; [reflexivity|]);
      split; try discriminate; try tauto; intros [_ H]; discriminate.
  - destruct (_model_type (model m)); [discriminate|]. intros _.
    destruct dq as [|q0 dq]; cbn;
      eexists; (split; [reflexivity|]);
      split; try discriminate; intros [H _]; discriminate.
Qed.

(** X8.  [SessionModel.get_delete_query] consumes what it returns, or
    fails half way.  Where no instance of an object model is waiting in
    [_deleted], it returns, leaves [_deleted] and [_delete_query] empty
    and everything else as it was, returns [None] exactly when both were
    empty before the call, and a second call returns [None] and changes
    nothing.  For an object model with instances in [_deleted] it raises
    [AttributeError] at [self.query()] ([Manager.query] looks [query] up
    on the model class it was given as session), after [_deleted] has
    been cleared and with [_delete_query] untouched, and
    [SessionModel.backends_data] raises with it before any signal or
    payload. *)
Theorem get_delete_query_consumes (s : SMState) :
  if no_object_deletes (self s) then
    exists r s',
      SessionModel_get_delete_query s = (Return r, s') /\
      (r = None <-> _deleted (self s) = [] /\ _delete_query (self s) = []) /\
      heap s' = heap s /\
      _deleted (self s') = [] /\ _delete_query (self s') = [] /\
      _new (self s') = _new (self s) /\
      _modified (self s') = _modified (self s) /\
      _queries (self s') = _queries (self s) /\
      SessionModel_get_delete_query s' = (Return None, s')
  else
    exists s',
      SessionModel_get_delete_query s =
        (Raise (Exc AttributeError
                  ("type object '" ++ model_name (model (manager (self s)))
                   ++ "' has no attribute 'query'")), s') /\
      (forall tx,
         SessionModel_backends_data tx s =
           (Raise (Exc AttributeError
                     ("type object '" ++ model_name (model (manager (self s)))
                      ++ "' has no attribute 'query'")), s')) /\
      _deleted (self s) <> [] /\
      _model_type (model (manager (self s))) = ObjectModel /\
      heap s' = heap s /\
      _deleted (self s') = [] /\
      _delete_query (self s') = _delete_query (self s) /\
      _new (self s') = _new (self s) /\
      _modified (self s') = _modified (self s) /\
      _queries (self s') = _queries (self s).
Proof.
  destruct (no_object_deletes (self s)) eqn:H.
  - destruct (get_delete_query_run s H) as (r & E & Hr).
    eexists. eexists. split; [exact E|]. split; [exact Hr|].
    cbn [heap self with_delete_query with_bucket _new _modified _deleted
         _delete_query _queries].
    repeat split.
  - destruct (get_delete_query_raises s H) as (E & Eb).
    eexists. split; [exact E|]. split; [exact Eb|].
    cbn [heap self with_bucket _new _modified _deleted _delete_query _queries].
    unfold no_object_deletes in H.
    destruct (_deleted (self s)); [discriminate|].
    destruct (_model_type (model (manager (self s)))); [|discriminate].
    repeat split. discriminate.
Qed.

(** The delete query, the dirty instances and the read queries carried
    by a list of payloads. *)
Lemma backends_data_cases (transaction : Transaction) (s : SMState) :
  no_object_deletes (self s) = true ->
  exists r sent yielded,
    SessionModel_get_delete_query s =
      (Return r,
       {| heap := heap s;
          self := with_delete_query [] (with_bucket BDeleted [] (self s)) |}) /\
    SessionModel_backends_data transaction s =
      (Return (sent, yielded),
       {| heap := heap s;
          self := with_delete_query [] (with_bucket BDeleted [] (self s)) |}) /\
    flat_map (fun p => sd_dirty (snd p)) yielded = SessionModel_dirty (self s) /\
    flat_map (fun p => sd_queries (snd p)) yielded = _queries (self s) /\
    flat_map (fun p => match sd_deletes (snd p) with
                       | Some q => [q]
                       | None => []
                       end) yielded
      = match r with Some q => [q] | None => [] end /\
    sent =
      (match r with
       | Some q => if signal_delete transaction
                   then [pre_delete (Manager_meta (manager (self s))) q] else []
       | None => []
       end) ++
      (if nonempty (SessionModel_dirty (self s)) && signal_commit transaction
       then [pre_commit (Manager_meta (manager (self s)))
               (SessionModel_dirty (self s))]
       else []) /\
    (forall b d, In (b, d) yielded ->
       sd_meta d = Manager_meta (manager (self s)) /\
       (b = Manager_backend (manager (self s)) \/
        b = Manager_read_backend (manager (self s)))).
Proof.
  intros Hd.
  destruct (get_delete_query_run s Hd) as (r & E & _).
  exists r.
  unfold SessionModel_backends_data, bind at 1, gets.
  unfold bind at 1. rewrite E. cbn [self heap].
  generalize (SessionModel_dirty (self s)) as dirty.
  generalize (_queries (self s)) as queries.
  generalize (Manager_meta (manager (self s))) as meta.
  generalize (Manager_backend (manager (self s))) as be.
  generalize (Manager_read_backend (manager (self s))) as rbe.
  intros rbe be meta queries dirty.
  destruct dirty as [|o dirty]; destruct r as [q|];
    destruct queries as [|q1 queries];
    destruct (signal_delete transaction); destruct (signal_commit transaction);
    destruct (Backend_eqb be rbe);
    cbn; eexists; eexists; (split; [reflexivity|]); (split; [reflexivity|]);
    cbn; rewrite ?app_nil_r;
    (split; [reflexivity|]); (split; [reflexivity|]); (split; [reflexivity|]);
    (split; [reflexivity|]);
    intros b d H; cbn in H;
    repeat match goal with
           | H : _ \/ _ |- _ => destruct H
           | H : False |- _ => destruct H
           | H : (_, _) = (_, _) |- _ => inversion H; subst; clear H
           end; cbn; auto.
Qed.



(** X10.  Where no instance of an object model is waiting in
    [_deleted], [SessionModel.backends_data] consumes the deletes and
    nothing else: the instances, [_new], [_modified] and [_queries] are as before
    the call, and [_deleted] and [_delete_query] are empty; a second call
    changes nothing more and yields payloads without a delete query that
    carry the same dirty instances and read queries. *)
Theorem backends_data_keeps_staged (transaction : Transaction) (s : SMState) :
  no_object_deletes (self s) = true ->
  exists sent yielded s1 sent2 yielded2,
    SessionModel_backends_data transaction s = (Return (sent, yielded), s1) /\
    heap s1 = heap s /\
    _new (self s1) = _new (self s) /\
    _modified (self s1) = _modified (self s) /\
    _queries (self s1) = _queries (self s) /\
    _deleted (self s1) = [] /\ _delete_query (self s1) = [] /\
    SessionModel_backends_data transaction s1 = (Return (sent2, yielded2), s1) /\
    (forall p, In p yielded2 -> sd_deletes (snd p) = None) /\
    flat_map (fun p => sd_dirty (snd p)) yielded2
      = flat_map (fun p => sd_dirty (snd p)) yielded /\
    flat_map (fun p => sd_queries (snd p)) yielded2
      = flat_map (fun p => sd_queries (snd p)) yielded.
Proof.
  intros Hd.
  destruct (backends_data_cases transaction s Hd)
    as (r & sent & yielded & E1 & E2 & H1 & H2 & _).
  set (s1 := {| heap := heap s;
                self := with_delete_query [] (with_bucket BDeleted [] (self s)) |})
    in *.
  assert (Hd1 : no_object_deletes (self s1) = true) by reflexivity.
  destruct (backends_data_cases transaction s1 Hd1)
    as (r2 & sent2 & yielded2 & F1 & F2 & G1 & G2 & G3 & _).
  assert (R2 : r2 = None).
  { destruct (get_delete_query_run s1 Hd1) as (r' & F1' & Hr).
    rewrite F1 in F1'. inversion F1'; subst r'. apply Hr. now split. }
  subst r2.
  exists sent, yielded, s1, sent2, yielded2.
  split; [exact E2|]. do 6 (split; [reflexivity|]).
  split; [exact F2|].
  split.
  - intros p Hp. destruct (sd_deletes (snd p)) as [q|] eqn:Eq; [|reflexivity].
    exfalso. apply in_split in Hp. destruct Hp as (l1 & l2 & ->).
    rewrite flat_map_app in G3. cbn [flat_map] in G3. rewrite Eq in G3.
    destruct (flat_map _ l1); discriminate.
  - rewrite H1, H2, G1, G2. split; reflexivity.
Qed.


Lemma backends_data_keeps_staged_witness :
  exists sent yielded s1,
    SessionModel_backends_data Examples.no_transaction
      {| heap := Examples.objects; self := MoreExamples.folder_deletes |}
    = (Return (sent, yielded), s1) /\
    _deleted (self s1) = [] /\ _delete_query (self s1) = [] /\
    _queries (self s1) = [QUser 4 0].
Proof.
  destruct (@backends_data_keeps_staged Examples.no_transaction
              {| heap := Examples.objects; self := MoreExamples.folder_deletes |}
              eq_refl)
    as (sent & yielded & s1 & _ & _ & E & _ & _ & _ & Hq & Hd & Hdq & _).
  exists sent, yielded, s1. repeat split; assumption.
Defined.


(** ** Dictionaries whose key comparison is equality *)

Section EqKeyed.
Context {K V : Type}.
Variable eqb : K -> K -> bool.
Hypothesis eqb_eq : forall a b, eqb a b = true <-> a = b.

Lemma eqb_refl_of (a : K) : eqb a a = true.
Proof. now apply eqb_eq. Qed.

Lemma get_set (k k' : K) (v : V) (d : @OrderedDict.t K V) :
  OrderedDict.get eqb k (OrderedDict.set eqb k' v d)
    = if eqb k k' then Some v else OrderedDict.get eqb k d.
Proof.
  induction d as [|[k0 v0] rest IH]; simpl; [reflexivity|].
  destruct (eqb k' k0) eqn:E; simpl.
  - apply eqb_eq in E. subst k0. now destruct (eqb k k').
  - destruct (eqb k k0) eqn:F; [|exact IH].
    apply eqb_eq in F. subst k0.
    destruct (eqb k k') eqn:G; [|reflexivity].
    apply eqb_eq in G. subst k'. now rewrite eqb_refl_of in E.
Qed.

Lemma get_remove (k k' : K) (d : @OrderedDict.t K V) :
  OrderedDict.get eqb k (OrderedDict.remove eqb k' d)
    = if eqb k k' then None else OrderedDict.get eqb k d.
Proof.
  induction d as [|[k0 v0] rest IH]; simpl; [now destruct (eqb k k')|].
  destruct (eqb k' k0) eqn:E; simpl.
  - apply eqb_eq in E. subst k0. rewrite IH. now destruct (eqb k k').
  - destruct (eqb k k0) eqn:F; [|exact IH].
    apply eqb_eq in F. subst k0.
    destruct (eqb k k') eqn:G; [|reflexivity].
    apply eqb_eq in G. subst k'. now rewrite eqb_refl_of in E.
Qed.

End EqKeyed.

Lemma Backend_eqb_eq (a b : option Backend) : Backend_eqb a b = true <-> a = b.
Proof.
  destruct a as [x|], b as [y|]; simpl; try (split; [discriminate|discriminate]).
  - rewrite Nat.eqb_eq. split; [now intros -> | now intros [= ->]].
  - tauto.
Qed.

Lemma Backend_eqb_sym (a b : option Backend) : Backend_eqb a b = Backend_eqb b a.
Proof.
  destruct a as [x|], b as [y|]; simpl; try reflexivity. apply Nat.eqb_sym.
Qed.

(** ** [Session.backends_data] *)

Lemma payloads_for_app (b : option Backend)
    (l1 l2 : list (option Backend * SessionData)) :
  payloads_for b (l1 ++ l2) = payloads_for b l1 ++ payloads_for b l2.
Proof. unfold payloads_for. now rewrite filter_app, map_app. Qed.

Lemma extend_group_app (l1 l2 : list SessionData) :
  extend_group (extend_group None l1) l2 = extend_group None (l1 ++ l2).
Proof.
  destruct l2 as [|x l2]; cbn; [now rewrite app_nil_r|].
  destruct l1 as [|y l1]; cbn; reflexivity.
Qed.

Lemma payloads_for_cons (b b' : option Backend) (d : SessionData)
    (rest : list (option Backend * SessionData)) :
  payloads_for b ((b', d) :: rest)
    = if Backend_eqb b b' then d :: payloads_for b rest else payloads_for b rest.
Proof.
  unfold payloads_for. cbn [filter fst]. rewrite (Backend_eqb_sym b' b).
  now destruct (Backend_eqb b b').
Qed.

Lemma group_payload_fold (b : option Backend)
    (yielded : list (option Backend * SessionData)) :
  forall backends : Groups,
    OrderedDict.get Backend_eqb b (fold_left group_payload yielded backends)
      = extend_group (OrderedDict.get Backend_eqb b backends)
          (payloads_for b yielded).
Proof.
  induction yielded as [|[b' d] rest IH]; intros backends; [reflexivity|].
  cbn [fold_left]. rewrite IH, payloads_for_cons.
  generalize (payloads_for b rest) as pr. intros pr.
  unfold group_payload.
  destruct (OrderedDict.get Backend_eqb b' backends) as [old|] eqn:G;
    rewrite (@get_set _ _ Backend_eqb Backend_eqb_eq);
    destruct (Backend_eqb b b') eqn:E; try reflexivity;
    apply Backend_eqb_eq in E; subst b'; rewrite G;
    destruct pr; cbn; rewrite <- ?app_assoc; reflexivity.
Qed.

Lemma call_backends_data (transaction : Transaction) (sm : smid) (w : World) :
  no_object_deletes (models w sm) = true ->
  exists sent yielded w',
    call_model sm (SessionModel_backends_data transaction) w
      = (Return (sent, yielded), w') /\
    instances w' = instances w /\ sessions w' = sessions w /\
    transactions w' = transactions w /\ next_id w' = next_id w /\
    (forall j, no_object_deletes (models w j) = true ->
               no_object_deletes (models w' j) = true).
Proof.
  intros Hd.
  destruct (@backends_data_cases transaction
              {| heap := instances w; self := models w sm |} Hd)
    as (r & sent & yielded & _ & E & _).
  unfold call_model. rewrite E. exists sent, yielded. eexists.
  split; [reflexivity|]. cbn [instances sessions transactions next_id models].
  repeat split. intros j Hj. unfold upd.
  destruct (Nat.eqb j sm); [reflexivity | exact Hj].
Qed.

Lemma backends_data_loop (transaction : Transaction) (held : list smid) :
  forall (w : World) (sent : list Signal)
         (ys : list (option Backend * SessionData)) (g : Groups),
    (forall id, In id held -> no_object_deletes (models w id) = true) ->
    (forall b, OrderedDict.get Backend_eqb b g
               = extend_group None (payloads_for b ys)) ->
    exists sent' ys' g' w',
      for_each (yields_step transaction) held (sent, ys) w
        = (Return (sent', ys'), w') /\
      for_each (backends_data_step transaction) held (sent, g) w
        = (Return (sent', g'), w') /\
      (forall b, OrderedDict.get Backend_eqb b g'
                 = extend_group None (payloads_for b ys')) /\
      instances w' = instances w /\ sessions w' = sessions w /\
      transactions w' = transactions w.
Proof.
  induction held as [|sm rest IH]; intros w sent ys g Hd Inv.
  - exists sent, ys, g, w. cbn. unfold ret. repeat split. exact Inv.
  - destruct (@call_backends_data transaction sm w (Hd sm (or_introl eq_refl)))
      as (sent1 & y1 & w1 & E & Hi & Hs & Ht & _ & Hk).
    cbn [for_each].
    assert (Y : forall k : list Signal * list (option Backend * SessionData)
                            -> Py World (list Signal * list (option Backend * SessionData)),
               bind (yields_step transaction (sent, ys) sm) k w
               = k (sent ++ sent1, ys ++ y1) w1).
    { intros k. unfold yields_step, bind. now rewrite E. }
    assert (B : forall k : list Signal * Groups -> Py World (list Signal * Groups),
               bind (backends_data_step transaction (sent, g) sm) k w
               = k (sent ++ sent1, fold_left group_payload y1 g) w1).
    { intros k. unfold backends_data_step, bind. now rewrite E. }
    rewrite Y, B.
    destruct (IH w1 (sent ++ sent1) (ys ++ y1) (fold_left group_payload y1 g))
      as (sent' & ys' & g' & w' & F1 & F2 & Inv' & Hi' & Hs' & Ht').
    { intros id Hid. apply Hk, Hd. now right. }
    { intros b. rewrite group_payload_fold, Inv, payloads_for_app.
      apply extend_group_app. }
    exists sent', ys', g', w'. split; [exact F1|]. split; [exact F2|].
    split; [exact Inv'|]. repeat split; congruence.
Qed.

(** X12.  Where no instance of an object model is waiting in [_deleted]
    of a bucket object of the session, [Session.backends_data] returns,
    and groups by backend without losing or reordering anything: the
    entry of a backend is the list of the payloads that the bucket
    objects of the session yield for it, in the order they are yielded,
    and a backend that gets no payload has no entry.  The instances, the
    sessions and the transactions are left as they were. *)
Theorem Session_backends_data_groups (s : sid) (t : tid) (w : World) :
  (forall id, In id (OrderedDict.values (_models (sessions w s))) ->
              no_object_deletes (models w id) = true) ->
  exists sent yielded groups w',
    Session_yields s t w = (Return (sent, yielded), w') /\
    Session_backends_data s t w = (Return (sent, groups), w') /\
    (forall b,
       OrderedDict.get Backend_eqb b groups =
         match payloads_for b yielded with
         | [] => None
         | d :: l => Some (d :: l)
         end) /\
    instances w' = instances w /\ sessions w' = sessions w /\
    transactions w' = transactions w.
Proof.
  intros Hd.
  unfold Session_yields, Session_backends_data, bind, gets.
  destruct (@backends_data_loop (transactions w t)
              (OrderedDict.values (_models (sessions w s))) w [] [] [] Hd)
    as (sent & ys & g & w' & F1 & F2 & Inv & H).
  { intros b. reflexivity. }
  exists sent, ys, g, w'. split; [exact F1|]. split; [exact F2|].
  split; [|exact H].
  intros b. rewrite Inv. now destruct (payloads_for b ys).
Qed.

Lemma Session_backends_data_groups_witness :
  exists sent groups w',
    Session_backends_data 0 1000 MoreExamples.two_models
      = (Return (sent, groups), w') /\
    OrderedDict.get Backend_eqb (Some 2) groups
      = Some [{| sd_meta := Examples.Instrument; sd_dirty := [];
                 sd_deletes := None; sd_queries := [QUser 0 0] |}].
Proof.
  assert (Hd : forall id,
             In id (OrderedDict.values
                      (_models (sessions MoreExamples.two_models 0))) ->
             no_object_deletes (models MoreExamples.two_models id) = true).
  { intros id [<-|[<-|[]]]; reflexivity. }
  destruct (@Session_backends_data_groups 0 1000 MoreExamples.two_models Hd)
    as (sent & yielded & groups & w' & Ey & E & Hg & _).
  exists sent, groups, w'. split; [exact E|].
  rewrite Hg.
  assert (Y : yielded = snd (match fst (Session_yields 0 1000
                                          MoreExamples.two_models) with
                             | Return p => p
                             | Raise _ => ([], [])
                             end)) by now rewrite Ey.
  rewrite Y. reflexivity.
Defined.

(** ** [Session.begin], [Transaction.rollback] and [Transaction.commit] *)

(** X13.  On a session with no transaction [Session.begin] returns a new
    transaction object, bound to the session and not executed, and makes
    it the transaction of the session; the buckets, the instances and
    every other session and transaction are untouched.  While it is open
    a second [begin] raises [InvalidTransaction] and changes nothing. *)
Theorem Session_begin_opens (s : sid) (w : World) :
  transaction (sessions w s) = None ->
  exists t w1,
    Session_begin s w = (Return t, w1) /\
    t = next_id w /\
    transaction (sessions w1 s) = Some t /\
    tx_session (transactions w1 t) = Some s /\
    Transaction_executed (transactions w1 t) = false /\
    _finished (transactions w1 t) = false /\
    _models (sessions w1 s) = _models (sessions w s) /\
    instances w1 = instances w /\ models w1 = models w /\
    (forall s', s' <> s -> sessions w1 s' = sessions w s') /\
    (forall t', t' <> t -> transactions w1 t' = transactions w t') /\
    Session_begin s w1 =
      (Raise (Exc InvalidTransaction "A transaction is already begun."), w1).
Proof.
  intros H. unfold Session_begin at 1, bind at 1, gets. rewrite H.
  unfold bind, fresh, with_transactions, with_sessions, modify, ret.
  cbn [instances models sessions transactions next_id].
  eexists. eexists. split; [reflexivity|].
  cbn [instances models sessions transactions next_id].
  rewrite !upd_same. cbn.
  do 8 (split; [reflexivity|]).
  split; [intros s' Hs; now rewrite upd_other|].
  split; [intros t' Ht; now rewrite upd_other|].
  unfold Session_begin, bind, gets. cbn [sessions]. rewrite upd_same.
  reflexivity.
Qed.

Lemma Session_begin_opens_witness :
  exists w1,
    Session_begin 0 Examples.world = (Return 1000, w1) /\
    transaction (sessions w1 0) = Some 1000 /\
    Session_begin 0 w1 =
      (Raise (Exc InvalidTransaction "A transaction is already begun."), w1).
Proof.
  destruct (@Session_begin_opens 0 Examples.world eq_refl)
    as (t & w1 & E & -> & H1 & _ & _ & _ & _ & _ & _ & _ & _ & H2).
  exists w1. repeat split; assumption.
Defined.

(** X14.  A rollback of a session that holds no bucket object does
    nothing at all (a session without bucket objects is false in
    [if self.session:]): the transaction begun on such a session is still
    the transaction of the session after [rollback], it is not executed,
    and [begin] keeps raising [InvalidTransaction]. *)
Theorem rollback_empty_session (s : sid) (w : World) :
  transaction (sessions w s) = None ->
  _models (sessions w s) = [] ->
  exists t w1,
    Session_begin s w = (Return t, w1) /\
    Transaction_rollback t w1 = (Return tt, w1) /\
    transaction (sessions w1 s) = Some t /\
    Transaction_executed (transactions w1 t) = false /\
    Session_begin s w1 =
      (Raise (Exc InvalidTransaction "A transaction is already begun."), w1).
Proof.
  intros H M.
  assert (E : exists w1,
             Session_begin s w = (Return (next_id w), w1) /\
             sessions w1 s = set_transaction (Some (next_id w)) (sessions w s) /\
             transactions w1 (next_id w) = Transaction_init s None true true).
  { unfold Session_begin, bind at 1, gets. rewrite H.
    unfold bind, fresh, with_transactions, with_sessions, modify, ret.
    cbn [instances models sessions transactions next_id].
    eexists. split; [reflexivity|].
    cbn [instances models sessions transactions next_id].
    rewrite !upd_same. split; reflexivity. }
  destruct E as (w1 & E & Hs & Ht).
  exists (next_id w), w1. split; [exact E|].
  split.
  { unfold Transaction_rollback, bind, gets. rewrite Ht.
    cbn [tx_session Transaction_init]. rewrite Hs.
    unfold Session_len. cbn [_models set_transaction]. now rewrite M. }
  split; [now rewrite Hs|].
  split; [now rewrite Ht|].
  unfold Session_begin, bind, gets. now rewrite Hs.
Qed.

Lemma rollback_empty_session_witness :
  exists t w1,
    Session_begin 0 Examples.world = (Return t, w1) /\
    Transaction_rollback t w1 = (Return tt, w1) /\
    transaction (sessions w1 0) = Some t.
Proof.
  destruct (@rollback_empty_session 0 Examples.world eq_refl eq_refl)
    as (t & w1 & E & R & H & _).
  exists t, w1. repeat split; assumption.
Defined.

Section AfterRollback.

Variable _commit : tid -> Py World unit.

(** X15.  A rollback of a transaction whose session holds a bucket
    object closes the transaction for good: it is executed and the
    session has no transaction and no bucket; after it [commit] raises
    [InvalidTransaction] without reaching the backends, the proxies [add]
    and [delete] of the transaction raise [AttributeError], a second
    [rollback] does nothing, and none of these changes anything. *)
Theorem rollback_closes (t : tid) (s : sid) (w : World) :
  tx_session (transactions w t) = Some s ->
  _models (sessions w s) <> [] ->
  exists w1,
    Transaction_rollback t w = (Return tt, w1) /\
    Transaction_executed (transactions w1 t) = true /\
    transaction (sessions w1 s) = None /\
    _models (sessions w1 s) = [] /\
    instances w1 = instances w /\ models w1 = models w /\
    Transaction_commit _commit t w1 =
      (Raise (Exc InvalidTransaction
                "Invalid operation. Transaction already executed."), w1) /\
    (forall o modified persistent force_update,
       Transaction_add _commit t o modified persistent force_update w1 =
         (Raise (Exc AttributeError "'NoneType' object has no attribute 'add'"),
          w1)) /\
    (forall arg,
       Transaction_delete _commit t arg w1 =
         (Raise (Exc AttributeError
                   "'NoneType' object has no attribute 'delete'"), w1)) /\
    Transaction_rollback t w1 = (Return tt, w1).
Proof.
  intros H M.
  unfold Transaction_rollback at 1, bind at 1, gets. rewrite H.
  unfold bind at 1. unfold Session_len.
  destruct (_models (sessions w s)) as [|x held] eqn:Em; [now destruct M|].
  cbn [List.length Nat.eqb].
  unfold Session_expunge_all, bind, with_sessions, with_transactions, modify.
  cbn [instances models sessions transactions next_id].
  eexists. split; [reflexivity|].
  cbn [instances models sessions transactions next_id].
  rewrite !upd_same. cbn.
  do 5 (split; [reflexivity|]).
  unfold Transaction_commit, Transaction_add, Transaction_delete,
    Transaction_rollback, bind, gets.
  cbn [transactions]. rewrite !upd_same. cbn.
  repeat split.
Qed.

End AfterRollback.

Lemma rollback_closes_witness :
  exists w1,
    Transaction_rollback 1000 MoreExamples.two_models = (Return tt, w1) /\
    Transaction_commit (fun _ => ret tt) 1000 w1 =
      (Raise (Exc InvalidTransaction
                "Invalid operation. Transaction already executed."), w1).
Proof.
  assert (M : _models (sessions MoreExamples.two_models 0) <> [])
    by discriminate.
  destruct (@rollback_closes (fun _ => ret tt) 1000 0 MoreExamples.two_models
              eq_refl M)
    as (w1 & E & _ & _ & _ & _ & _ & C & _).
  exists w1. split; assumption.
Defined.

(** ** [Session.model], [Session.__contains__] and [Session.delete] *)

Lemma Session_model_held (w : World) (s : sid) (m : Meta) (mg : Manager)
    (id : smid) (create : bool) :
  _router (sessions w s) (meta_id m) = Some mg ->
  OrderedDict.get Manager_key mg (_models (sessions w s)) = Some id ->
  Session_model s m create w = (Return (Some id), w).
Proof.
  intros H G. unfold Session_model, bind at 1.
  rewrite (@Session_manager_run w s m mg H). unfold bind, gets. now rewrite G.
Qed.

Lemma Session_model_missing (w : World) (s : sid) (m : Meta) (mg : Manager) :
  _router (sessions w s) (meta_id m) = Some mg ->
  OrderedDict.get Manager_key mg (_models (sessions w s)) = None ->
  Session_model s m false w = (Return None, w).
Proof.
  intros H G. unfold Session_model, bind at 1.
  rewrite (@Session_manager_run w s m mg H). unfold bind, gets. now rewrite G.
Qed.

Lemma Session_model_unknown (w : World) (s : sid) (m : Meta) (create : bool) :
  _router (sessions w s) (meta_id m) = None ->
  Session_model s m create w =
    (Raise (Exc InvalidTransaction
              (dquote ++ meta_repr m ++ dquote ++ " not session mapper")), w).
Proof.
  intros H. unfold Session_model, bind at 1.
  assert (E : Session_manager s m w =
              (Raise (Exc InvalidTransaction
                        (dquote ++ meta_repr m ++ dquote ++ " not session mapper")),
               w)).
  { unfold Session_manager, bind, gets. cbv beta. now rewrite H. }
  now rewrite E.
Qed.

(** X16.  [Session.model] gets or creates: for a model the router knows
    it returns the bucket object of the session for the manager of the
    model, and asking again, with or without [create], returns that same
    object and changes nothing.  When the session had none, the object is
    new, empty, of class [SessionStructure] for a structure and
    [SessionModel] otherwise, and [model(..., create=False)] had returned
    [None] before.  No instance and no other bucket object is touched. *)
Theorem Session_model_get_or_create (w : World) (s : sid) (m : Meta)
    (mg : Manager) :
  _router (sessions w s) (meta_id m) = Some mg ->
  exists id w1,
    Session_model s m true w = (Return (Some id), w1) /\
    Session_model s m true w1 = (Return (Some id), w1) /\
    Session_model s m false w1 = (Return (Some id), w1) /\
    instances w1 = instances w /\
    (forall j, j <> id -> models w1 j = models w j) /\
    (forall id0,
       OrderedDict.get Manager_key mg (_models (sessions w s)) = Some id0 ->
       id = id0 /\ w1 = w) /\
    (OrderedDict.get Manager_key mg (_models (sessions w s)) = None ->
     Session_model s m false w = (Return None, w) /\
     id = next_id w /\
     manager (models w1 id) = mg /\
     SessionModel_len (models w1 id) = 0 /\
     _queries (models w1 id) = [] /\ _delete_query (models w1 id) = [] /\
     sm_class (models w1 id) =
       match _model_type (model mg) with
       | StructureModel => SessionStructureClass
       | ObjectModel => SessionModelClass
       end).
Proof.
  intros H.
  destruct (OrderedDict.get Manager_key mg (_models (sessions w s)))
    as [id0|] eqn:G.
  - exists id0, w.
    rewrite !(@Session_model_held w s m mg id0 _ H G).
    repeat split; try congruence; try discriminate.
  - destruct (@Session_model_create w s m mg H)
      as (id & w1 & E & Hi & _ & _ & Hr & Hg & Hm & Ho).
    exists id, w1. split; [exact E|].
    assert (H1 : _router (sessions w1 s) (meta_id m) = Some mg) by congruence.
    rewrite !(@Session_model_held w1 s m mg id _ H1 Hg).
    do 4 (split; [assumption || reflexivity|]).
    split; [discriminate|]. intros _.
    split; [exact (@Session_model_missing w s m mg H G)|].
    unfold Session_bucket in Hm. rewrite G in Hm. rewrite Hm.
    split.
    { clear - E H G. unfold Session_model, bind at 1 in E.
      rewrite (@Session_manager_run w s m mg H) in E.
      unfold bind, gets, fresh, modify, with_sessions, ret in E.
      rewrite G in E. cbn in E. congruence. }
    destruct (_model_type (model mg)); repeat split.
Qed.

Lemma Session_model_get_or_create_witness :
  exists w1,
    Session_model 0 Examples.Folder true Examples.world
      = (Return (Some 1000), w1) /\
    Session_model 0 Examples.Folder false w1 = (Return (Some 1000), w1) /\
    sm_class (models w1 1000) = SessionStructureClass.
Proof.
  destruct (@Session_model_get_or_create Examples.world 0 Examples.Folder
              Examples.folders eq_refl)
    as (id & w1 & E & _ & E2 & _ & _ & _ & New).
  destruct (New eq_refl) as (_ & -> & _ & _ & _ & _ & C).
  exists w1. repeat split; assumption.
Defined.

Section SessionDelete.

Variable _commit : tid -> Py World unit.

(** X17.  An instance or a query of a model the router of the session
    does not know is refused with [InvalidTransaction] ("<model>" not
    session mapper) by [add], [delete] and the membership test alike,
    before anything is touched: the [session] link of the instance is not
    rebound, no bucket object is created and nothing is committed. *)
Theorem Session_unknown_model (w : World) (s : sid) (o : oid) :
  let m := instance_meta (instances w o) in
  let e := Exc InvalidTransaction
             (dquote ++ meta_repr m ++ dquote ++ " not session mapper") in
  _router (sessions w s) (meta_id m) = None ->
  (forall modified persistent force_update,
     Session_add (Session_commit _commit) s o modified persistent force_update w
       = (Raise e, w)) /\
  Session_delete _commit s (DeleteInstance o) w = (Raise e, w) /\
  (forall tag owner,
     Session_delete _commit s (DeleteQuery m tag owner) w = (Raise e, w)) /\
  Session_contains s o w = (Raise e, w).
Proof.
  intros m e H.
  repeat split; intros;
    unfold Session_add, Session_delete, Session_contains, bind at 1, gets, ret;
    unfold bind at 1; fold m; now rewrite (@Session_model_unknown w s m _ H).
Qed.

(** X18.  [Session.delete] of a query that belongs to another session
    raises [ValueError], after [Session.model] has handed out the bucket
    object of the model: the query is not recorded, nothing is committed
    and no instance changes, but a session that had no bucket object for
    the model has an empty one from then on. *)
Theorem Session_delete_foreign_query (w : World) (s owner : sid) (m : Meta)
    (tag : nat) (mg : Manager) :
  _router (sessions w s) (meta_id m) = Some mg ->
  owner <> s ->
  exists id w1,
    Session_delete _commit s (DeleteQuery m tag owner) w =
      (Raise (Exc ValueError "Adding a query generated by another session"),
       w1) /\
    instances w1 = instances w /\ transactions w1 = transactions w /\
    transaction (sessions w1 s) = transaction (sessions w s) /\
    OrderedDict.get Manager_key mg (_models (sessions w1 s)) = Some id /\
    models w1 id = Session_bucket w s mg /\
    (forall j, j <> id -> models w1 j = models w j).
Proof.
  intros H Ho.
  destruct (@Session_model_create w s m mg H)
    as (id & w1 & E & Hi & Ht & Htx & _ & Hg & Hm & Hj).
  exists id, w1. split; [|now repeat split].
  unfold Session_delete, bind at 1, ret. unfold bind at 1. rewrite E.
  unfold bind at 1. apply Nat.eqb_neq in Ho. now rewrite Ho.
Qed.

(** X19.  Within a transaction, [Session.delete] of a query of the
    session itself appends it to [_delete_query] of the bucket object of
    the model and returns it, committing nothing and changing no bucket
    and no instance; when nothing else was waiting to be deleted, the
    delete query of the bucket object is then this query. *)
Theorem Session_delete_own_query (w : World) (s : sid) (t : tid) (m : Meta)
    (tag : nat) (mg : Manager) :
  _router (sessions w s) (meta_id m) = Some mg ->
  transaction (sessions w s) = Some t ->
  exists id w1,
    Session_delete _commit s (DeleteQuery m tag s) w =
      (Return (DeletedQuery (QUser tag s)), w1) /\
    OrderedDict.get Manager_key mg (_models (sessions w1 s)) = Some id /\
    instances w1 = instances w /\ transactions w1 = transactions w /\
    _delete_query (models w1 id)
      = _delete_query (Session_bucket w s mg) ++ [QUser tag s] /\
    _new (models w1 id) = _new (Session_bucket w s mg) /\
    _modified (models w1 id) = _modified (Session_bucket w s mg) /\
    _deleted (models w1 id) = _deleted (Session_bucket w s mg) /\
    _queries (models w1 id) = _queries (Session_bucket w s mg) /\
    (forall j, j <> id -> models w1 j = models w j) /\
    (_deleted (Session_bucket w s mg) = [] ->
     _delete_query (Session_bucket w s mg) = [] ->
     fst (call_model id SessionModel_get_delete_query w1)
       = Return (Some (QUser tag s))).
Proof.
  intros H Tx.
  destruct (@Session_model_create w s m mg H)
    as (id & wm & E & Hi & Ht & Htx & _ & Hg & Hm & Hj).
  unfold Session_delete.
  rewrite (@bind_return _ _ _ (ret m) _ w w m eq_refl).
  rewrite (@bind_return _ _ _ _ _ w wm (Some id) E).
  rewrite Nat.eqb_refl.
  set (wq := {| instances := instances wm;
                models := upd (models wm) id
                            (with_delete_query
                               (_delete_query (models wm id) ++ [QUser tag s])
                               (models wm id));
                sessions := sessions wm; transactions := transactions wm;
                next_id := next_id wm |}).
  assert (Q : (call_model id
                 (set_self (fun b =>
                    with_delete_query (_delete_query b ++ [QUser tag s]) b)) ;;;
               ret (DeletedQuery (QUser tag s))) wm
              = (Return (DeletedQuery (QUser tag s)), wq)) by reflexivity.
  rewrite (@bind_return _ _ _ _ _ wm wq _ Q).
  rewrite (@bind_return _ _ _ (gets (fun w0 => transaction (sessions w0 s)))
             _ wq wq (Some t)) by (unfold gets; cbn; now rewrite Htx, Tx).
  cbn [is_some negb]. unfold ret.
  exists id, wq. split; [reflexivity|].
  cbn [wq instances models sessions transactions next_id].
  rewrite !upd_same. rewrite Hm.
  cbn [with_delete_query _delete_query _new _modified _deleted _queries].
  do 9 (split; [assumption || reflexivity || idtac|]).
  - intros j Hj'. rewrite upd_other by exact Hj'. now apply Hj.
  - intros D Dq. unfold call_model. subst wq.
    cbn [instances models]. rewrite upd_same, Hm.
    unfold SessionModel_get_delete_query, bind, gets, set_self, modify, ret,
      SessionModel_deleted.
    cbn [self heap with_delete_query _delete_query _deleted].
    rewrite D, Dq. reflexivity.
Qed.

End SessionDelete.

Lemma Session_unknown_model_witness :
  let w := {| instances := fun _ => Examples.unsaved
                                      {| meta_id := 3; meta_repr := "examples.trade";
                                         model_name := "Trade";
                                         _model_type := ObjectModel;
                                         pk_to_python := fun raw _ => raw |} 8;
              models := models Examples.world;
              sessions := sessions Examples.world;
              transactions := transactions Examples.world;
              next_id := 1000 |} in
  Session_contains 0 8 w =
    (Raise (Exc InvalidTransaction
              (dquote ++ "examples.trade" ++ dquote ++ " not session mapper")), w).
Proof.
  intros w.
  exact (proj2 (proj2 (proj2
           (@Session_unknown_model (fun _ => ret tt) w 0 8 eq_refl)))).
Defined.

Lemma Session_delete_foreign_query_witness :
  exists w1,
    Session_delete (fun _ => ret tt) 0 (DeleteQuery Examples.Instrument 3 1)
      Examples.open_world =
      (Raise (Exc ValueError "Adding a query generated by another session"),
       w1) /\
    _models (sessions w1 0) = [(Examples.instruments, 1001)] /\
    _delete_query (models w1 1001) = [].
Proof.
  assert (N : 1 <> 0) by discriminate.
  destruct (@Session_delete_foreign_query (fun _ => ret tt) Examples.open_world
              0 1 Examples.Instrument 3 Examples.instruments eq_refl N)
    as (id & w1 & E & _).
  exists w1. split; [exact E|].
  assert (S : w1 = snd (Session_delete (fun _ => ret tt) 0
                          (DeleteQuery Examples.Instrument 3 1)
                          Examples.open_world)) by now rewrite E.
  subst w1. split; reflexivity.
Defined.

Lemma Session_delete_own_query_witness :
  exists id w1,
    Session_delete (fun _ => ret tt) 0 (DeleteQuery Examples.Instrument 3 0)
      Examples.open_world = (Return (DeletedQuery (QUser 3 0)), w1) /\
    _delete_query (models w1 id) = [QUser 3 0] /\
    fst (call_model id SessionModel_get_delete_query w1)
      = Return (Some (QUser 3 0)).
Proof.
  destruct (@Session_delete_own_query (fun _ => ret tt) Examples.open_world
              0 1000 Examples.Instrument 3 Examples.instruments eq_refl eq_refl)
    as (id & w1 & E & _ & _ & _ & Q & _ & _ & _ & _ & _ & G).
  exists id, w1. split; [exact E|]. split; [exact Q|].
  apply G; reflexivity.
Defined.

(** ** [SessionModel.post_commit] *)

Lemma duplicated_without_iid (k : Iid) (sm : SessionModel) :
  duplicated k (without_iid k sm) = false.
Proof. apply not_duplicated_absent, has_iid_without_iid. Qed.

Lemma without_iid_twice (k : Iid) (sm : SessionModel) :
  without_iid k (without_iid k sm) = without_iid k sm.
Proof. apply without_iid_absent, has_iid_without_iid. Qed.

Lemma for_each_one (S A B : Type) (f : B -> A -> Py S B) (x : A) (acc : B)
    (s : S) :
  for_each f [x] acc s = f acc x s.
Proof.
  cbn [for_each]. unfold bind, ret. now destruct (f acc x s) as [[a|e] s'].
Qed.

Lemma with_deleted_same (st : ModelState) :
  st_deleted st = false -> with_deleted st false = st.
Proof. destruct st; cbn. now intros ->. Qed.

(** X20.  What [SessionModel.post_commit] does with the result of an
    instance the bucket object holds, for a result that is not a deletion
    and an instance whose state is not deleted: the instance gets the
    primary key [pk_to_python(result.id, backend)] and the score of the
    result.  In a [SessionModel], when the result is persistent the
    instance leaves every bucket, its state is persistent under the new
    primary key, and it is the one instance reported saved; when it is
    not, the instance is staged again in [_new] under the new primary key
    and nothing is reported.  In a [SessionStructure], whose [add] takes
    over, the instance ends in [_modified] under the iid it had, its
    state is the one it had but for the score, and it is reported saved
    when that state is persistent, whatever the result says. *)
Theorem post_commit_saved (s : SMState) (r : InstanceResult) (o : oid) :
  let k := r_iid r in
  let sm1 := without_iid k (self s) in
  let id := pk_to_python (Manager_meta (manager (self s))) (r_id r)
              (Manager_backend (manager (self s))) in
  r_deleted r = false ->
  duplicated k (self s) = false ->
  hd_error (stored k (self s)) = Some o ->
  st_iid (state (heap s o)) = k ->
  st_deleted (state (heap s o)) = false ->
  exists s',
    pk (heap s' o) = Some id /\
    session (heap s' o) = session (heap s o) /\
    (forall x, x <> o -> heap s' x = heap s x) /\
    match sm_class (self s) with
    | SessionModelClass =>
        SessionModel_post_commit [ResultOk r] s =
          (Return (if r_persistent r then [o] else [], [], []), s') /\
        state (heap s' o) =
          {| st_iid := IidPk id; st_persistent := r_persistent r;
             st_deleted := false; st_action := None; st_score := r_score r |} /\
        self s' =
          (if r_persistent r then sm1
           else with_bucket BNew
                  (OrderedDict.set Iid_eqb (IidPk id) o (_new sm1)) sm1)
    | SessionStructureClass =>
        SessionModel_post_commit [ResultOk r] s =
          (Return (if st_persistent (state (heap s o)) then [o] else [], [], []),
           s') /\
        state (heap s' o) = with_score (state (heap s o)) (r_score r) /\
        self s' =
          with_bucket BModified (OrderedDict.set Iid_eqb k o (_modified sm1)) sm1
    end.
Proof.
  intros k sm1 id Del Dup Hd K Dl.
  set (s1 := {| heap := upd (heap s) o (with_pk (heap s o) (Some id));
                self := sm1 |}).
  assert (Pre : SessionModel_post_commit [ResultOk r] s =
                (o0 <- SessionModel_add o false (Some (r_persistent r)) false ;;
                 set_instance o0
                   (fun i => with_state i (with_score (state i) (r_score r))) ;;;
                 st0 <- get_state o0 ;;
                 if st_persistent st0 then ret ([o0], [], [])
                 else ret ([], [], [])) s1).
  { unfold SessionModel_post_commit. rewrite for_each_one.
    unfold post_commit_step.
    rewrite (@bind_return _ _ _ _ _ _ _ _ (@pop_ok s (ArgIid (r_iid r)) Dup)).
    cbn [pop_iid]. fold k. rewrite Hd. fold sm1.
    unfold bind at 1, gets at 1. cbn [self manager without_iid sm1].
    fold id. fold sm1. rewrite Del.
    assert (E1 : set_instance o (fun i => with_pk i (Some id))
                   {| heap := heap s; self := sm1 |} = (Return tt, s1))
      by reflexivity.
    rewrite (@bind_return _ _ _ _ _ _ _ _ E1). reflexivity. }
  rewrite Pre. clear Pre.
  assert (St : state (heap s1 o) = state (heap s o))
    by (cbn [s1 heap]; now rewrite upd_same).
  assert (Pk : pk (heap s1 o) = Some id)
    by (cbn [s1 heap]; now rewrite upd_same).
  assert (N : stored k sm1 = [])
    by (apply has_iid_stored, has_iid_without_iid).
  assert (Pop : SessionModel_pop (ArgIid k) s1 = (Return None, s1)).
  { rewrite pop_ok; cbn [pop_iid s1 self heap];
      [|apply duplicated_without_iid].
    unfold sm1. rewrite without_iid_twice. fold sm1. now rewrite N. }
  assert (Cl : sm_class (self s1) = sm_class (self s)) by reflexivity.
  destruct (sm_class (self s)) eqn:C.
  - assert (Add : exists h2,
               SessionModel_add o false (Some (r_persistent r)) false s1 =
                 (Return o,
                  {| heap := h2;
                     self := if r_persistent r then sm1
                             else with_bucket BNew
                                    (OrderedDict.set Iid_eqb (IidPk id) o (_new sm1))
                                    sm1 |}) /\
               pk (h2 o) = Some id /\
               state (h2 o) =
                 {| st_iid := IidPk id; st_persistent := r_persistent r;
                    st_deleted := false; st_action := None; st_score := 0 |} /\
               session (h2 o) = session (heap s o) /\
               (forall x, x <> o -> h2 x = heap s x)).
    { unfold SessionModel_add, bind at 1, gets at 1. rewrite Cl.
      unfold SessionModel_add_base, bind at 1, get_state at 1, gets at 1.
      rewrite St, Dl, K.
      unfold bind at 1. rewrite Pop.
      destruct (r_persistent r); cbn -[upd OrderedDict.set new_state];
        unfold bind, get_state_with, get_state, gets, set_instance, set_self,
          modify, ret;
        cbn -[upd OrderedDict.set new_state]; rewrite ?upd_same;
        unfold new_state; cbn -[upd OrderedDict.set]; rewrite ?upd_same;
        cbn -[upd OrderedDict.set];
        (eexists; split; [reflexivity|]);
        rewrite ?upd_same; cbn -[upd OrderedDict.set];
        repeat split; intros x Hx; now rewrite !upd_other. }
    destruct Add as (h2 & Ea & P2 & S2 & L2 & O2).
    rewrite (@bind_return _ _ _ _ _ _ _ _ Ea).
    unfold bind, set_instance, get_state, gets, modify, ret.
    cbn -[upd]. rewrite !upd_same. cbn -[upd]. rewrite S2. cbn -[upd].
    destruct (r_persistent r); cbv beta;
      match goal with
      | |- exists s', _ /\ _ /\ _ /\ ((_, ?st) = _ /\ _) => exists st
      end;
      cbn -[upd]; rewrite !upd_same; cbn -[upd]; rewrite ?S2;
      (split; [assumption|]); (split; [assumption|]);
      (split; [intros x Hx; rewrite upd_other by exact Hx; now apply O2|]);
      repeat split.
  - set (st := state (heap s o)) in *.
    set (s2 := {| heap := upd (heap s1) o (with_state (heap s1 o) st);
                  self := sm1 |}).
    assert (K2 : st_iid (state (heap s2 o)) = k)
      by (cbn [s2 heap]; now rewrite upd_same).
    assert (Pop2 : SessionModel_pop (ArgInstance o) s2 = (Return None, s2)).
    { rewrite pop_ok; cbn [pop_iid]; rewrite K2; cbn [s2 self heap];
        [|apply duplicated_without_iid].
      unfold sm1. rewrite without_iid_twice. fold sm1. now rewrite N. }
    assert (Add : SessionModel_add o false (Some (r_persistent r)) false s1 =
                    (Return o,
                     {| heap := heap s2;
                        self := with_bucket BModified
                                  (OrderedDict.set Iid_eqb k o (_modified sm1))
                                  sm1 |})).
    { unfold SessionModel_add, bind at 1, gets at 1. rewrite Cl.
      unfold SessionStructure_add, bind at 1, get_state at 1, gets at 1.
      rewrite St. fold st. rewrite (with_deleted_same st Dl).
      assert (E2 : set_instance o (fun i => with_state i st) s1 = (Return tt, s2))
        by reflexivity.
      rewrite (@bind_return _ _ _ _ _ _ _ _ E2).
      cbn [negb].
      assert (E3 : (SessionModel_pop (ArgInstance o) ;;; ret tt) s2
                   = (Return tt, s2))
        by (unfold bind; now rewrite Pop2).
      rewrite (@bind_return _ _ _ _ _ _ _ _ E3).
      unfold bind, set_self, modify, ret. cbn [self heap s2]. rewrite K.
      reflexivity. }
    rewrite (@bind_return _ _ _ _ _ _ _ _ Add).
    unfold bind, set_instance, get_state, gets, modify, ret.
    cbn -[upd]. rewrite !upd_same. cbn -[upd].
    destruct (st_persistent st) eqn:P; cbv beta;
      match goal with
      | |- exists s', _ /\ _ /\ _ /\ ((_, ?st) = _ /\ _) => exists st
      end;
      cbn -[upd]; rewrite !upd_same; cbn -[upd];
      (split; [reflexivity|]); (split; [reflexivity|]);
      (split; [intros x Hx; now rewrite !upd_other|]);
      rewrite ?P; repeat split.
Qed.

Lemma post_commit_saved_witness :
  let s := {| heap := Examples.objects; self := Examples.split_dirty |} in
  let r := {| r_iid := IidNew 8; r_id := 42%Z; r_persistent := true;
              r_deleted := false; r_score := 0%Z |} in
  exists s',
    SessionModel_post_commit [ResultOk r] s = (Return ([8], [], []), s') /\
    pk (heap s' 8) = Some 42%Z /\
    st_persistent (state (heap s' 8)) = true /\
    _new (self s') = [].
Proof.
  intros s r.
  destruct (@post_commit_saved s r 8 eq_refl eq_refl eq_refl eq_refl eq_refl)
    as (s' & P & _ & _ & E & St & Sm).
  exists s'. split; [exact E|]. split; [exact P|].
  rewrite St, Sm. split; reflexivity.
Defined.

(** X21.  A result that reports a deletion takes its iid out of every
    bucket and appends [pk_to_python(result.id, backend)] to the deleted
    ids, whether or not a bucket held the iid; no instance is touched: an
    instance that was waiting in [_deleted] keeps its state, marked
    deleted, and its [session] link. *)
Theorem post_commit_deleted (s : SMState) (r : InstanceResult) :
  r_deleted r = true ->
  duplicated (r_iid r) (self s) = false ->
  SessionModel_post_commit [ResultOk r] s =
    (Return ([], [pk_to_python (Manager_meta (manager (self s))) (r_id r)
                    (Manager_backend (manager (self s)))], []),
     {| heap := heap s; self := without_iid (r_iid r) (self s) |}).
Proof.
  intros Del Dup.
  unfold SessionModel_post_commit. rewrite for_each_one.
  unfold post_commit_step.
  rewrite (@bind_return _ _ _ _ _ _ _ _ (@pop_ok s (ArgIid (r_iid r)) Dup)).
  unfold bind, gets, ret. cbn [self manager without_iid]. now rewrite Del.
Qed.

Lemma post_commit_deleted_witness :
  let s := {| heap := Examples.objects; self := MoreExamples.pending_deletes |} in
  let r := {| r_iid := IidPk 5; r_id := 5%Z; r_persistent := false;
              r_deleted := true; r_score := 0%Z |} in
  exists s',
    SessionModel_post_commit [ResultOk r] s = (Return ([], [5%Z], []), s') /\
    _deleted (self s') = [] /\ heap s' = heap s.
Proof.
  intros s r. eexists. split.
  - exact (@post_commit_deleted s r eq_refl eq_refl).
  - split; reflexivity.
Defined.

(** *** No method changes the class of the bucket object *)

Lemma same_class_refl (s : SMState) : same_class s s.
Proof. reflexivity. Qed.

Lemma same_class_trans (a b c : SMState) :
  same_class a b -> same_class b c -> same_class a c.
Proof. unfold same_class. congruence. Qed.

Lemma class_set_self (f : SessionModel -> SessionModel) :
  (forall sm, sm_class (f sm) = sm_class sm) -> keeps same_class (set_self f).
Proof. intros H s r s' E. inversion E. unfold same_class. cbn. now rewrite H. Qed.

Lemma class_set_instance (o : oid) (f : Instance -> Instance) :
  keeps same_class (set_instance o f).
Proof. intros s r s' E. inversion E. reflexivity. Qed.

Ltac class_step :=
  first
    [ apply (@keeps_ret _ _ same_class_refl)
    | apply (@keeps_raise _ _ same_class_refl)
    | apply (@keeps_gets _ _ same_class_refl)
    | apply class_set_self; intros; reflexivity
    | apply class_set_instance
    | apply (@keeps_bind _ _ same_class_trans); [ | intros ?]
    | apply (@keeps_for_each _ _ same_class_refl same_class_trans); intros ? ?
    | match goal with
      | |- keeps _ (match ?x with _ => _ end) => destruct x
      | |- keeps _ (if ?x then _ else _) => destruct x
      end ].

Lemma class_pop (arg : PopArg) : keeps same_class (SessionModel_pop arg).
Proof. unfold SessionModel_pop, pop_from, get_state. repeat class_step. Qed.

Lemma class_add (o : oid) (modified : bool) (persistent : option bool)
    (force_update : bool) :
  keeps same_class (SessionModel_add o modified persistent force_update).
Proof.
  unfold SessionModel_add. apply (@keeps_bind _ _ same_class_trans).
  - apply (@keeps_gets _ _ same_class_refl).
  - intros [|].
    + unfold SessionModel_add_base, get_state_with, get_state.
      repeat first [apply class_pop | class_step].
    + unfold SessionStructure_add, get_state.
      repeat first [apply class_pop | class_step].
Qed.

Lemma class_post_commit_step (acc : list oid * list Z * list Exception)
    (result : BackendResult) :
  keeps same_class (post_commit_step acc result).
Proof.
  destruct acc as [[i d] er]. unfold post_commit_step, get_state.
  destruct result as [e|r];
    repeat first [apply class_pop | apply class_add | class_step].
Qed.

(** X22.  [SessionModel.post_commit] never gets to report the failure of
    one instance: for a result that is an exception it formats a message
    with [self.meta], an attribute the class does not have, so the call
    raises [AttributeError], naming the class of the bucket object; the
    results before it have been applied and those after it are not
    looked at. *)
Theorem post_commit_error_raises (s : SMState) (e : Exception)
    (before after : list BackendResult) (acc : list oid * list Z * list Exception)
    (s1 : SMState) :
  for_each post_commit_step before ([], [], []) s = (Return acc, s1) ->
  SessionModel_post_commit (before ++ ResultError e :: after) s =
    (Raise (Exc AttributeError
              ("'" ++ SessionClass_name (sm_class (self s))
               ++ "' object has no attribute 'meta'")), s1).
Proof.
  intros E.
  assert (C : same_class s s1).
  { apply (@keeps_for_each _ _ same_class_refl same_class_trans _ _
             post_commit_step before class_post_commit_step _ _ _ _ E). }
  unfold SessionModel_post_commit. rewrite for_each_app, E.
  cbn [for_each]. unfold bind, post_commit_step.
  destruct acc as [[i d] er]. unfold gets, raise.
  rewrite C. reflexivity.
Qed.

Lemma post_commit_error_raises_witness :
  let s := {| heap := Examples.objects; self := MoreExamples.pending_deletes |} in
  let r := {| r_iid := IidPk 5; r_id := 5%Z; r_persistent := false;
              r_deleted := true; r_score := 0%Z |} in
  exists s1,
    SessionModel_post_commit
      [ResultOk r; ResultError (Exc ValueError "wrong type"); ResultOk r] s =
      (Raise (Exc AttributeError "'SessionModel' object has no attribute 'meta'"),
       s1) /\
    _deleted (self s1) = [].
Proof.
  intros s r. eexists. split.
  - apply (@post_commit_error_raises s (Exc ValueError "wrong type")
             [ResultOk r] [ResultOk r] ([], [5%Z], [])). reflexivity.
  - reflexivity.
Defined.

(** ** [Transaction._post_commit] *)

Section PostCommit.

Variable send : Signal -> list (Outcome unit).

Lemma scan_inert (t : tid) (session : sid) (response : list ResponseItem) :
  forallb inert response = true ->
  forall (signals : list Signal) (exceptions : list Exception) (w : World),
    for_each (post_commit_scan t session) response (signals, exceptions) w =
      (Return (signals, exceptions ++ response_errors response), w).
Proof.
  induction response as [|r rest IH]; intros H signals exceptions w.
  - cbn. unfold ret. now rewrite app_nil_r.
  - cbn [forallb] in H. apply andb_true_iff in H. destruct H as [Hr H].
    cbn [for_each]. unfold bind.
    destruct r as [e|meta [|x results]|]; try discriminate;
      cbn [post_commit_scan]; unfold ret; rewrite (IH H);
      cbn [response_errors flat_map]; fold (response_errors rest);
      now rewrite <- ?app_assoc.
Qed.

(** X23.  A response in which no item carries results of a model (only
    exceptions, items that are not a [session_result], and empty results)
    reaches no bucket object and sends no signal: [_post_commit] marks
    the transaction finished and changes nothing else; it returns when
    the response holds no exception and otherwise raises
    [CommitException] for exactly the exceptions of the response, in
    order. *)
Theorem post_commit_without_results (t : tid) (session : sid)
    (response : list ResponseItem) (w : World) :
  forallb inert response = true ->
  exists w',
    Transaction_post_commit send t session response w =
      (match response_errors response with
       | [] => Return tt
       | e :: es =>
           Raise (CommitException (commit_error (e :: es))
                    (List.length (e :: es)))
       end, w') /\
    _finished (transactions w' t) = true /\
    saved (transactions w' t) = saved (transactions w t) /\
    deleted (transactions w' t) = deleted (transactions w t) /\
    tx_session (transactions w' t) = tx_session (transactions w t) /\
    (forall t', t' <> t -> transactions w' t' = transactions w t') /\
    instances w' = instances w /\ models w' = models w /\
    sessions w' = sessions w.
Proof.
  intros H. unfold Transaction_post_commit.
  rewrite (@bind_return _ _ _ _ _ _ _ _ (@scan_inert t session response H [] [] w)).
  cbn [app flat_map await_all]. unfold bind at 1, ret at 1.
  unfold post_commit_finish, bind, with_transactions, modify.
  eexists. split.
  - destruct (response_errors response); reflexivity.
  - cbn. rewrite !upd_same. cbn. repeat split.
    intros t' Ht. now rewrite upd_other.
Qed.

(** X24.  The failure of one instance never becomes a
    [CommitException]: when the response, after items without results,
    has the results of a model and one of them is an exception,
    [_post_commit] raises the [AttributeError] of
    [SessionModel.post_commit], which names the class of the bucket
    object of the model; the transaction is not marked finished,
    records nothing in [saved] and [deleted], and no signal is sent. *)
Theorem post_commit_instance_failure (t : tid) (session : sid)
    (pre post : list ResponseItem) (meta : Meta) (mg : Manager)
    (e : Exception) (after : list BackendResult) (w : World) :
  forallb inert pre = true ->
  _router (sessions w session) (meta_id meta) = Some mg ->
  exists w',
    Transaction_post_commit send t session
      (pre ++ ResponseModel meta (ResultError e :: after) :: post) w =
      (Raise (Exc AttributeError
                ("'" ++ SessionClass_name (sm_class (Session_bucket w session mg))
                 ++ "' object has no attribute 'meta'")), w') /\
    transactions w' = transactions w /\
    instances w' = instances w.
Proof.
  intros H Hr. unfold Transaction_post_commit.
  assert (Scan : forall signals exceptions,
             exists w',
               for_each (post_commit_scan t session)
                 (pre ++ ResponseModel meta (ResultError e :: after) :: post)
                 (signals, exceptions) w =
                 (Raise (Exc AttributeError
                           (no_meta_msg (sm_class (Session_bucket w session mg)))),
                  w') /\
               transactions w' = transactions w /\
               instances w' = instances w).
  { clear - H Hr. induction pre as [|r rest IH]; intros signals exceptions.
    - rewrite app_nil_l. cbn [for_each].
      destruct (@Session_model_create w session meta mg Hr)
        as (id & wm & E & Hi & Ht & _ & _ & _ & Hm & _).
      unfold bind at 1. unfold post_commit_scan. cbv beta iota.
      rewrite (@bind_return _ _ _ _ _ _ _ _ E).
      unfold bind, call_model.
      assert (P : SessionModel_post_commit (ResultError e :: after)
                    {| heap := instances wm; self := models wm id |}
                  = (Raise (Exc AttributeError
                              (no_meta_msg (sm_class (Session_bucket w session mg)))),
                     {| heap := instances wm; self := models wm id |}))
        by (rewrite <- Hm; reflexivity).
      rewrite P.
      eexists. split; [reflexivity|]. cbn. split; assumption.
    - cbn [forallb] in H. apply andb_true_iff in H. destruct H as [Hi H].
      rewrite <- app_comm_cons. cbn [for_each]. unfold bind at 1.
      destruct r as [x|m [|y results]|]; try discriminate;
        cbn [post_commit_scan]; unfold ret; apply (IH H). }
  destruct (Scan [] []) as (w' & E & Ht & Hi).
  exists w'. split; [|split; assumption].
  now rewrite (@bind_raise _ _ _ _ _ _ _ _ E).
Qed.

End PostCommit.

Lemma post_commit_without_results_witness :
  exists w',
    Transaction_post_commit (fun _ => []) 1000 0
      [ResponseOther; ResponseError (Exc (BackendError 1) "connection lost");
       ResponseModel Examples.Instrument []] Examples.open_world =
      (Raise (CommitException "connection lost" 1), w') /\
    _finished (transactions w' 1000) = true.
Proof.
  destruct (@post_commit_without_results (fun _ => []) 1000 0
              [ResponseOther; ResponseError (Exc (BackendError 1) "connection lost");
               ResponseModel Examples.Instrument []] Examples.open_world eq_refl)
    as (w' & E & F & _).
  exists w'. split; [exact E | exact F].
Defined.

Lemma post_commit_instance_failure_witness :
  exists w',
    Transaction_post_commit (fun _ => []) 1000 0
      [ResponseOther;
       ResponseModel Examples.Instrument
         [ResultError (Exc (BackendError 1) "connection lost")]]
      Examples.open_world =
      (Raise (Exc AttributeError "'SessionModel' object has no attribute 'meta'"),
       w') /\
    _finished (transactions w' 1000) = false.
Proof.
  destruct (@post_commit_instance_failure (fun _ => []) 1000 0
              [ResponseOther] [] Examples.Instrument Examples.instruments
              (Exc (BackendError 1) "connection lost") [] Examples.open_world
              eq_refl eq_refl)
    as (w' & E & Ht & _).
  exists w'. split; [exact E|]. now rewrite Ht.
Defined.

(** ** Inside a transaction, and leaving it *)

Lemma call_model_sessions (A : Type) (sm : smid) (method : Py SMState A)
    (w : World) :
  sessions (snd (call_model sm method w)) = sessions w /\
  transactions (snd (call_model sm method w)) = transactions w.
Proof.
  unfold call_model.
  destruct (method {| heap := instances w; self := models w sm |}) as [r st].
  split; reflexivity.
Qed.

Lemma Session_model_transaction (w wm : World) (s : sid) (m : Meta)
    (r : Outcome (option smid)) :
  Session_model s m true w = (r, wm) ->
  transaction (sessions wm s) = transaction (sessions w s).
Proof.
  intros E.
  destruct (_router (sessions w s) (meta_id m)) as [mg|] eqn:R.
  - destruct (@Session_model_create w s m mg R)
      as (id & wm' & E' & _ & _ & Htx & _).
    rewrite E in E'. inversion E'; subst. exact Htx.
  - rewrite (@Session_model_unknown w s m true R) in E.
    now inversion E; subst.
Qed.

(** [Session.add] and [Session.delete] with the commit at their end
    left out. *)
Lemma Session_add_in_transaction (c : sid -> Py World unit) (w : World)
    (s : sid) (t : tid) (o : oid) (modified : bool) (persistent : option bool)
    (force_update : bool) :
  transaction (sessions w s) = Some t ->
  Session_add c s o modified persistent force_update w =
    (meta <- gets (fun w => instance_meta (instances w o)) ;;
     sm <- Session_model s meta true ;;
     match sm with
     | None => raise (Exc AttributeError
                        "'NoneType' object has no attribute 'add'")
     | Some sm =>
         with_instance o (fun i => with_session i (Some s)) ;;;
         x <- call_model sm
                (SessionModel_add o modified persistent force_update) ;;
         ret (Immediate x)
     end) w.
Proof.
  intros Tx. unfold Session_add.
  apply bind_congr. intros meta w0 E0. inversion E0; subst w0. clear E0.
  apply bind_congr. intros [id|] wm E; [|reflexivity].
  pose proof (@Session_model_transaction _ _ _ _ _ E) as Htx.
  apply bind_congr. intros [] w1 E1.
  assert (H1 : sessions w1 = sessions wm) by (inversion E1; reflexivity).
  apply bind_congr. intros x w2 E2.
  assert (H2 : sessions w2 = sessions w1).
  { pose proof (@call_model_sessions _ id
                  (SessionModel_add o modified persistent force_update) w1)
      as [Hs _]. now rewrite E2 in Hs. }
  unfold bind, gets. rewrite H2, H1, Htx, Tx. cbn [is_some negb].
  now rewrite andb_false_r.
Qed.

Lemma Session_delete_in_transaction (c : tid -> Py World unit) (w : World)
    (s : sid) (t : tid) (arg : DeleteArg) :
  transaction (sessions w s) = Some t ->
  Session_delete c s arg w =
    (meta <- match arg with
             | DeleteInstance o => gets (fun w => instance_meta (instances w o))
             | DeleteQuery m _ _ => ret m
             end ;;
     sm <- Session_model s meta true ;;
     match sm with
     | None => raise (Exc AttributeError
                        "'NoneType' object has no attribute 'delete'")
     | Some sm =>
         match arg with
         | DeleteQuery _ tag owner =>
             if Nat.eqb owner s then
               call_model sm
                 (set_self (fun b =>
                    with_delete_query (_delete_query b ++ [QUser tag owner]) b)) ;;;
               ret (DeletedQuery (QUser tag owner))
             else
               raise (Exc ValueError
                        "Adding a query generated by another session")
         | DeleteInstance o =>
             r <- call_model sm (SessionModel_delete o s) ;;
             ret (DeletedInstance r)
         end
     end) w.
Proof.
  intros Tx. unfold Session_delete.
  apply bind_congr. intros meta w0 E0.
  assert (w0 = w) by (destruct arg; inversion E0; reflexivity). subst w0.
  apply bind_congr. intros [id|] wm E; [|reflexivity].
  pose proof (@Session_model_transaction _ _ _ _ _ E) as Htx.
  match goal with
  | |- bind ?m _ wm = _ =>
      assert (Hs : forall r w2, m wm = (r, w2) -> sessions w2 = sessions wm)
  end.
  { intros r w2 Em. destruct arg as [o|q tag owner].
    - unfold bind in Em.
      pose proof (@call_model_sessions _ id (SessionModel_delete o s) wm) as [Hs _].
      destruct (call_model id (SessionModel_delete o s) wm) as [[x|e] w3];
        inversion Em; subst; exact Hs.
    - destruct (Nat.eqb owner s); [|now inversion Em].
      unfold bind in Em.
      match type of Em with
      | context [call_model id ?meth wm] =>
          pose proof (@call_model_sessions _ id meth wm) as [Hs _];
          destruct (call_model id meth wm) as [[x|e] w3]
      end; inversion Em; subst; exact Hs. }
  unfold bind at 1.
  match goal with
  | |- match ?m wm with _ => _ end = _ =>
      destruct (m wm) as [[x|e] w2] eqn:Em
  end; [|reflexivity].
  unfold bind, gets. rewrite (Hs _ _ eq_refl), Htx, Tx. reflexivity.
Qed.

(** X25.  Within a transaction neither [Session.add] nor
    [Session.delete] reaches the backends: what they return and the world
    they leave do not depend on what a commit would do, [add] returns the
    instance itself and [delete] what it staged, never the result of a
    commit. *)
Theorem in_transaction_no_commit (c1 c2 : tid -> Py World unit) (w : World)
    (s : sid) (t : tid) :
  transaction (sessions w s) = Some t ->
  (forall o modified persistent force_update,
     Session_add (Session_commit c1) s o modified persistent force_update w
       = Session_add (Session_commit c2) s o modified persistent force_update w /\
     forall x w',
       Session_add (Session_commit c1) s o modified persistent force_update w
         = (Return x, w') -> exists o', x = Immediate o') /\
  (forall arg,
     Session_delete c1 s arg w = Session_delete c2 s arg w /\
     forall x w', Session_delete c1 s arg w = (Return x, w') ->
                  x <> DeletedAfterCommit).
Proof.
  intros Tx. split.
  - intros o modified persistent force_update.
    rewrite !(@Session_add_in_transaction _ w s t o modified persistent
                force_update Tx).
    split; [reflexivity|]. intros x w' E.
    apply bind_return_inv in E. destruct E as (meta & w0 & _ & E).
    apply bind_return_inv in E. destruct E as ([id|] & wm & _ & E);
      [|discriminate].
    apply bind_return_inv in E. destruct E as (u & w1 & _ & E).
    apply bind_return_inv in E. destruct E as (y & w2 & _ & E).
    inversion E. now exists y.
  - intros arg.
    rewrite !(@Session_delete_in_transaction _ w s t arg Tx).
    split; [reflexivity|]. intros x w' E.
    apply bind_return_inv in E. destruct E as (meta & w0 & _ & E).
    apply bind_return_inv in E. destruct E as ([id|] & wm & _ & E);
      [|discriminate].
    destruct arg as [o|q tag owner].
    + apply bind_return_inv in E. destruct E as (y & w2 & _ & E).
      inversion E. discriminate.
    + destruct (Nat.eqb owner s); [|discriminate].
      apply bind_return_inv in E. destruct E as (y & w2 & _ & E).
      inversion E. discriminate.
Qed.

Lemma in_transaction_no_commit_witness :
  Session_add (Session_commit (fun _ => raise (Exc ValueError "no backend")))
    0 8 true None false Examples.open_world
  = Session_add (Session_commit (fun _ => ret tt)) 0 8 true None false
      Examples.open_world.
Proof.
  exact (proj1 (proj1 (@in_transaction_no_commit
                         (fun _ => raise (Exc ValueError "no backend"))
                         (fun _ => ret tt) Examples.open_world 0 1000 eq_refl)
                  8 true None false)).
Defined.

Section Leaving.

Variable _commit : tid -> Py World unit.

(** X26.  Leaving a [with] block on a transaction that was executed
    inside the block (committed or rolled back): when the block ended
    normally, [__exit__] raises [InvalidTransaction] from [commit], its
    rollback does nothing and the backends are not reached; when the
    block raised, [__exit__] does nothing.  Nothing changes either way. *)
Theorem Transaction_exit_executed (t : tid) (w : World) :
  Transaction_executed (transactions w t) = true ->
  Transaction_exit _commit t false w =
    (Raise (Exc InvalidTransaction
              "Invalid operation. Transaction already executed."), w) /\
  Transaction_exit _commit t true w = (Return tt, w).
Proof.
  intros H.
  assert (N : tx_session (transactions w t) = None).
  { unfold Transaction_executed in H.
    now destruct (tx_session (transactions w t)). }
  unfold Transaction_exit, try_except, Transaction_commit, Transaction_rollback,
    bind, gets.
  rewrite H, N. unfold raise, ret. cbv beta iota. rewrite N. split; reflexivity.
Qed.

(** X27.  Within a transaction, [Session.delete] of a persistent
    instance, when the bucket object of its model holds no other object
    under its iid, returns the instance and leaves it in [_deleted] with
    its state marked deleted and its [session] link bound to the session;
    the instance is still [in] the session afterwards. *)
Theorem Session_delete_instance (w : World) (s : sid) (t : tid) (o : oid)
    (mg : Manager) :
  let k := st_iid (state (instances w o)) in
  _router (sessions w s) (meta_id (instance_meta (instances w o))) = Some mg ->
  transaction (sessions w s) = Some t ->
  st_persistent (state (instances w o)) = true ->
  (forall x, In x (stored k (Session_bucket w s mg)) -> x = o) ->
  exists id w1,
    Session_delete _commit s (DeleteInstance o) w =
      (Return (DeletedInstance (Some o)), w1) /\
    OrderedDict.get Manager_key mg (_models (sessions w1 s)) = Some id /\
    OrderedDict.get Iid_eqb k (_deleted (models w1 id)) = Some o /\
    OrderedDict.contains Iid_eqb k (_new (models w1 id)) = false /\
    OrderedDict.contains Iid_eqb k (_modified (models w1 id)) = false /\
    st_deleted (state (instances w1 o)) = true /\
    session (instances w1 o) = Some s /\
    fst (Session_contains s o w1) = Return true.
Proof.
  intros k R Tx P Only.
  destruct (@Session_model_create w s _ mg R)
    as (id & wm & E & Hi & Ht & Htx & Hr & Hg & Hm & Hj).
  set (s0 := {| heap := instances wm; self := models wm id |}).
  assert (K0 : st_iid (state (heap s0 o)) = k) by (cbn; now rewrite Hi).
  assert (Only0 : forall x, In x (stored (st_iid (state (heap s0 o))) (self s0))
                            -> x = o).
  { rewrite K0. cbn [s0 self]. rewrite Hm. exact Only. }
  assert (D : duplicated (st_iid (state (heap s0 o))) (self s0) = false)
    by (eapply only_stored_not_duplicated; exact Only0).
  destruct (@delete_run s0 o s D) as (h1 & Ed & Ho & _).
  assert (O' : match hd_error (stored (st_iid (state (heap s0 o))) (self s0)) with
               | Some i => i
               | None => o
               end = o).
  { destruct (stored (st_iid (state (heap s0 o))) (self s0)) as [|x rest] eqn:St;
      [reflexivity|]. cbn. apply Only0. now left. }
  rewrite O' in Ed, Ho.
  assert (P0 : st_persistent (state (heap s0 o)) = true)
    by (cbn; now rewrite Hi).
  rewrite P0, K0 in Ed. rewrite P0 in Ho.
  unfold Session_delete.
  rewrite (@bind_return _ _ _
             (gets (fun w0 => instance_meta (instances w0 o))) _ w w _ eq_refl).
  rewrite (@bind_return _ _ _ _ _ w wm (Some id) E).
  match type of Ed with
  | _ = (_, ?st1) =>
      set (s1 := st1) in *;
      set (w1 := {| instances := heap s1; models := upd (models wm) id (self s1);
                    sessions := sessions wm; transactions := transactions wm;
                    next_id := next_id wm |})
  end.
  assert (Q : (r <- call_model id (SessionModel_delete o s) ;;
               ret (DeletedInstance r)) wm
              = (Return (DeletedInstance (Some o)), w1)).
  { unfold bind, call_model. fold s0. now rewrite Ed. }
  rewrite (@bind_return _ _ _ _ _ wm w1 _ Q).
  rewrite (@bind_return _ _ _ (gets (fun w0 => transaction (sessions w0 s)))
             _ w1 w1 (Some t)) by (unfold gets; cbn; now rewrite Htx, Tx).
  cbn [is_some negb]. unfold ret.
  exists id, w1. split; [reflexivity|].
  assert (Hk : st_iid (state (instances w1 o)) = k).
  { cbn [w1 instances s1 heap]. rewrite Ho. cbn. exact K0. }
  assert (Gd : OrderedDict.get Iid_eqb k (_deleted (models w1 id)) = Some o).
  { cbn [w1 models]. rewrite upd_same. cbn [s1 self with_bucket _deleted].
    apply OrderedDictFacts.get_set_same, Iid_eqb_refl. }
  split; [exact Hg|]. split; [exact Gd|].
  split.
  { cbn [w1 models]. rewrite upd_same. cbn [s1 self with_bucket _new without_iid].
    apply OrderedDictFacts.contains_remove_same. }
  split.
  { cbn [w1 models]. rewrite upd_same.
    cbn [s1 self with_bucket _modified without_iid].
    apply OrderedDictFacts.contains_remove_same. }
  split; [cbn [w1 instances s1 heap]; rewrite Ho; reflexivity|].
  split; [cbn [w1 instances s1 heap]; rewrite Ho; reflexivity|].
  unfold Session_contains.
  assert (Im : instance_meta (instances w1 o) = instance_meta (instances w o)).
  { cbn [w1 instances s1 heap]. rewrite Ho. cbn. now rewrite Hi. }
  rewrite (@bind_return _ _ _
             (gets (fun w0 => instance_meta (instances w0 o))) _ w1 w1
             (instance_meta (instances w o)))
    by (unfold gets; now rewrite Im).
  assert (R1 : _router (sessions w1 s)
                 (meta_id (instance_meta (instances w o))) = Some mg)
    by (cbn [w1 sessions]; now rewrite Hr).
  rewrite (@bind_return _ _ _ _ _ w1 w1 (Some id)
             (@Session_model_held w1 s _ mg id false R1 Hg)).
  unfold call_model, SessionModel_contains, bind, get_state, gets.
  cbn [heap self fst]. rewrite Hk. unfold has_iid, OrderedDict.contains.
  rewrite Gd. now rewrite !orb_true_r.
Qed.

End Leaving.

Lemma Transaction_exit_executed_witness :
  Transaction_exit (fun _ => ret tt) 5 false Examples.world =
    (Raise (Exc InvalidTransaction
              "Invalid operation. Transaction already executed."),
     Examples.world).
Proof.
  exact (proj1 (@Transaction_exit_executed (fun _ => ret tt) 5 Examples.world
                  eq_refl)).
Defined.

Lemma Session_delete_instance_witness :
  exists id w1,
    Session_delete (fun _ => ret tt) 0 (DeleteInstance 1) Examples.open_world =
      (Return (DeletedInstance (Some 1)), w1) /\
    _deleted (models w1 id) = [(IidPk 5, 1)] /\
    fst (Session_contains 0 1 w1) = Return true.
Proof.
  assert (Only : forall x,
             In x (stored (st_iid (state (instances Examples.open_world 1)))
                     (Session_bucket Examples.open_world 0 Examples.instruments))
             -> x = 1) by (intros x []).
  destruct (@Session_delete_instance (fun _ => ret tt) Examples.open_world 0
              1000 1 Examples.instruments eq_refl eq_refl eq_refl Only)
    as (id & w1 & E & G & _ & _ & _ & _ & _ & C).
  exists id, w1. split; [exact E|]. split; [|exact C].
  assert (S : w1 = snd (Session_delete (fun _ => ret tt) 0 (DeleteInstance 1)
                          Examples.open_world)) by now rewrite E.
  assert (I : id = 1001).
  { rewrite S in G. cbn in G. congruence. }
  subst id w1. reflexivity.
Defined.

(** ** [Session.__contains__] and [ModelDictionary] *)

(** X28.  The membership test of a session changes nothing and creates
    no bucket object: for an instance of a model the router knows it
    returns, leaving every instance, bucket object, session and
    transaction as it was; it is false when the session holds no bucket
    object for the model, and otherwise what the bucket object
    answers. *)
Theorem Session_contains_pure (w : World) (s : sid) (o : oid) (mg : Manager) :
  _router (sessions w s) (meta_id (instance_meta (instances w o))) = Some mg ->
  exists b w',
    Session_contains s o w = (Return b, w') /\
    instances w' = instances w /\ sessions w' = sessions w /\
    transactions w' = transactions w /\ next_id w' = next_id w /\
    (forall j, models w' j = models w j) /\
    b = match OrderedDict.get Manager_key mg (_models (sessions w s)) with
        | Some id => has_iid (st_iid (state (instances w o))) (models w id)
        | None => false
        end.
Proof.
  intros R. unfold Session_contains.
  rewrite (@bind_return _ _ _
             (gets (fun w0 => instance_meta (instances w0 o))) _ w w _ eq_refl).
  destruct (OrderedDict.get Manager_key mg (_models (sessions w s)))
    as [id|] eqn:G.
  - rewrite (@bind_return _ _ _ _ _ w w (Some id)
               (@Session_model_held w s _ mg id false R G)).
    unfold call_model, SessionModel_contains, bind, get_state, gets.
    cbn [heap self]. eexists. eexists. split; [reflexivity|].
    cbn. repeat split. intros j. unfold upd.
    destruct (Nat.eqb j id) eqn:E; [|reflexivity].
    apply Nat.eqb_eq in E. now subst.
  - rewrite (@bind_return _ _ _ _ _ w w None
               (@Session_model_missing w s _ mg R G)).
    exists false, w. repeat split.
Qed.

Lemma Session_contains_pure_witness :
  fst (Session_contains 0 1 Examples.open_world) = Return false.
Proof.
  destruct (@Session_contains_pure Examples.open_world 0 1 Examples.instruments
              eq_refl) as (b & w' & E & _ & _ & _ & _ & _ & ->).
  rewrite E. reflexivity.
Defined.

Lemma Nat_eqb_eq' (a b : nat) : Nat.eqb a b = true <-> a = b.
Proof. apply Nat.eqb_eq. Qed.

(** X29.  A [ModelDictionary] is keyed by the metadata of a model: a
    value stored under a model, one of its managers or one of its
    instances is read back by [d[k]], [k in d], [d.get(k)] and [d.pop(k)]
    under any key with the same metadata; [pop] removes the entry, after
    which [pop] without a default finds no key and [pop] with a default
    returns the default and leaves the dictionary as it is. *)
Theorem ModelDictionary_round_trip (V : Type) (k k' : ModelKey)
    (v default : V) (d : ModelDictionary V) :
  ModelDictionary_meta k' = ModelDictionary_meta k ->
  ModelDictionary_getitem k' (ModelDictionary_setitem k v d) = Some v /\
  ModelDictionary_contains k' (ModelDictionary_setitem k v d) = true /\
  ModelDictionary_get k' default (ModelDictionary_setitem k v d) = v /\
  exists d',
    ModelDictionary_pop k' None (ModelDictionary_setitem k v d) = Some (v, d') /\
    ModelDictionary_contains k d' = false /\
    ModelDictionary_pop k None d' = None /\
    ModelDictionary_pop k (Some default) d' = Some (default, d').
Proof.
  intros H.
  assert (K : ModelDictionary_key k' = ModelDictionary_key k)
    by (unfold ModelDictionary_key; now rewrite H).
  assert (G : OrderedDict.get Nat.eqb (ModelDictionary_key k)
                (OrderedDict.set Nat.eqb (ModelDictionary_key k) v d) = Some v)
    by (rewrite (@get_set _ _ Nat.eqb Nat_eqb_eq'); now rewrite Nat.eqb_refl).
  unfold ModelDictionary_getitem, ModelDictionary_contains, ModelDictionary_get,
    ModelDictionary_pop, ModelDictionary_setitem, OrderedDict.contains.
  rewrite K, G. repeat split.
  eexists. split; [reflexivity|].
  rewrite OrderedDictFacts.get_remove_same. repeat split.
Qed.

Lemma ModelDictionary_round_trip_witness :
  ModelDictionary_getitem (KeyManager Examples.instruments_split)
    (ModelDictionary_setitem (KeyInstance (Examples.objects 1)) [5%Z] [])
  = Some [5%Z].
Proof.
  exact (proj1 (@ModelDictionary_round_trip (list Z)
                  (KeyInstance (Examples.objects 1))
                  (KeyManager Examples.instruments_split) [5%Z] [] [] eq_refl)).
Defined.

(** X30.  Keys with different metadata do not meet in a
    [ModelDictionary]: storing or popping under one leaves what is read
    under the other. *)
Theorem ModelDictionary_other_model (V : Type) (k k' : ModelKey) (v : V)
    (d : ModelDictionary V) :
  meta_id (ModelDictionary_meta k') <> meta_id (ModelDictionary_meta k) ->
  ModelDictionary_getitem k' (ModelDictionary_setitem k v d)
    = ModelDictionary_getitem k' d /\
  (forall x d',
     ModelDictionary_pop k None d = Some (x, d') ->
     ModelDictionary_getitem k' d' = ModelDictionary_getitem k' d).
Proof.
  intros H.
  assert (N : Nat.eqb (ModelDictionary_key k') (ModelDictionary_key k) = false)
    by (apply Nat.eqb_neq; exact H).
  unfold ModelDictionary_getitem, ModelDictionary_setitem, ModelDictionary_pop.
  split.
  - rewrite (@get_set _ _ Nat.eqb Nat_eqb_eq'). now rewrite N.
  - intros x d' E.
    destruct (OrderedDict.get Nat.eqb (ModelDictionary_key k) d);
      [|discriminate].
    inversion E; subst.
    rewrite (@get_remove _ _ Nat.eqb Nat_eqb_eq'). now rewrite N.
Qed.

Lemma ModelDictionary_other_model_witness :
  ModelDictionary_getitem (KeyMeta Examples.Folder)
    (ModelDictionary_setitem (KeyManager Examples.instruments) [5%Z]
       [(2, [9%Z])])
  = Some [9%Z].
Proof.
  assert (N : meta_id (ModelDictionary_meta (KeyMeta Examples.Folder))
              <> meta_id (ModelDictionary_meta (KeyManager Examples.instruments)))
    by discriminate.
  rewrite (proj1 (@ModelDictionary_other_model (list Z)
                    (KeyManager Examples.instruments) (KeyMeta Examples.Folder)
                    [5%Z] [(2, [9%Z])] N)).
  reflexivity.
Defined.
